(** * CF-tgfile-mod: a shallow embedding of the relay worker

    The worker of [src/CF-tgfile-mod.js] accepts uploads, stores the bytes
    in a Telegram chat, keeps one row per file in the D1 table [files] and
    serves the files back through the edge cache.  This development embeds
    the request handlers as functions over an explicit world (table, cache,
    log of the effects performed) and proves the properties the
    specification states about them.

    Conventions.
    - A JavaScript string is a [string]: the bytes of its UTF-8 encoding.
      The separators ['.'] and ['/'], [';'] and the ASCII letters are single
      bytes that occur inside no other character, so splitting, searching
      and ASCII case folding act on the bytes as they act on the
      characters.  [toLowerCase] folds the ASCII letters only, and what is
      stated about lower-casing is stated for ASCII texts.  Where SQLite
      counts characters (LIKE) the text is cut into characters first.
    - A JavaScript number is a [Z] (message ids, sizes, millisecond clocks):
      an integer that a double holds exactly.  It is printed by its digits,
      in exponent form from 10^21 on; fractions, infinities and NaN are no
      values of the model, and a conversion that yields NaN returns [None].
    - [await] is sequencing: a handler is a function from the world to a
      result and the next world; an exception is the [Throw] outcome.
    - The admin handler and the HTML pages are not embedded; a page is the
      [BPage] body. *)

From Stdlib Require Import ZArith Ascii String Lia.
From stdpp Require Import base option list gmap strings sorting pretty.

Set Warnings "-register-all".

Local Open Scope string_scope.
Local Open Scope Z_scope.

(** ** Strings *)

Module Str.

Definition is_upper (c : ascii) : bool :=
  let n := N_of_ascii c in ((65 <=? n) && (n <=? 90))%N.

Definition lower_ascii (c : ascii) : ascii :=
  if is_upper c then ascii_of_N (N_of_ascii c + 32) else c.

(** A text of ASCII characters only. *)
Fixpoint is_ascii (s : string) : bool :=
  match s with
  | EmptyString => true
  | String c s' => (N_of_ascii c <? 128)%N && is_ascii s'
  end.

(** [String.prototype.toLowerCase] on a text of ASCII characters, where it
    turns the letters [A] to [Z] into [a] to [z].  (The letters outside
    ASCII, which JavaScript folds as well, are left as they are: the
    statements about lower-casing are made for ASCII texts.) *)
Fixpoint toLowerCase (s : string) : string :=
  match s with
  | EmptyString => EmptyString
  | String c s' => String (lower_ascii c) (toLowerCase s')
  end.

Fixpoint prefix (p s : string) : bool :=
  match p, s with
  | EmptyString, _ => true
  | String a p', String b s' => if decide (a = b) then prefix p' s' else false
  | String _ _, EmptyString => false
  end.

(** [s.includes(p)]. *)
Fixpoint includes (p s : string) : bool :=
  prefix p s ||
  match s with
  | EmptyString => false
  | String _ s' => includes p s'
  end.

(** [s.split(sep)] for a one-character separator: the pieces between the
    separators, never an empty array. *)
Fixpoint split (sep : ascii) (s : string) : list string :=
  match s with
  | EmptyString => [EmptyString]
  | String c s' =>
      if decide (c = sep) then EmptyString :: split sep s'
      else match split sep s' with
           | [] => [String c EmptyString]
           | piece :: pieces => String c piece :: pieces
           end
  end.

(** [a.pop()] read for its value: the last element, if any. *)
Definition pop {A} (l : list A) : option A := last l.

Fixpoint has_dot (s : string) : bool :=
  match s with
  | EmptyString => false
  | String c s' => if decide (c = "."%char) then true else has_dot s'
  end.

Fixpoint drop (n : nat) (s : string) : string :=
  match n, s with
  | O, _ => s
  | S n', String _ s' => drop n' s'
  | S _, EmptyString => EmptyString
  end.

(** The text after the last dot of [s], when [s] has a dot: what [split]
    followed by [pop] is meant to find. *)
Fixpoint after_last_dot (s : string) : option string :=
  match s with
  | EmptyString => None
  | String c s' =>
      match after_last_dot s' with
      | Some t => Some t
      | None => if decide (c = "."%char) then Some s' else None
      end
  end.

End Str.

(** ** JavaScript values and exceptions *)

Inductive err_class := TypeError | SyntaxError | PlainError.

Record js_error := MkError { err_class_of : err_class; message : string }.

(** [e instanceof TypeError] *)
Definition is_type_error (e : js_error) : bool :=
  match err_class_of e with
  | TypeError => true
  | _ => false
  end.

Inductive outcome (A : Type) :=
| Ok (a : A)
| Throw (e : js_error).
Arguments Ok {A} a.
Arguments Throw {A} e.

Global Instance outcome_ret : MRet outcome := fun A a => Ok a.
Global Instance outcome_bind : MBind outcome := fun A B f m =>
  match m with
  | Ok a => f a
  | Throw e => Throw e
  end.

(** A value as [JSON.parse] and the property reads of the source produce it.
    [VBuiltin name] is the member [name] that every object inherits from
    [Object.prototype]: a function, or the prototype itself for
    [__proto__]. *)
Inductive jsval :=
| VUndef
| VNull
| VBool (b : bool)
| VNum (z : Z)
| VStr (s : string)
| VArr (items : list jsval)
| VObj (props : list (string * jsval))
| VBuiltin (name : string).

Module JS.

Definition truthy (v : jsval) : bool :=
  match v with
  | VUndef | VNull => false
  | VBool b => b
  | VNum z => negb (z =? 0)
  | VStr EmptyString => false
  | VStr (String _ _) => true
  | VArr _ | VObj _ | VBuiltin _ => true
  end.

(** [a || b] *)
Definition or (a b : jsval) : jsval := if truthy a then a else b.

(** The names every plain object inherits from [Object.prototype]. *)
Definition object_prototype : list string :=
  [ "constructor"; "__defineGetter__"; "__defineSetter__"; "hasOwnProperty";
    "__lookupGetter__"; "__lookupSetter__"; "isPrototypeOf";
    "propertyIsEnumerable"; "toString"; "valueOf"; "__proto__";
    "toLocaleString" ].

Fixpoint own (props : list (string * jsval)) (k : string) : option jsval :=
  match props with
  | [] => None
  | (k', v) :: rest => if decide (k' = k) then Some v else own rest k
  end.

Definition inherited (k : string) : jsval :=
  if bool_decide (k ∈ object_prototype) then VBuiltin k else VUndef.

(** The element of [items] whose index prints as [k]. *)
Fixpoint index_go (i : Z) (items : list jsval) (k : string) : option jsval :=
  match items with
  | [] => None
  | x :: rest => if decide (pretty i = k) then Some x else index_go (i + 1) rest k
  end.

Fixpoint char_go (i : Z) (s : string) (k : string) : option jsval :=
  match s with
  | EmptyString => None
  | String c rest =>
      if decide (pretty i = k) then Some (VStr (String c EmptyString))
      else char_go (i + 1) rest k
  end.

Definition read_error (what k : string) : js_error :=
  MkError TypeError
    ("Cannot read properties of " +:+ what +:+ " (reading '" +:+ k +:+ "')").

(** [v[k]] and [v.k].  Arrays and strings answer [length] and their
    indices; the source reads from them no other key that a built-in
    prototype defines.  (A string is indexed by its bytes; the source
    indexes a string only to read [file_id] off the character, which no
    character has.) *)
Definition get (v : jsval) (k : string) : outcome jsval :=
  match v with
  | VUndef => Throw (read_error "undefined" k)
  | VNull => Throw (read_error "null" k)
  | VObj props => Ok (default (inherited k) (own props k))
  | VArr items =>
      if decide (k = "length") then Ok (VNum (Z.of_nat (List.length items)))
      else Ok (default (inherited k) (index_go 0 items k))
  | VStr s =>
      if decide (k = "length") then Ok (VNum (Z.of_nat (String.length s)))
      else Ok (default (inherited k) (char_go 0 s k))
  | VBool _ | VNum _ | VBuiltin _ => Ok (inherited k)
  end.

(** [v?.k] *)
Definition get_opt (v : jsval) (k : string) : outcome jsval :=
  match v with
  | VUndef | VNull => Ok VUndef
  | _ => get v k
  end.

End JS.

(** ** The runtime

    Functions of the JavaScript runtime that the source calls, directly or
    through a conversion, and whose definition lies outside it.  They are
    taken as they come: every statement below holds for every runtime.
    [None] from [StringToNumber] is NaN. *)
Record runtime := MkRuntime {
  atob : string -> outcome string;
  JSON_parse : string -> outcome jsval;
  StringToNumber : string -> option Z;
  toISOString : Z -> string;
  valid_header : string -> bool       (* does [Headers] take this value *)
}.

Module Coerce.

Definition not_primitive : js_error :=
  MkError TypeError "Cannot convert object to primitive value".

(** The digits of a number without the zeros at their end. *)
Fixpoint strip_zeros (s : string) : string :=
  match s with
  | EmptyString => EmptyString
  | String c s' =>
      match strip_zeros s' with
      | EmptyString => if decide (c = "0"%char) then EmptyString else String c EmptyString
      | t => String c t
      end
  end.

(** [Number.prototype.toString] on an integer: its digits below 10^21, and
    from there on the digits that are not zeros at the end, a point after
    the first of them, and the exponent.  (The digits are those of the
    integer itself, which are the ones JavaScript prints up to 2^53 and,
    beyond, for a number of at most fifteen digits followed by zeros.) *)
Definition number_text (z : Z) : string :=
  if Z.abs z <? 10 ^ 21 then pretty z
  else
    let digits := pretty (Z.abs z) in
    match strip_zeros digits with
    | EmptyString => "0"
    | String d rest =>
        (if z <? 0 then "-" else "")
          +:+ String d (match rest with
                        | EmptyString => EmptyString
                        | _ => "." +:+ rest
                        end)
          +:+ "e+" +:+ pretty (Z.of_nat (String.length digits) - 1)
    end.

(** [String(v)], as a template literal applies it.  An object made by
    [JSON.parse] that has a [toString] entry of its own has no callable
    conversion left. *)
Fixpoint to_string (v : jsval) : outcome string :=
  match v with
  | VUndef => Ok "undefined"
  | VNull => Ok "null"
  | VBool b => Ok (if b then "true" else "false")
  | VNum z => Ok (number_text z)
  | VStr s => Ok s
  | VArr items =>
      (fix join (l : list jsval) : outcome string :=
         match l with
         | [] => Ok ""
         | x :: rest =>
             match (match x with
                    | VUndef | VNull => Ok ""
                    | _ => to_string x
                    end) with
             | Throw e => Throw e
             | Ok a =>
                 match rest with
                 | [] => Ok a
                 | _ => match join rest with
                        | Throw e => Throw e
                        | Ok b => Ok (a +:+ "," +:+ b)
                        end
                 end
             end
         end) items
  | VObj props =>
      match JS.own props "toString" with
      | Some _ => Throw not_primitive
      | None => Ok "[object Object]"
      end
  | VBuiltin name =>
      if decide (name = "__proto__") then Ok "[object Object]"
      else if decide (name = "constructor")
      then Ok "function Object() { [native code] }"
      else Ok ("function " +:+ name +:+ "() { [native code] }")
  end.

Section WithRuntime.
Context (rt : runtime).

(** [Number(v)]; [None] is NaN. *)
Definition to_number (v : jsval) : outcome (option Z) :=
  match v with
  | VUndef => Ok None
  | VNull => Ok (Some 0)
  | VBool b => Ok (Some (if b then 1 else 0))
  | VNum z => Ok (Some z)
  | VStr s => Ok (StringToNumber rt s)
  | VArr _ | VObj _ | VBuiltin _ =>
      match to_string v with
      | Ok s => Ok (StringToNumber rt s)
      | Throw e => Throw e
      end
  end.

(** [now > v] for a number [now]. *)
Definition gt (now : Z) (v : jsval) : outcome bool :=
  match to_number v with
  | Ok (Some n) => Ok (n <? now)
  | Ok None => Ok false
  | Throw e => Throw e
  end.

(** The property key of [v - 1]. *)
Definition pred_key (v : jsval) : outcome string :=
  match to_number v with
  | Ok (Some n) => Ok (pretty (n - 1))
  | Ok None => Ok "NaN"
  | Throw e => Throw e
  end.
End WithRuntime.

(** [a === b] where [b] is a string or [undefined]: an object or an array
    is equal to neither. *)
Definition strict_eq (a b : jsval) : bool :=
  match a, b with
  | VUndef, VUndef => true
  | VNull, VNull => true
  | VBool x, VBool y => bool_decide (x = y)
  | VNum x, VNum y => bool_decide (x = y)
  | VStr x, VStr y => bool_decide (x = y)
  | _, _ => false
  end.

(** An environment variable: its text, or [undefined] when unset. *)
Definition of_env (o : option string) : jsval :=
  match o with
  | Some s => VStr s
  | None => VUndef
  end.

End Coerce.

(** ** The content classifier *)

(** The entries of the object literal [types] of [getContentType]. *)
Definition types_table : list (string * jsval) :=
  [ ("jpg", VStr "image/jpeg"); ("jpeg", VStr "image/jpeg");
    ("png", VStr "image/png"); ("gif", VStr "image/gif");
    ("webp", VStr "image/webp"); ("svg", VStr "image/svg+xml");
    ("icon", VStr "image/x-icon");
    ("mp4", VStr "video/mp4"); ("webm", VStr "video/webm");
    ("mp3", VStr "audio/mpeg"); ("wav", VStr "audio/wav");
    ("ogg", VStr "audio/ogg");
    ("pdf", VStr "application/pdf"); ("txt", VStr "text/plain");
    ("md", VStr "text/markdown");
    ("zip", VStr "application/zip");
    ("rar", VStr "application/x-rar-compressed");
    ("json", VStr "application/json"); ("xml", VStr "application/xml");
    ("ini", VStr "text/plain");
    ("js", VStr "application/javascript");
    ("yml", VStr "application/yaml"); ("yaml", VStr "application/yaml");
    ("py", VStr "text/x-python"); ("sh", VStr "application/x-sh") ].

Definition types : jsval := VObj types_table.

(** [getContentType(ext)]: [types[ext] || 'application/octet-stream']. *)
Definition getContentType (ext : string) : jsval :=
  match JS.get types ext with
  | Ok v => JS.or v (VStr "application/octet-stream")
  | Throw _ => VStr "application/octet-stream"
  end.

(** [(name.split('.').pop() || '').toLowerCase()] *)
Definition extension (name : string) : string :=
  Str.toLowerCase (default "" (Str.pop (Str.split "."%char name))).

(** The object literal [typeMap] of [handleUploadRequest]. *)
Definition typeMap : jsval :=
  VObj [ ("image", VObj [("method", VStr "sendPhoto"); ("field", VStr "photo")]);
         ("video", VObj [("method", VStr "sendVideo"); ("field", VStr "video")]);
         ("audio", VObj [("method", VStr "sendAudio"); ("field", VStr "audio")]) ].

Record classification := MkClass {
  cl_mime : string;
  cl_method : jsval;
  cl_field : jsval
}.

(** A destructuring default: [{ k = d } = o]. *)
Definition get_default (o : jsval) (k : string) (d : jsval) : outcome jsval :=
  v ← JS.get o k;
  mret (match v with VUndef => d | _ => v end).

(** Lines 117-125 of [handleUploadRequest]: the MIME type of the extension,
    its family, and the Telegram method and form field of that family.
    [mimeType.split] is a call of [undefined] when [getContentType] hands
    back an inherited member instead of a string. *)
Definition classify (ext : string) : outcome classification :=
  match getContentType ext with
  | VStr mimeType =>
      let mainType := default "" (head (Str.split "/"%char mimeType)) in
      entry ← JS.get typeMap mainType;
      method ← get_default (JS.or entry (VObj [])) "method" (VStr "sendDocument");
      field ← get_default (JS.or entry (VObj [])) "field" (VStr "document");
      if bool_decide (mainType ∈ ["application"; "text"])
      then mret (MkClass mimeType (VStr "sendDocument") (VStr "document"))
      else mret (MkClass mimeType method field)
  | _ => Throw (MkError TypeError
                  "mimeType.split is not a function or its return value is not iterable")
  end.

(** ** The table [files] and the statements run on it

    D1 is SQLite.  A column of TEXT affinity holds NULL or a text, a column
    of INTEGER affinity holds NULL, an integer or a text that is not a
    number (the source writes an ISO date into [created_at]).  Every
    statement runs, except that a search is refused when its LIKE pattern
    is too long; the other limits of the service (the size of a statement,
    of a value) and its outages are not part of the model. *)

Inductive sqlval :=
| SNull
| SInt (z : Z)
| SText (s : string).

Record row := MkRow {
  url : string;
  fileId : string;
  message_id : sqlval;
  created_at : sqlval;
  file_name : option string;
  file_size : sqlval;
  mime_type : option string
}.

Module Sqlite.

(** *** LIKE

    [sqlite3Utf8Read] takes one character off a text: one byte, and when
    that byte is at least 0xC0 every continuation byte (10xxxxxx) after
    it. *)
Definition is_lead (b : ascii) : bool := (192 <=? N_of_ascii b)%N.

Definition is_continuation (b : ascii) : bool :=
  let n := N_of_ascii b in ((128 <=? n) && (n <? 192))%N.

Definition is_lone_continuation (c : string) : bool :=
  match c with
  | String b EmptyString => is_continuation b
  | _ => false
  end.

Fixpoint absorb (cs : list string) : string * list string :=
  match cs with
  | c :: rest =>
      if is_lone_continuation c
      then let '(tail, others) := absorb rest in (c +:+ tail, others)
      else (EmptyString, cs)
  | [] => (EmptyString, [])
  end.

(** The characters of a text, in order. *)
Fixpoint chars (s : string) : list string :=
  match s with
  | EmptyString => []
  | String b s' =>
      if is_lead b
      then let '(tail, others) := absorb (chars s') in String b tail :: others
      else String b EmptyString :: chars s'
  end.

(** [sqlite3Tolower] applies to characters below 0x80 only. *)
Definition fold (c : string) : string :=
  match c with
  | String b EmptyString => String (Str.lower_ascii b) EmptyString
  | _ => c
  end.

Definition same_nocase (c d : string) : bool := bool_decide (fold c = fold d).

Inductive token :=
| Any            (* % *)
| One            (* _ *)
| Lit (c : string).

(** The pattern read with the escape character ['!']: an escaped
    character stands for itself, and a pattern that ends in the escape
    character matches nothing. *)
Fixpoint tokens (escaped : bool) (p : list string) : option (list token) :=
  match p with
  | [] => if escaped then None else Some []
  | c :: rest =>
      if escaped then (Lit c ::.) <$> tokens false rest
      else if decide (c = "!") then tokens true rest
      else if decide (c = "%") then (Any ::.) <$> tokens false rest
      else if decide (c = "_") then (One ::.) <$> tokens false rest
      else (Lit c ::.) <$> tokens false rest
  end.

Fixpoint matches (p : list token) (s : list string) : bool :=
  match p with
  | [] => match s with [] => true | _ => false end
  | Any :: p' =>
      (fix star (s : list string) : bool :=
         matches p' s ||
         match s with
         | [] => false
         | _ :: s' => star s'
         end) s
  | One :: p' =>
      match s with
      | [] => false
      | _ :: s' => matches p' s'
      end
  | Lit c :: p' =>
      match s with
      | [] => false
      | d :: s' => same_nocase c d && matches p' s'
      end
  end.

(** What a reader of C strings sees of a text: the bytes before its first
    NUL.  A text is stored and handed back whole, but [likeFunc] reads
    both of its arguments with [sqlite3_value_text], as C strings. *)
Fixpoint c_string (s : string) : string :=
  match s with
  | EmptyString => EmptyString
  | String b s' =>
      if decide (b = "000"%char) then EmptyString else String b (c_string s')
  end.

(** [text LIKE pattern ESCAPE '!'] on two texts. *)
Definition like (pattern text : string) : bool :=
  match tokens false (chars (c_string pattern)) with
  | Some p => matches p (chars (c_string text))
  | None => false
  end.

(** On a column: NULL is like nothing. *)
Definition like_column (pattern : string) (col : option string) : bool :=
  match col with
  | Some text => like pattern text
  | None => false
  end.

(** *** ORDER BY

    NULL sorts before every integer and every integer before every text;
    texts compare byte by byte. *)
Definition leb (a b : sqlval) : bool :=
  match a, b with
  | SNull, _ => true
  | SInt _, SNull => false
  | SInt x, SInt y => (x <=? y)%Z
  | SInt _, SText _ => true
  | SText _, (SNull | SInt _) => false
  | SText x, SText y => String.leb x y
  end.

(** [r1] may come before [r2] under [ORDER BY created_at DESC]. *)
Definition newer_first (r1 r2 : row) : Prop :=
  leb (created_at r2) (created_at r1) = true.

Global Instance newer_first_dec : RelDecision newer_first.
Proof. intros r1 r2. unfold newer_first. apply _. Defined.

Definition order_by_created_at_desc (rows : list row) : list row :=
  merge_sort newer_first rows.

(** *** The statements of the source *)

(** [SELECT ... FROM files WHERE url = ?], [.first()]. *)
Definition select_first (u : string) (db : list row) : option row :=
  List.find (fun r => bool_decide (url r = u)) db.

(** [DELETE FROM files WHERE url = ?] *)
Definition delete (u : string) (db : list row) : list row :=
  List.filter (fun r => negb (bool_decide (url r = u))) db.

Definition pattern_too_complex : js_error :=
  MkError PlainError "D1_ERROR: LIKE or GLOB pattern too complex: SQLITE_ERROR".

(** [SELECT ... WHERE file_name LIKE ? ESCAPE '!' ... ORDER BY created_at DESC].
    [likeFunc] is called on every row of the table, and before it looks
    at the file name it refuses a pattern of more than [limit] bytes
    (SQLITE_LIMIT_LIKE_PATTERN_LENGTH); that error ends the statement.
    On an empty table it is never called. *)
Definition search (limit : nat) (pattern : string) (db : list row)
    : outcome (list row) :=
  match db with
  | _ :: _ =>
      if (limit <? String.length pattern)%nat then Throw pattern_too_complex
      else Ok (order_by_created_at_desc
                 (List.filter (fun r => like_column pattern (file_name r)) db))
  | [] => Ok []
  end.

Definition constraint_failed (what column : string) : js_error :=
  MkError PlainError
    ("D1_ERROR: " +:+ what +:+ " constraint failed: files." +:+ column
     +:+ ": SQLITE_CONSTRAINT").

(** A value stored in a column of TEXT affinity that is NOT NULL. *)
Definition text_not_null (column : string) (v : sqlval) : outcome string :=
  match v with
  | SNull => Throw (constraint_failed "NOT NULL" column)
  | SInt z => Ok (pretty z)
  | SText s => Ok s
  end.

Definition text_nullable (v : sqlval) : option string :=
  match v with
  | SNull => None
  | SInt z => Some (pretty z)
  | SText s => Some s
  end.

Definition not_null (column : string) (v : sqlval) : outcome sqlval :=
  match v with
  | SNull => Throw (constraint_failed "NOT NULL" column)
  | _ => Ok v
  end.

(** [INSERT INTO files (...) VALUES (?, ?, ?, ?, ?, ?, ?)] with the seven
    values already bound: the NOT NULL columns are checked, then the
    primary key.  The columns of INTEGER affinity keep an integer and a
    text that spells no number as they are: the numbers that Telegram and
    the form send, and the date that the source writes into [created_at].
    (A text that spells a number, which SQLite would store as that number,
    is kept as the text here; no statement below is about such a value.) *)
Definition insert (u : string) (fid mid created fname fsize mime : sqlval)
    (db : list row) : outcome (list row) :=
  fid' ← text_not_null "fileId" fid;
  mid' ← not_null "message_id" mid;
  created' ← not_null "created_at" created;
  match select_first u db with
  | Some _ => Throw (constraint_failed "UNIQUE" "url")
  | None =>
      Ok (db ++ [MkRow u fid' mid' created' (text_nullable fname) fsize
                   (text_nullable mime)])%list
  end.

End Sqlite.

(** ** Requests, responses and the world *)

Record file := MkFile {
  name : string;
  size : Z;
  type : string;
  content : string
}.

(** What [formData.get('file')] finds. *)
Inductive form_entry :=
| NoEntry
| TextEntry (s : string)
| FileEntry (f : file).

Record request := MkRequest {
  method : string;
  req_url : string;
  req_origin : string;                (* new URL(request.url).origin *)
  cookie : option string;             (* request.headers.get("Cookie") *)
  form_file : outcome form_entry;     (* (await request.formData()).get('file') *)
  json_body : outcome jsval           (* await request.json() *)
}.

Inductive resp_body :=
| BText (s : string)
| BJson (v : jsval)
| BFiles (rows : list row)            (* JSON.stringify({ files: rows }) *)
| BPage (which : string)
| BStream (bytes : string).

Record response := MkResponse {
  status : Z;
  headers : list (string * string);
  body : resp_body
}.

Record config := MkConfig {
  origin : string;
  username : option string;
  password : option string;
  enableAuth : bool;
  tgBotToken : option string;
  tgChatId : option string
}.

Inductive form_value :=
| FText (s : string)
| FFile (f : file) (filename : string).

Record net_request := MkNet {
  nr_method : string;
  nr_url : string;
  nr_form : list (string * form_value)
}.

(** What a [fetch] comes back with: an exception, or a reply with its [ok]
    flag, what [.json()] makes of its body, and the body itself. *)
Inductive net_outcome :=
| NetThrow (e : js_error)
| NetReply (ok : bool) (json : outcome jsval) (bytes : string).

(** What the outside answers during one request: the network, what the D1
    client makes of a bound value that is neither null, a boolean, a number
    nor a string, the readings of [Date.now()], and the longest LIKE
    pattern, in bytes, that the database takes (50 000 in a stock SQLite,
    50 on D1). *)
Record env := MkEnv {
  net : net_request -> net_outcome;
  bind_other : jsval -> outcome sqlval;
  now_auth : Z;
  now_time : Z;
  now_stamp : Z;
  like_limit : nat
}.

Inductive event :=
| CacheMatch (key : string)
| CachePut (key : string)
| DbSelect (u : string)
| DbInsert (u : string)
| DbDelete (u : string)
| DbSearch (pattern : string)
| Fetch (r : net_request).

Record world := MkWorld {
  db : list row;
  cache : gmap string response;
  log : list event
}.

(** ** Effects

    A computation takes the world and returns an outcome and the next
    world.  The effects performed before an exception stay performed. *)

Definition M (A : Type) : Type := world -> outcome A * world.

Global Instance M_ret : MRet M := fun A a w => (Ok a, w).
Global Instance M_bind : MBind M := fun A B f m w =>
  match m w with
  | (Ok a, w') => f a w'
  | (Throw e, w') => (Throw e, w')
  end.

Module Eff.

Definition throw {A} (e : js_error) : M A := fun w => (Throw e, w).

Definition lift {A} (o : outcome A) : M A := fun w => (o, w).

(** [try { m } catch (e) { h e }] *)
Definition try_catch {A} (m : M A) (h : js_error -> M A) : M A := fun w =>
  match m w with
  | (Ok a, w') => (Ok a, w')
  | (Throw e, w') => h e w'
  end.

Definition record (e : event) : M unit := fun w =>
  (Ok (), MkWorld (db w) (cache w) (log w ++ [e])%list).

Definition cache_match (key : string) : M (option response) := fun w =>
  (Ok (cache w !! key), MkWorld (db w) (cache w) (log w ++ [CacheMatch key])%list).

Definition cache_put (key : string) (r : response) : M unit := fun w =>
  (Ok (), MkWorld (db w) (<[key := r]> (cache w)) (log w ++ [CachePut key])%list).

Definition db_first (u : string) : M (option row) := fun w =>
  (Ok (Sqlite.select_first u (db w)),
   MkWorld (db w) (cache w) (log w ++ [DbSelect u])%list).

Definition db_search (limit : nat) (pattern : string) : M (list row) := fun w =>
  (Sqlite.search limit pattern (db w),
   MkWorld (db w) (cache w) (log w ++ [DbSearch pattern])%list).

Definition db_delete (u : string) : M unit := fun w =>
  (Ok (), MkWorld (Sqlite.delete u (db w)) (cache w) (log w ++ [DbDelete u])%list).

Definition db_insert (u : string) (fid mid created fname fsize mime : sqlval)
    : M unit := fun w =>
  let w1 := MkWorld (db w) (cache w) (log w ++ [DbInsert u])%list in
  match Sqlite.insert u fid mid created fname fsize mime (db w) with
  | Ok db' => (Ok (), MkWorld db' (cache w1) (log w1))
  | Throw e => (Throw e, w1)
  end.

End Eff.

(** ** Percent encoding *)

Module Uri.

Definition hex_digit (n : N) : ascii :=
  if (n <? 10)%N then ascii_of_N (48 + n) else ascii_of_N (55 + n).

(** The characters [encodeURIComponent] leaves alone. *)
Definition unreserved (c : ascii) : bool :=
  let n := N_of_ascii c in
  ((48 <=? n) && (n <=? 57) || (65 <=? n) && (n <=? 90)
   || (97 <=? n) && (n <=? 122))%N
  || bool_decide (c ∈ ["-"; "_"; "."; "!"; "~"; "*"; "'"; "("; ")"]%char).

Fixpoint encodeURIComponent (s : string) : string :=
  match s with
  | EmptyString => EmptyString
  | String c s' =>
      if unreserved c then String c (encodeURIComponent s')
      else
        let n := N_of_ascii c in
        String "%" (String (hex_digit (n / 16)) (String (hex_digit (n mod 16))
          (encodeURIComponent s')))
  end.

End Uri.

(** ** The cookie *)

Module Cookie.

(** The run of characters other than [';'] at the head of [s]. *)
Fixpoint until_semicolon (s : string) : string :=
  match s with
  | EmptyString => EmptyString
  | String c s' =>
      if decide (c = ";"%char) then EmptyString else String c (until_semicolon s')
  end.

Definition capture_here (s : string) : option string :=
  if Str.prefix "auth_token=" s then
    match until_semicolon (Str.drop 11 s) with
    | EmptyString => None
    | cap => Some cap
    end
  else None.

(** [cookies.match(/auth_token=([^;]+)/)]: the group of the leftmost
    match, if there is one. *)
Fixpoint auth_token (s : string) : option string :=
  match capture_here s with
  | Some cap => Some cap
  | None =>
      match s with
      | EmptyString => None
      | String _ s' => auth_token s'
      end
  end.

End Cookie.

(** ** The handlers *)

Definition json_headers : list (string * string) :=
  [("Content-Type", "application/json")].

Definition text_headers : list (string * string) :=
  [("Content-Type", "text/plain; charset=UTF-8")].

Definition html_headers : list (string * string) :=
  [("Content-Type", "text/html; charset=UTF-8")].

Definition text_response (code : Z) (s : string) : response :=
  MkResponse code text_headers (BText s).

Definition json_response (code : Z) (props : list (string * jsval)) : response :=
  MkResponse code json_headers (BJson (VObj props)).

(** [Response.redirect(to, 302)] *)
Definition redirect (to : string) : response :=
  MkResponse 302 [("Location", to)] (BText "").

Definition telegram_bad_config : string := "Telegram参数配置错误".
Definition no_file : string := "未找到文件".
Definition no_file_id : string := "未获取到文件ID".
Definition no_message_id : string := "未获取到tg消息ID".

Section Worker.

Context (rt : runtime) (ev : env) (cfg : config).

(** [authenticate(request, config)], lines 61-73. *)
Definition token_check (token : string) : outcome bool :=
  decoded ← atob rt token;
  tokenData ← JSON_parse rt decoded;
  expiration ← JS.get tokenData "expiration";
  expired ← Coerce.gt rt (now_auth ev) expiration;
  if expired : bool then mret false
  else
    user ← JS.get tokenData "username";
    mret (Coerce.strict_eq user (Coerce.of_env (username cfg))).

Definition authenticate (req : request) : outcome bool :=
  let cookies := default "" (cookie req) in
  match Cookie.auth_token cookies with
  | None => Ok false
  | Some token =>
      match token_check token with
      | Ok b => Ok b
      | Throw _ => Ok false
      end
  end.

(** [config.enableAuth && !authenticate(request, config)] *)
Definition refused (req : request) : outcome bool :=
  if enableAuth cfg then passed ← authenticate req; mret (negb passed)
  else Ok false.

Definition fetch (r : net_request) : M (bool * outcome jsval * string) :=
  _ ← Eff.record (Fetch r);
  match net ev r with
  | NetThrow e => Eff.throw e
  | NetReply ok json bytes => mret (ok, json, bytes)
  end.

Definition bot_url (path : string) : string :=
  "https://api.telegram.org/bot"
    +:+ default "undefined" (tgBotToken cfg) +:+ "/" +:+ path.

(** What [.bind(...)] makes of one value. *)
Definition bind_value (v : jsval) : outcome sqlval :=
  match v with
  | VNull => Ok SNull
  | VBool b => Ok (SInt (if b then 1 else 0))
  | VNum z => Ok (SInt z)
  | VStr s => Ok (SText s)
  | VUndef | VArr _ | VObj _ | VBuiltin _ => bind_other ev v
  end.

(** Line 137: the file id of whichever shape the reply has. *)
Definition photo_file_id (result : jsval) : outcome jsval :=
  photo ← JS.get_opt result "photo";
  if JS.truthy photo then
    len ← JS.get photo "length";
    key ← Coerce.pred_key rt len;
    last_size ← JS.get photo key;
    JS.get_opt last_size "file_id"
  else mret photo.

Definition nested_file_id (result : jsval) (kind : string) : outcome jsval :=
  media ← JS.get_opt result kind;
  JS.get_opt media "file_id".

Definition file_id_of (result : jsval) : outcome jsval :=
  a ← nested_file_id result "document";
  if JS.truthy a then mret a else
  b ← nested_file_id result "video";
  if JS.truthy b then mret b else
  c ← nested_file_id result "audio";
  if JS.truthy c then mret c else
  photo_file_id result.

Definition upload_request (f : file) (method field : string) : net_request :=
  MkNet "POST" (bot_url method)
    [ ("chat_id", FText (default "undefined" (tgChatId cfg)));
      (field, FFile f (name f)) ].

(** Lines 127-139, the store step: the file goes to Telegram, and the
    reply must be ok and carry a file id and a message id. *)
Definition store (f : file) (cl : classification) : M (jsval * jsval) :=
  field ← Eff.lift (Coerce.to_string (cl_field cl));
  method ← Eff.lift (Coerce.to_string (cl_method cl));
  '(ok, json, _) ← fetch (upload_request f method field);
  if negb ok then Eff.throw (MkError PlainError telegram_bad_config) else
  tgData ← Eff.lift json;
  result ← Eff.lift (JS.get tgData "result");
  messageId ← Eff.lift (JS.get_opt result "message_id");
  fileId ← Eff.lift (file_id_of result);
  if negb (JS.truthy fileId) then Eff.throw (MkError PlainError no_file_id) else
  if negb (JS.truthy messageId) then Eff.throw (MkError PlainError no_message_id) else
  mret (fileId, messageId).

(** Lines 141-150, the index step: the row of the file is inserted under
    its new URL. *)
Definition index (f : file) (ext : string) (fileId messageId : jsval) : M string :=
  let time := now_time ev in
  let timestamp := toISOString rt (now_stamp ev + 8 * 60 * 60 * 1000) in
  let u := origin cfg +:+ "/" +:+ pretty time +:+ "." +:+ ext in
  let mime := JS.or (VStr (type f)) (getContentType ext) in
  fid ← Eff.lift (bind_value fileId);
  mid ← Eff.lift (bind_value messageId);
  mime' ← Eff.lift (bind_value mime);
  _ ← Eff.db_insert u fid mid (SText timestamp) (SText (name f)) (SInt (size f)) mime';
  mret u.

(** Lines 111-113: the file of the form. *)
Definition uploaded_file (req : request) : outcome file :=
  entry ← form_file req;
  match entry with
  | FileEntry f => Ok f
  | TextEntry s =>
      if decide (s = "") then Throw (MkError PlainError no_file)
      else Throw (JS.read_error "undefined" "split")
  | NoEntry => Throw (MkError PlainError no_file)
  end.

(** The [try] block of [handleUploadRequest], lines 111-152. *)
Definition upload_try (req : request) : M response :=
  f ← Eff.lift (uploaded_file req);
  let ext := extension (name f) in
  cl ← Eff.lift (classify ext);
  '(fileId, messageId) ← store f cl;
  u ← index f ext fileId messageId;
  mret (json_response 200
          [("status", VNum 1); ("msg", VStr "✔ 上传成功"); ("url", VStr u)]).

(** Lines 154-156. *)
Definition upload_status (e : js_error) : Z :=
  if Str.includes telegram_bad_config (message e) then 502
  else if is_type_error e && Str.includes "Failed to fetch" (message e)
  then 504
  else 500.

Definition upload_catch (e : js_error) : M response :=
  mret (json_response (upload_status e)
          [("status", VNum 0); ("msg", VStr "✘ 上传失败");
           ("error", VStr (message e))]).

(** [handleUploadRequest(request, config)], lines 100-159. *)
Definition handleUploadRequest (req : request) : M response :=
  no ← Eff.lift (refused req);
  if no : bool then mret (redirect (req_origin req +:+ "/"))
  else if decide (method req = "GET")
  then mret (MkResponse 200 html_headers (BPage "upload"))
  else Eff.try_catch (upload_try req) upload_catch.

(** [const { k } = v]: reading [k] off [null] or [undefined] throws. *)
Definition destructure (v : jsval) (k : string) : outcome jsval :=
  match v with
  | VUndef | VNull =>
      Throw (MkError TypeError
               ("Cannot destructure property '" +:+ k
                +:+ "' of '(intermediate value)' as it is "
                +:+ (match v with VNull => "null" | _ => "undefined" end) +:+ "."))
  | _ => JS.get v k
  end.

(** [handleSearchRequest(request, config)], lines 233-251. *)
Definition search_try (req : request) : M response :=
  data ← Eff.lift (json_body req);
  query ← Eff.lift (destructure data "query");
  q ← Eff.lift (Coerce.to_string query);
  let searchPattern := "%" +:+ q +:+ "%" in
  files ← Eff.db_search (like_limit ev) searchPattern;
  mret (MkResponse 200 json_headers (BFiles files)).

Definition search_catch (e : js_error) : M response :=
  mret (json_response 500 [("error", VStr (message e))]).

Definition handleSearchRequest (req : request) : M response :=
  no ← Eff.lift (refused req);
  if no : bool then mret (redirect (req_origin req +:+ "/"))
  else Eff.try_catch (search_try req) search_catch.

(** A nullable text column read as a JavaScript value. *)
Definition of_column (c : option string) : jsval :=
  match c with
  | Some s => VStr s
  | None => VNull
  end.

Definition file_headers (contentType : string) (f : row) : list (string * string) :=
  [ ("Content-Type", contentType);
    ("Cache-Control", "public, max-age=31536000");
    ("X-Content-Type-Options", "nosniff");
    ("Access-Control-Allow-Origin", "*");
    ("Content-Disposition",
     "inline; filename*=UTF-8''" +:+ Uri.encodeURIComponent (default "" (file_name f))) ].

(** The [try] block of [handleFileRequest], lines 259-289. *)
Definition file_try (req : request) : M response :=
  let u := req_url req in
  cached ← Eff.cache_match u;
  match cached with
  | Some hit => mret hit
  | None =>
      found ← Eff.db_first u;
      match found with
      | None => mret (text_response 404 "文件不存在")
      | Some f =>
          '(ok, json, _) ← fetch (MkNet "GET"
                              (bot_url ("getFile?file_id=" +:+ fileId f)) []);
          if negb ok then mret (text_response 500 "获取文件失败") else
          tgData ← Eff.lift json;
          result ← Eff.lift (JS.get tgData "result");
          filePath ← Eff.lift (JS.get_opt result "file_path");
          if negb (JS.truthy filePath) then mret (text_response 404 "文件路径无效") else
          path ← Eff.lift (Coerce.to_string filePath);
          let fileUrl := "https://api.telegram.org/file/bot"
                           +:+ default "undefined" (tgBotToken cfg) +:+ "/" +:+ path in
          '(ok', _, bytes) ← fetch (MkNet "GET" fileUrl []);
          if negb ok' then mret (text_response 500 "下载文件失败") else
          let ext := Str.toLowerCase (default "" (Str.pop (Str.split "."%char u))) in
          contentType ← Eff.lift (Coerce.to_string
                                    (JS.or (of_column (mime_type f)) (getContentType ext)));
          if negb (valid_header rt contentType)
          then Eff.throw (MkError TypeError "Invalid header value.") else
          let resp := MkResponse 200 (file_headers contentType f) (BStream bytes) in
          _ ← Eff.cache_put u resp;
          mret resp
      end
  end.

Definition file_catch (e : js_error) : M response :=
  mret (text_response 500 "服务器内部错误").

(** [handleFileRequest(request, config)], lines 254-293. *)
Definition handleFileRequest (req : request) : M response :=
  Eff.try_catch (file_try req) file_catch.

Definition print_sql (v : sqlval) : string :=
  match v with
  | SNull => "null"
  | SInt z => pretty z
  | SText s => s
  end.

(** Lines 308-315: the message of whatever went wrong on Telegram's side,
    or [null]. *)
Definition telegram_delete (f : row) : M (option string) :=
  Eff.try_catch
    ('(ok, json, _) ← fetch (MkNet "GET"
        (bot_url ("deleteMessage?chat_id=" +:+ default "undefined" (tgChatId cfg)
                  +:+ "&message_id=" +:+ print_sql (message_id f))) []);
     if negb ok then
       errorData ← Eff.lift json;
       description ← Eff.lift (JS.get errorData "description");
       text ← Eff.lift (Coerce.to_string description);
       Eff.throw (MkError PlainError ("Telegram 消息删除失败: " +:+ text))
     else mret None)
    (fun e => mret (Some (message e))).

Definition deleted_message (deleteError : option string) : string :=
  match deleteError with
  | Some (String c rest as why) =>
      "文件已从数据库删除，但Telegram消息删除失败: " +:+ why
  | Some EmptyString | None => "文件删除成功"
  end.

(** The outer [try] block of [handleDeleteRequest], lines 301-318. *)
Definition delete_try (req : request) : M response :=
  data ← Eff.lift (json_body req);
  target ← Eff.lift (destructure data "url");
  match target with
  | VStr (String _ _ as u) =>
      found ← Eff.db_first u;
      match found with
      | None => mret (json_response 404 [("error", VStr "文件不存在")])
      | Some f =>
          deleteError ← telegram_delete f;
          _ ← Eff.db_delete u;
          mret (json_response 200
                  [("success", VBool true);
                   ("message", VStr (deleted_message deleteError))])
      end
  | _ => mret (json_response 400 [("error", VStr "无效的URL")])
  end.

Definition delete_catch (e : js_error) : M response :=
  mret (json_response 500
          [("error", VStr (if Str.includes "message to delete not found" (message e)
                           then "文件已从频道移除" else message e))]).

(** [handleDeleteRequest(request, config)], lines 296-322. *)
Definition handleDeleteRequest (req : request) : M response :=
  no ← Eff.lift (refused req);
  if no : bool then mret (redirect (req_origin req +:+ "/"))
  else Eff.try_catch (delete_try req) delete_catch.

End Worker.

(** ** The helpers of the admin page *)

(** The double quote, as a text. *)
Definition dq : string := String "034"%char EmptyString.

Module Html.

(** The replacement table of [escapeHtml], line 358. *)
Definition entity (c : ascii) : option string :=
  if decide (c = "&"%char) then Some "&amp;"
  else if decide (c = "<"%char) then Some "&lt;"
  else if decide (c = ">"%char) then Some "&gt;"
  else if decide (c = "034"%char) then Some "&quot;"
  else if decide (c = "'"%char) then Some "&#39;"
  else None.

(** [s.replace(/[...]/g, c => table[c])]: each of the five characters of
    the table is replaced, every other character is kept. *)
Fixpoint replace_specials (s : string) : string :=
  match s with
  | EmptyString => EmptyString
  | String c s' =>
      match entity c with
      | Some e => e +:+ replace_specials s'
      | None => String c (replace_specials s')
      end
  end.

(** [escapeHtml(str)], lines 357-359: [(str || '').replace(...)].  A truthy
    value that is not a string has no [replace]. *)
Definition escapeHtml (str : jsval) : outcome string :=
  match JS.or str (VStr "") with
  | VStr s => Ok (replace_specials s)
  | _ => Throw (MkError TypeError
                  ("(str || " +:+ dq +:+ dq +:+ ").replace is not a function"))
  end.

Definition img (u : string) : string :=
  "<img src=" +:+ dq +:+ u +:+ dq +:+ " alt=" +:+ dq +:+ "预览" +:+ dq +:+ ">".

Definition video (u : string) : string :=
  "<video src=" +:+ dq +:+ u +:+ dq +:+ " controls></video>".

Definition audio (u : string) : string :=
  "<audio src=" +:+ dq +:+ u +:+ dq +:+ " controls></audio>".

Definition icon : string :=
  "<div style=" +:+ dq +:+ "font-size: 48px" +:+ dq +:+ ">📄</div>".

(** [getPreviewHtml(url)], lines 325-334. *)
Definition getPreviewHtml (u : string) : string :=
  let ext := Str.toLowerCase (default "" (Str.pop (Str.split "."%char u))) in
  let isImage :=
    bool_decide (ext ∈ ["jpg"; "jpeg"; "png"; "gif"; "webp"; "svg"; "icon"]) in
  let isVideo := bool_decide (ext ∈ ["mp4"; "webm"]) in
  let isAudio := bool_decide (ext ∈ ["mp3"; "wav"; "ogg"]) in
  if isImage then img u
  else if isVideo then video u
  else if isAudio then audio u
  else icon.

End Html.

Module Size.

Definition units : list string := ["B"; "KB"; "MB"; "GB"].

(** The loop of [formatSize], line 340.  [size] is kept as the fraction
    [bytes / den]: for a whole number of bytes below 2^53 every division
    by 1024 is exact in binary64, so [size >= 1024] is [1024 * den <= bytes].
    Each turn raises [unitIndex], which the guard bounds; [fuel] counts the
    turns left. *)
Fixpoint scale (fuel : nat) (bytes den : Z) (unitIndex : nat) : Z * nat :=
  match fuel with
  | O => (den, unitIndex)
  | S fuel' =>
      if (1024 * den <=? bytes) && (unitIndex <? List.length units - 1)%nat
      then scale fuel' bytes (1024 * den) (S unitIndex)
      else (den, unitIndex)
  end.

(** [Number.prototype.toFixed(2)] of the fraction [num / den], [den > 0]:
    the number of hundredths nearest to its absolute value, the larger one
    of two that are equally near, ... *)
Definition hundredths (num den : Z) : Z := (200 * Z.abs num + den) / (2 * den).

Definition two_digits (n : Z) : string :=
  (if n <? 10 then "0" else "") +:+ pretty n.

(** ... printed with a sign, the whole part, a point and two digits. *)
Definition toFixed2 (num den : Z) : string :=
  let n := hundredths num den in
  (if num <? 0 then "-" else "") +:+ pretty (n / 100) +:+ "."
    +:+ two_digits (n mod 100).

(** [formatSize(bytes)], lines 336-342, for a whole number of bytes. *)
Definition formatSize (bytes : Z) : string :=
  let '(den, unitIndex) := scale (List.length units) bytes 1 0 in
  toFixed2 bytes den +:+ " " +:+ default "undefined" (units !! unitIndex).

End Size.

(** ** Login and routing *)

(** What the login handler asks of the runtime.  [None] is the time value
    of an invalid date. *)
Record login_runtime := MkLoginRuntime {
  btoa : string -> outcome string;
  JSON_stringify : jsval -> string;
  toUTCString : option Z -> string
}.

(** [Number(env.COOKIE) || 7], line 40. *)
Definition cookie_days (rt : runtime) (COOKIE : option string) : Z :=
  match Coerce.to_number rt (Coerce.of_env COOKIE) with
  | Ok (Some n) => if n =? 0 then 7 else n
  | _ => 7
  end.

(** Lines 87-88: [setDate(getDate() + days)] on a date at [now].  The worker
    runs in UTC, where a day is 86400000 ms; a time value beyond
    8.64e15 ms makes the date invalid. *)
Definition expires_at (now days : Z) : option Z :=
  let t := now + days * 86400000 in
  if Z.abs t <=? 8640000000000000 then Some t else None.

(** [{ username: config.username, expiration: expirationDate.getTime() }];
    the time value of an invalid date is NaN, which [JSON.stringify] prints
    as [null]. *)
Definition token_object (cfg : config) (expiration : option Z) : jsval :=
  VObj [ ("username", Coerce.of_env (username cfg));
         ("expiration", match expiration with
                        | Some t => VNum t
                        | None => VNull
                        end) ].

Definition auth_cookie (lrt : login_runtime) (token : string)
    (expiration : option Z) : string :=
  "auth_token=" +:+ token +:+ "; Path=/; HttpOnly; Secure; Expires="
    +:+ toUTCString lrt expiration.

Section Login.

Context (rt : runtime) (lrt : login_runtime) (ev : env) (cfg : config).
Context (days : Z) (now_login : Z).

(** [handleLoginRequest(request, config)], lines 83-97.  Nothing here is
    inside a [try]. *)
Definition handleLoginRequest (req : request) : M response :=
  if decide (method req = "POST") then
    data ← Eff.lift (json_body req);
    user ← Eff.lift (destructure data "username");
    pass ← Eff.lift (destructure data "password");
    if Coerce.strict_eq user (Coerce.of_env (username cfg))
       && Coerce.strict_eq pass (Coerce.of_env (password cfg))
    then
      let expiration := expires_at now_login days in
      token ← Eff.lift (btoa lrt (JSON_stringify lrt (token_object cfg expiration)));
      mret (MkResponse 200
              [ ("Set-Cookie", auth_cookie lrt token expiration);
                ("Content-Type", "text/plain") ]
              (BText "OK"))
    else mret (MkResponse 401 [] (BText "Unauthorized"))
  else mret (MkResponse 200 html_headers (BPage "login")).

(** [handleAuthRequest(request, config)], lines 75-81. *)
Definition handleAuthRequest (req : request) : M response :=
  if enableAuth cfg then
    passed ← Eff.lift (authenticate rt ev cfg req);
    if negb passed then handleLoginRequest req
    else handleUploadRequest rt ev cfg req
  else handleUploadRequest rt ev cfg req.

(** The admin page is not embedded: its handler is taken as it comes. *)
Context (handleAdminRequest : request -> M response).

(** The routing of [fetch], lines 45-56, on [url.pathname].  (A pathname
    starts with a slash, so the lookup in [routes] finds no inherited
    member; [initDatabase] finds the table in place.) *)
Definition route (pathname : string) (req : request) : M response :=
  if decide (pathname = "/") then handleAuthRequest req
  else if decide (pathname = "/login") then handleLoginRequest req
  else if decide (pathname = "/upload") then handleUploadRequest rt ev cfg req
  else if decide (pathname = "/admin") then handleAdminRequest req
  else if decide (pathname = "/delete") then handleDeleteRequest rt ev cfg req
  else if decide (pathname = "/search") then handleSearchRequest rt ev cfg req
  else handleFileRequest rt ev cfg req.

End Login.

(** ** The words of the statements *)

(** What a token must be to pass: it decodes, is not past its expiration,
    and names the configured user. *)
Definition token_accepted (rt : runtime) (ev : env) (cfg : config)
    (token : string) : Prop :=
  exists decoded tokenData expiration user,
    atob rt token = Ok decoded /\
    JSON_parse rt decoded = Ok tokenData /\
    JS.get tokenData "expiration" = Ok expiration /\
    Coerce.gt rt (now_auth ev) expiration = Ok false /\
    JS.get tokenData "username" = Ok user /\
    Coerce.strict_eq user (Coerce.of_env (username cfg)) = true.

(** The store step succeeded: Telegram's reply was ok and carried both a
    file id and a message id. *)
Definition stored (rt : runtime) (ev : env) (cfg : config) (f : file)
    (cl : classification) (fileId messageId : jsval) : Prop :=
  exists field method tgData bytes result,
    Coerce.to_string (cl_field cl) = Ok field /\
    Coerce.to_string (cl_method cl) = Ok method /\
    net ev (upload_request cfg f method field) = NetReply true (Ok tgData) bytes /\
    JS.get tgData "result" = Ok result /\
    JS.get_opt result "message_id" = Ok messageId /\
    file_id_of rt result = Ok fileId /\
    JS.truthy fileId = true /\
    JS.truthy messageId = true.

(** The body of a failed upload. *)
Definition upload_failure (code : Z) (text : string) : response :=
  json_response code
    [("status", VNum 0); ("msg", VStr "✘ 上传失败"); ("error", VStr text)].

Definition get_file_request (cfg : config) (f : row) : net_request :=
  MkNet "GET" (bot_url cfg ("getFile?file_id=" +:+ fileId f)) [].

Definition download_request (cfg : config) (path : string) : net_request :=
  MkNet "GET" ("https://api.telegram.org/file/bot"
                 +:+ default "undefined" (tgBotToken cfg) +:+ "/" +:+ path) [].

Definition delete_request (cfg : config) (f : row) : net_request :=
  MkNet "GET"
    (bot_url cfg ("deleteMessage?chat_id=" +:+ default "undefined" (tgChatId cfg)
                  +:+ "&message_id=" +:+ print_sql (message_id f))) [].

Definition delete_done (text : string) : response :=
  json_response 200 [("success", VBool true); ("message", VStr text)].

Definition delete_not_found : response :=
  json_response 404 [("error", VStr "文件不存在")].

Definition delete_failed_prefix : string :=
  "文件已从数据库删除，但Telegram消息删除失败: ".

Definition logged (w : world) (events : list event) : world :=
  MkWorld (db w) (cache w) (log w ++ events)%list.

Definition known_families : list string :=
  ["image"; "video"; "audio"; "application"; "text"].



(** The text that a template literal makes of a text, of a missing value
    and of a constant. *)
Definition text_of (v : jsval) : option string :=
  match v with
  | VStr s => Some s
  | VUndef => Some "undefined"
  | VNull => Some "null"
  | VBool b => Some (if b then "true" else "false")
  | _ => None
  end.

(** The answer to a search that the database refused. *)
Definition search_refused : response :=
  json_response 500 [("error", VStr (message Sqlite.pattern_too_complex))].

(** The answer to an upload that went through, line 152. *)
Definition upload_done (u : string) : response :=
  json_response 200
    [("status", VNum 1); ("msg", VStr "✔ 上传成功"); ("url", VStr u)].

(** The URL under which an upload is indexed, line 143. *)
Definition upload_url (ev : env) (cfg : config) (f : file) : string :=
  origin cfg +:+ "/" +:+ pretty (now_time ev) +:+ "." +:+ extension (name f).

(** No two rows of the table have the same URL. *)
Definition urls_unique (table : list row) : Prop := NoDup (url <$> table).

(** The answer of a retrieval that went through, lines 279-287. *)
Definition served (contentType : string) (f : row) (bytes : string) : response :=
  MkResponse 200 (file_headers contentType f) (BStream bytes).

(** ** Sample inputs *)

Module Sample.

Definition token_data : jsval :=
  VObj [("username", VStr "admin"); ("expiration", VNum 2000)].

(** A runtime that decodes every token to [token_data]. *)
Definition rt : runtime :=
  MkRuntime (fun s => Ok s) (fun _ => Ok token_data) (fun _ => None)
    (fun _ => "2024-01-01T08:00:00.000Z") (fun _ => true).

Definition cfg : config :=
  MkConfig "https://host" (Some "admin") (Some "secret") true
    (Some "123:abc") (Some "-100").

Definition open_cfg : config :=
  MkConfig "https://host" None None false (Some "123:abc") (Some "-100").

Definition offline : js_error := MkError TypeError "Failed to fetch".

(** An outside where every [fetch] fails. *)
Definition ev : env :=
  MkEnv (fun _ => NetThrow offline)
    (fun _ => Throw (MkError PlainError "D1_TYPE_ERROR")) 1000
    1690000000000 1690000000000 50.

Definition photo : row :=
  MkRow "https://host/1690000000000.png" "AgACAgUAAx" (SInt 42)
    (SText "2023-07-22T12:26:40.000Z") (Some "photo.png") (SInt 1024)
    (Some "image/png").

Definition report : row :=
  MkRow "https://host/1690000000500.pdf" "BQACAgUAAx" (SInt 43)
    (SText "2023-07-22T12:26:40.500Z") (Some "Report.PDF") (SInt 2048)
    (Some "application/pdf").

(** A row without a name, as the schema allows. *)
Definition unnamed : row :=
  MkRow "https://host/1680000000000.bin" "BQACAgUAAy" (SInt 7)
    (SText "2023-03-28T18:40:00.000Z") None SNull None.

Definition world0 : world := MkWorld [photo; unnamed; report] ∅ [].

Definition no_body : js_error :=
  MkError TypeError "Unrecognized Content-Type header value.".

Definition json_request (path : string) (data : jsval) : request :=
  MkRequest "POST" ("https://host" +:+ path) "https://host" None
    (Throw no_body) (Ok data).


Definition delete_of (u : string) : request :=
  json_request "/delete" (VObj [("url", VStr u)]).

Definition picture : file := MkFile "cat.PNG" 1024 "image/png" "...".

Definition upload_of (f : file) : request :=
  MkRequest "POST" "https://host/upload" "https://host" None
    (Ok (FileEntry f)) (Throw no_body).

Definition get_of (u : string) (cookies : option string) : request :=
  MkRequest "GET" u "https://host" cookies (Throw no_body) (Throw no_body).

(** An outside where Telegram refuses every call. *)
Definition refusing : env :=
  MkEnv (fun _ => NetReply false
                    (Ok (VObj [("ok", VBool false);
                               ("description",
                                VStr "Bad Request: message to delete not found")]))
                    "")
    (fun _ => Throw (MkError PlainError "D1_TYPE_ERROR")) 1000
    1690000000000 1690000000000 50.

Definition hit : response :=
  MkResponse 200 [("Content-Type", "image/png")] (BStream "...").

(** The table is empty and the cache still has the picture. *)
Definition cached_world : world :=
  MkWorld [] {[ "https://host/1690000000000.png" := hit ]} [].

End Sample.

(** ** More sample inputs *)

Module More.

Definition issued_at : Z := 1690000000000.

Definition expiry : Z := issued_at + 7 * 86400000.

(** A login runtime that hands out one token. *)
Definition lrt : login_runtime :=
  MkLoginRuntime (fun _ => Ok "dG9rZW4") (fun _ => "payload")
    (fun _ => "Sat, 29 Jul 2023 04:26:40 GMT").

(** A runtime that reads that token back. *)
Definition rt : runtime :=
  MkRuntime (fun _ => Ok "payload")
    (fun _ => Ok (token_object Sample.cfg (Some expiry))) (fun _ => None)
    (fun _ => "2023-07-22T12:26:40.000Z") (fun _ => true).

Definition login_with (user pass : string) : request :=
  Sample.json_request "/login"
    (VObj [("username", VStr user); ("password", VStr pass)]).

(** The outside of a later request, read at [now]. *)
Definition at_time (now : Z) : env :=
  MkEnv (fun _ => NetThrow Sample.offline)
    (fun _ => Throw (MkError PlainError "D1_TYPE_ERROR")) now now now 50.

(** What Telegram answers to [sendPhoto] and to [getFile]. *)
Definition sent_photo : jsval :=
  VObj [ ("ok", VBool true);
         ("result",
          VObj [ ("message_id", VNum 77);
                 ("photo", VArr [ VObj [("file_id", VStr "AgACsmall")];
                                  VObj [("file_id", VStr "AgAClarge")] ]) ]) ].

Definition got_file : jsval :=
  VObj [ ("ok", VBool true);
         ("result", VObj [ ("file_id", VStr "AgAClarge");
                           ("file_path", VStr "photos/file_1.png") ]) ].

(** An outside where Telegram takes every file and hands it back. *)
Definition serving : env :=
  MkEnv (fun r =>
           if Str.prefix "https://api.telegram.org/file/" (nr_url r)
           then NetReply true (Throw Sample.no_body) "PNG bytes"
           else if Str.includes "/getFile" (nr_url r)
           then NetReply true (Ok got_file) "{}"
           else NetReply true (Ok sent_photo) "{}")
    (fun _ => Throw (MkError PlainError "D1_TYPE_ERROR"))
    1690000001000 1690000001000 1690000001000 50.

Definition picture_url : string := "https://host/1690000001000.png".

(** An outside where the connection to Telegram breaks. *)
Definition lost : env :=
  MkEnv (fun _ => NetThrow (MkError TypeError "Network connection lost."))
    (fun _ => Throw (MkError PlainError "D1_TYPE_ERROR"))
    1690000001000 1690000001000 1690000001000 50.

End More.

(** ** Tactics *)

Ltac outcome_steps :=
  unfold mbind, mret, outcome_bind, outcome_ret in *.

Ltac effect_steps :=
  unfold mbind, mret, M_bind, M_ret, Eff.lift, Eff.throw, Eff.try_catch,
    Eff.record, Eff.cache_match, Eff.cache_put, Eff.db_first, Eff.db_search,
    Eff.db_delete in *; cbn [db cache log fst snd].

(** Rewrite with the next hypothesis that decides a step of the handler. *)
Ltac use_eq :=
  match goal with
  | H : ?l = _ |- context [?l] => rewrite H; cbn [db cache log fst snd negb]
  end.

(** * Properties *)

Arguments Sqlite.select_first : simpl never.
Arguments Sqlite.delete : simpl never.
Arguments Sqlite.search : simpl never.
Arguments Sqlite.insert : simpl never.
Arguments JS.get : simpl never.
Arguments JS.get_opt : simpl never.
Arguments JS.truthy : simpl never.
Arguments Coerce.to_string : simpl never.
Arguments Coerce.gt : simpl never.
Arguments classify : simpl never.
Arguments extension : simpl never.
Arguments getContentType : simpl never.
Arguments bot_url : simpl never.
Arguments String.append : simpl never.

(** ** The extension of a file name *)

Section Extension.

Lemma no_dot_no_tail s : Str.has_dot s = false -> Str.after_last_dot s = None.
Proof.
  induction s as [|c s IH]; simpl; [done|].
  destruct (decide (c = "."%char)); [done|].
  intros H. by rewrite IH.
Qed.

Lemma tail_of_last_dot pre t :
  Str.has_dot t = false ->
  Str.after_last_dot (pre +:+ String "." t) = Some t.
Proof.
  intros Ht. induction pre as [|c pre IH]; simpl.
  - by rewrite (no_dot_no_tail t Ht).
  - simpl in IH. by rewrite IH.
Qed.

(** [split] cuts at every dot: its last piece is the text after the last
    dot, and the whole text when there is none. *)
Lemma split_shape s :
  match Str.after_last_dot s with
  | None => Str.split "."%char s = [s]
  | Some t => exists l, l <> [] /\ Str.split "."%char s = (l ++ [t])%list
  end.
Proof.
  induction s as [|c s IH]; simpl; [done|].
  destruct (Str.after_last_dot s) as [t|].
  - destruct IH as (l & Hl & ->).
    destruct (decide (c = "."%char)).
    + exists (EmptyString :: l). done.
    + destruct l as [|p l]; [done|]. exists (String c p :: l). done.
  - rewrite IH. destruct (decide (c = "."%char)).
    + exists [EmptyString]. done.
    + done.
Qed.

Lemma pop_split s :
  Str.pop (Str.split "."%char s) = Some (default s (Str.after_last_dot s)).
Proof.
  unfold Str.pop. pose proof (split_shape s) as H.
  destruct (Str.after_last_dot s) as [t|]; simpl.
  - destruct H as (l & _ & ->). by rewrite last_snoc.
  - by rewrite H.
Qed.

Lemma lower_ascii_idem c : Str.lower_ascii (Str.lower_ascii c) = Str.lower_ascii c.
Proof. by destruct c as [[] [] [] [] [] [] [] []]. Qed.

Lemma toLowerCase_idem s : Str.toLowerCase (Str.toLowerCase s) = Str.toLowerCase s.
Proof. induction s as [|c s IH]; cbn; [done|]. by rewrite lower_ascii_idem, IH. Qed.

Lemma lower_ascii_below_128 c :
  (N_of_ascii c <? 128)%N = true ->
  (N_of_ascii (Str.lower_ascii c) <? 128)%N = true.
Proof. by destruct c as [[] [] [] [] [] [] [] []]. Qed.

Lemma toLowerCase_ascii s :
  Str.is_ascii s = true -> Str.is_ascii (Str.toLowerCase s) = true.
Proof.
  induction s as [|c s IH]; cbn; [done|].
  rewrite !andb_true_iff. intros [Hc Hs].
  split; [by apply lower_ascii_below_128|by apply IH].
Qed.

End Extension.

(** C5, as the code has it.  The piece of the file name that becomes the
    extension is the text after its last dot, and the whole name when it
    has no dot.  The extension is that piece lower-cased - proved where the
    piece is in ASCII, where lower-casing is the turning of [A] to [Z] into
    [a] to [z] (the code also folds the letters outside ASCII, which this
    development does not): so a name without a dot is its own extension,
    lower-cased, and the extension is empty only when the name is empty or
    ends in a dot.  The extension is in ASCII again and lower-casing it
    once more changes nothing. *)
Theorem extension_is_last_piece (name : string) :
  (forall pre t, name = pre +:+ String "." t -> Str.has_dot t = false ->
     Str.pop (Str.split "."%char name) = Some t /\
     (Str.is_ascii t = true ->
      extension name = Str.toLowerCase t /\
      Str.is_ascii (extension name) = true /\
      Str.toLowerCase (extension name) = extension name)) /\
  (Str.has_dot name = false ->
     Str.pop (Str.split "."%char name) = Some name /\
     (Str.is_ascii name = true ->
      extension name = Str.toLowerCase name /\
      Str.is_ascii (extension name) = true /\
      Str.toLowerCase (extension name) = extension name)).
Proof.
  unfold extension. rewrite pop_split. split.
  - intros pre t -> Ht. rewrite (tail_of_last_dot pre t Ht). cbn.
    split; [done|]. intros Hascii.
    split; [done|]. split; [by apply toLowerCase_ascii|apply toLowerCase_idem].
  - intros H. rewrite (no_dot_no_tail name H). cbn.
    split; [done|]. intros Hascii.
    split; [done|]. split; [by apply toLowerCase_ascii|apply toLowerCase_idem].
Qed.

Lemma extension_is_last_piece_witness :
  extension "archive.TAR.Gz" = "gz" /\ extension "README" = "readme".
Proof.
  split.
  - apply (proj2 (proj1 (extension_is_last_piece "archive.TAR.Gz")
                    "archive.TAR" "Gz" eq_refl eq_refl));
      reflexivity.
  - apply (proj2 (proj2 (extension_is_last_piece "README") eq_refl)); reflexivity.
Defined.

(** C5, as the specification words it, fails: a name without a dot does not
    get the empty extension. *)
Lemma extension_without_dot_not_empty :
  ~ (forall name, Str.has_dot name = false -> extension name = "").
Proof.
  intros H. specialize (H "README" eq_refl). vm_compute in H. discriminate.
Qed.

(** ** The content classifier *)

(** Away from the names that every object inherits, the classifier is what
    the specification says: a MIME type for every extension
    ([application/octet-stream] outside the table), the specialised method
    and field for images, videos and audio, the document method and field
    for everything else. *)
Lemma classify_outside_prototype (ext : string) :
  ext ∉ JS.object_prototype ->
  exists mime,
    getContentType ext = VStr mime /\
    (JS.own types_table ext = None -> mime = "application/octet-stream") /\
    let family := default "" (head (Str.split "/"%char mime)) in
    family ∈ known_families /\
    classify ext =
      Ok (MkClass mime
            (VStr (if decide (family = "image") then "sendPhoto"
                   else if decide (family = "video") then "sendVideo"
                   else if decide (family = "audio") then "sendAudio"
                   else "sendDocument"))
            (VStr (if decide (family = "image") then "photo"
                   else if decide (family = "video") then "video"
                   else if decide (family = "audio") then "audio"
                   else "document"))).
Proof.
  intros Hproto.
  assert (Hinh : JS.inherited ext = VUndef).
  { unfold JS.inherited. by rewrite bool_decide_eq_false_2. }
  unfold classify, getContentType, types, types_table, JS.get. simpl JS.own.
  repeat (case_decide;
          [ subst ext; eexists; split; [reflexivity|];
            split; [intros ?; discriminate|]; vm_compute; split;
            [ set_solver | reflexivity ] | ]).
  simpl default. rewrite Hinh. eexists; split; [reflexivity|].
  split; [done|]. vm_compute. split; [set_solver | reflexivity].
Qed.

(** C6 at the inputs where the code leaves it.  A lower-case name that
    [Object.prototype] defines is found in [types] although the table does
    not list it: [getContentType] hands back the inherited member, not a
    MIME type, [classify] throws on it, and the upload of a file so named
    ends in the [catch] block before Telegram is asked anything. *)
Theorem classifier_returns_inherited_member :
  getContentType "constructor" = VBuiltin "constructor" /\
  getContentType "__proto__" = VBuiltin "__proto__" /\
  classify (extension "notes.constructor")
    = Throw (MkError TypeError
               "mimeType.split is not a function or its return value is not iterable") /\
  forall rt ev w content,
    handleUploadRequest rt ev Sample.open_cfg
      (MkRequest "POST" "https://host/upload" "https://host" None
         (Ok (FileEntry (MkFile "notes.constructor" 12 "" content)))
         (Throw (MkError SyntaxError "Unexpected token")))
      w
    = (Ok (json_response 500
             [("status", VNum 0); ("msg", VStr "✘ 上传失败");
              ("error",
               VStr "mimeType.split is not a function or its return value is not iterable")]),
       w).
Proof.
  repeat split; try reflexivity.
Qed.

(** ** The authentication check *)

Section Authenticate.

Context (rt : runtime) (ev : env) (cfg : config).

Lemma token_check_true token :
  token_check rt ev cfg token = Ok true <-> token_accepted rt ev cfg token.
Proof.
  unfold token_check, token_accepted. outcome_steps. split.
  - destruct (atob rt token) as [decoded|] eqn:Hatob; [|done].
    destruct (JSON_parse rt decoded) as [tokenData|] eqn:Hparse; [|done].
    destruct (JS.get tokenData "expiration") as [expiration|] eqn:Hexp; [|done].
    destruct (Coerce.gt rt (now_auth ev) expiration) as [[|]|] eqn:Hgt; [done| |done].
    destruct (JS.get tokenData "username") as [user|] eqn:Huser; [|done].
    intros [= Heq]. exists decoded, tokenData, expiration, user.
    repeat split; assumption.
  - intros (decoded & tokenData & expiration & user & -> & -> & -> & -> & -> & ->).
    done.
Qed.

Lemma authenticate_returns req : exists b, authenticate rt ev cfg req = Ok b.
Proof.
  unfold authenticate.
  destruct (Cookie.auth_token _) as [token|]; [|by exists false].
  destruct (token_check rt ev cfg token) as [b|]; eauto.
Qed.

End Authenticate.

(** C10.  [authenticate] always returns a boolean, and [true] only for a
    request whose cookie carries a token that decodes, is not expired and
    names the configured user; without the cookie, with a token that
    [atob] or [JSON.parse] rejects, with an expired token or with another
    user name it returns [false]. *)
Theorem authenticate_fail_closed (rt : runtime) (ev : env) (cfg : config)
    (req : request) :
  let cookies := default "" (cookie req) in
  let result := authenticate rt ev cfg req in
  (exists b, result = Ok b) /\
  (result = Ok true <->
     exists token,
       Cookie.auth_token cookies = Some token /\ token_accepted rt ev cfg token) /\
  (Cookie.auth_token cookies = None -> result = Ok false) /\
  (forall token, Cookie.auth_token cookies = Some token ->
     (forall e, atob rt token = Throw e -> result = Ok false) /\
     (forall decoded, atob rt token = Ok decoded ->
        (forall e, JSON_parse rt decoded = Throw e -> result = Ok false) /\
        (forall tokenData, JSON_parse rt decoded = Ok tokenData ->
           (forall expiration,
              JS.get tokenData "expiration" = Ok expiration ->
              Coerce.gt rt (now_auth ev) expiration = Ok true ->
              result = Ok false) /\
           (forall user,
              JS.get tokenData "username" = Ok user ->
              Coerce.strict_eq user (Coerce.of_env (username cfg)) = false ->
              result = Ok false)))).
Proof.
  intros cookies result. subst result.
  split; [apply authenticate_returns|].
  split.
  { unfold authenticate. fold cookies.
    destruct (Cookie.auth_token cookies) as [token|].
    - destruct (token_check rt ev cfg token) as [b|] eqn:Hcheck.
      + split.
        * intros [= ->]. exists token. split; [done|]. by apply token_check_true.
        * intros (token' & [= <-] & Hacc). apply token_check_true in Hacc.
          congruence.
      + split; [done|]. intros (token' & [= <-] & Hacc).
        apply token_check_true in Hacc. congruence.
    - split; [done|]. intros (token' & ? & _). done. }
  split.
  { unfold authenticate. fold cookies. by intros ->. }
  intros token Htoken. unfold authenticate. fold cookies. rewrite Htoken.
  unfold token_check. outcome_steps.
  split; [by intros e ->|].
  intros decoded ->. split; [by intros e ->|].
  intros tokenData ->. split.
  - intros expiration -> ->. done.
  - intros user Huser Hne.
    destruct (JS.get tokenData "expiration") as [expiration|]; [|done].
    destruct (Coerce.gt rt (now_auth ev) expiration) as [[|]|]; [done| |done].
    rewrite Huser, Hne. done.
Qed.

(** ** The retrieve flow *)

(** C4.  A request whose URL is in the edge cache gets the cached response
    as it is; the only effect is the cache lookup itself - no statement is
    run on the table and nothing is fetched - whatever the table holds, and
    so also when the row of the URL is gone. *)
Theorem cache_hit_is_served (rt : runtime) (ev : env) (cfg : config)
    (req : request) (w : world) (hit : response) :
  cache w !! req_url req = Some hit ->
  handleFileRequest rt ev cfg req w
    = (Ok hit, logged w [CacheMatch (req_url req)]).
Proof.
  intros Hhit. unfold handleFileRequest, file_try. effect_steps.
  rewrite Hhit. reflexivity.
Qed.

(** C7.  On a cache miss: no row for the URL is a 404; a reply of [getFile]
    without a file path is a 404; a byte fetch that is not ok is a 500 (and
    so is a [getFile] that is not ok); and whatever is thrown on the way is
    answered by one fixed 500 that does not depend on the exception, where
    the [catch] blocks of upload and delete put the message of the
    exception into the body. *)
Theorem retrieve_error_mapping (rt : runtime) (ev : env) (cfg : config)
    (req : request) (w : world) :
  cache w !! req_url req = None ->
  let u := req_url req in
  let out := handleFileRequest rt ev cfg req w in
  (Sqlite.select_first u (db w) = None ->
     out.1 = Ok (text_response 404 "文件不存在")) /\
  (forall f, Sqlite.select_first u (db w) = Some f ->
     (forall json bytes,
        net ev (get_file_request cfg f) = NetReply false json bytes ->
        out.1 = Ok (text_response 500 "获取文件失败")) /\
     (forall tgData bytes result filePath,
        net ev (get_file_request cfg f) = NetReply true (Ok tgData) bytes ->
        JS.get tgData "result" = Ok result ->
        JS.get_opt result "file_path" = Ok filePath ->
        (JS.truthy filePath = false ->
           out.1 = Ok (text_response 404 "文件路径无效")) /\
        (forall path json' bytes',
           JS.truthy filePath = true ->
           Coerce.to_string filePath = Ok path ->
           net ev (download_request cfg path) = NetReply false json' bytes' ->
           out.1 = Ok (text_response 500 "下载文件失败")))) /\
  (forall e w1,
     file_try rt ev cfg req w = (Throw e, w1) ->
     out = (Ok (text_response 500 "服务器内部错误"), w1)) /\
  (exists r w1, out = (Ok r, w1)) /\
  (forall e e' w1, file_catch e w1 = file_catch e' w1) /\
  (forall e w1,
     upload_catch e w1 = (Ok (upload_failure (upload_status e) (message e)), w1) /\
     (Str.includes "message to delete not found" (message e) = false ->
      delete_catch e w1 = (Ok (json_response 500 [("error", VStr (message e))]), w1))).
Proof.
  intros Hmiss u out. subst out u.
  unfold handleFileRequest. repeat split.
  - intros Hnone. unfold file_try. effect_steps. by do 2 use_eq.
  - intros json bytes Hnet. unfold file_try, fetch, get_file_request in *.
    effect_steps. by do 3 use_eq.
  - intros Hfalsy. unfold file_try, fetch, get_file_request in *.
    effect_steps. by do 6 use_eq.
  - intros path json' bytes' Htruthy Hpath Hnet.
    unfold file_try, fetch, get_file_request, download_request in *.
    effect_steps. by do 8 use_eq.
  - intros e w1 Htry. unfold Eff.try_catch. rewrite Htry. done.
  - unfold Eff.try_catch.
    destruct (file_try rt ev cfg req w) as [[r|e] w1]; eauto.
  - intros Hno. unfold delete_catch. by rewrite Hno.
Qed.

(** ** The upload flow *)

Section Upload.

Context (rt : runtime) (ev : env) (cfg : config).

(** The store step only talks to Telegram. *)
Lemma store_keeps_table f cl w :
  db (store rt ev cfg f cl w).2 = db w /\
  cache (store rt ev cfg f cl w).2 = cache w.
Proof.
  unfold store, fetch. effect_steps.
  destruct (Coerce.to_string (cl_field cl)); [|done].
  destruct (Coerce.to_string (cl_method cl)); [|done].
  destruct (net ev _) as [e|[|] [tgData|e] bytes]; cbn; try done.
  destruct (JS.get tgData "result") as [result|]; [|done].
  destruct (JS.get_opt result "message_id") as [messageId|]; [|done].
  destruct (file_id_of rt result) as [fileId|]; [|done].
  destruct (JS.truthy fileId); [|done].
  destruct (JS.truthy messageId); done.
Qed.

Lemma store_ok_inv f cl w fileId messageId w1 :
  store rt ev cfg f cl w = (Ok (fileId, messageId), w1) ->
  stored rt ev cfg f cl fileId messageId.
Proof.
  unfold store, fetch, stored. effect_steps.
  destruct (Coerce.to_string (cl_field cl)) as [field|] eqn:Hf; [|done].
  destruct (Coerce.to_string (cl_method cl)) as [method|] eqn:Hm; [|done].
  destruct (net ev _) as [e|[|] [tgData|e] bytes] eqn:Hnet; cbn; try done.
  destruct (JS.get tgData "result") as [result|] eqn:Hres; [|done].
  destruct (JS.get_opt result "message_id") as [mid|] eqn:Hmid; [|done].
  destruct (file_id_of rt result) as [fid|] eqn:Hfid; [|done].
  destruct (JS.truthy fid) eqn:Htf; [|done].
  destruct (JS.truthy mid) eqn:Htm; [|done].
  cbn. intros [= <- <- <-].
  exists field, method, tgData, bytes, result. done.
Qed.

(** The index step leaves the table alone or adds one row under the URL
    it returns. *)
Lemma index_effect f ext fileId messageId w :
  match index rt ev cfg f ext fileId messageId w with
  | (Ok u, w1) =>
      exists r, db w1 = (db w ++ [r])%list /\ url r = u /\
                u = origin cfg +:+ "/" +:+ pretty (now_time ev) +:+ "." +:+ ext
  | (Throw _, w1) => db w1 = db w
  end.
Proof.
  unfold index, Eff.db_insert. effect_steps.
  destruct (bind_value ev fileId) as [fid|]; [|done].
  destruct (bind_value ev messageId) as [mid|]; [|done].
  destruct (bind_value ev _) as [mime|]; [|done].
  destruct (Sqlite.insert _ _ _ _ _ _ _ _) as [db'|e] eqn:Hins; cbn; [|done].
  unfold Sqlite.insert in Hins. outcome_steps.
  destruct (Sqlite.text_not_null _ fid); [|done].
  destruct (Sqlite.not_null _ mid); [|done].
  cbn in Hins. destruct (Sqlite.select_first _ _); [done|].
  injection Hins as <-. eexists. done.
Qed.

(** The table after an upload request: as before, or one row longer after
    a store step that succeeded. *)
Lemma upload_table req w :
  let w' := (handleUploadRequest rt ev cfg req w).2 in
  db w' = db w \/
  exists f cl fileId messageId r,
    uploaded_file req = Ok f /\
    classify (extension (name f)) = Ok cl /\
    stored rt ev cfg f cl fileId messageId /\
    db w' = (db w ++ [r])%list /\
    url r = origin cfg +:+ "/" +:+ pretty (now_time ev) +:+ "."
              +:+ extension (name f).
Proof.
  unfold handleUploadRequest. effect_steps.
  destruct (refused rt ev cfg req) as [[|]|]; cbn; [by left| |by left].
  destruct (decide (method req = "GET")); [by left|].
  unfold upload_try. effect_steps.
  destruct (uploaded_file req) as [f|] eqn:Hfile; [|by left].
  destruct (classify (extension (name f))) as [cl|] eqn:Hcl; [|by left].
  pose proof (store_keeps_table f cl w) as [Hdb _].
  destruct (store rt ev cfg f cl w) as [[[fileId messageId]|e] w1] eqn:Hstore;
    cbn in *; [|by left].
  apply store_ok_inv in Hstore.
  pose proof (index_effect f (extension (name f)) fileId messageId w1) as Hidx.
  destruct (index rt ev cfg f _ fileId messageId w1) as [[u|e] w2]; cbn.
  - destruct Hidx as (r & Hr & Hu & ->). right.
    exists f, cl, fileId, messageId, r. rewrite Hr, Hdb. done.
  - left. congruence.
Qed.

End Upload.

(** C1.  The table after an upload request is the table before it, or the
    table before it with one row added after a store step that succeeded
    with a file id and a message id.  In particular a reply that is not ok,
    a reply without a file id and a reply without a message id leave the
    table as it was. *)
Theorem upload_atomicity (rt : runtime) (ev : env) (cfg : config)
    (req : request) (w : world) :
  let w' := (handleUploadRequest rt ev cfg req w).2 in
  (db w' = db w \/
   exists f cl fileId messageId r,
     uploaded_file req = Ok f /\
     classify (extension (name f)) = Ok cl /\
     stored rt ev cfg f cl fileId messageId /\
     db w' = (db w ++ [r])%list /\
     url r = origin cfg +:+ "/" +:+ pretty (now_time ev) +:+ "."
               +:+ extension (name f)) /\
  (forall f cl field method,
     uploaded_file req = Ok f ->
     classify (extension (name f)) = Ok cl ->
     Coerce.to_string (cl_field cl) = Ok field ->
     Coerce.to_string (cl_method cl) = Ok method ->
     let reply := net ev (upload_request cfg f method field) in
     (forall json bytes, reply = NetReply false json bytes -> db w' = db w) /\
     (forall tgData bytes result,
        reply = NetReply true (Ok tgData) bytes ->
        JS.get tgData "result" = Ok result ->
        (forall fileId,
           file_id_of rt result = Ok fileId -> JS.truthy fileId = false ->
           db w' = db w) /\
        (forall messageId,
           JS.get_opt result "message_id" = Ok messageId ->
           JS.truthy messageId = false ->
           db w' = db w))).
Proof.
  intros w'. pose proof (upload_table rt ev cfg req w) as Htable.
  fold w' in Htable. split; [exact Htable|].
  intros f cl field method Hf Hcl Hfield Hmethod reply.
  assert (Hcases : forall fileId messageId,
             stored rt ev cfg f cl fileId messageId ->
             exists tgData bytes result,
               reply = NetReply true (Ok tgData) bytes /\
               JS.get tgData "result" = Ok result /\
               JS.get_opt result "message_id" = Ok messageId /\
               file_id_of rt result = Ok fileId /\
               JS.truthy fileId = true /\ JS.truthy messageId = true).
  { intros fileId messageId (fd & md & tgData & bytes & result & H1 & H2 & H3 & H4).
    exists tgData, bytes, result. subst reply.
    rewrite Hfield in H1. rewrite Hmethod in H2.
    injection H1 as <-. injection H2 as <-. done. }
  assert (Hchanged : db w' = db w \/
             exists fileId messageId, stored rt ev cfg f cl fileId messageId).
  { destruct Htable as [?|(f' & cl' & fid & mid & r & Hf' & Hcl' & Hst & _)];
      [by left|].
    rewrite Hf in Hf'. injection Hf' as <-. rewrite Hcl in Hcl'.
    injection Hcl' as <-. eauto. }
  destruct Hchanged as [Hsame|(fid & mid & Hst)].
  { repeat split; intros; exact Hsame. }
  destruct (Hcases _ _ Hst) as (tg & bs & res & Hr & Hres & Hmid & Hfid & Htf & Htm).
  split.
  - intros json bytes Hreply. congruence.
  - intros tgData bytes result Hreply Hresult.
    rewrite Hreply in Hr. injection Hr as <- <-.
    rewrite Hresult in Hres. injection Hres as <-.
    split; intros; congruence.
Qed.

Lemma insert_error_is_500 u fid mid created fname fsize mime table e :
  Sqlite.insert u fid mid created fname fsize mime table = Throw e ->
  upload_status e = 500.
Proof.
  unfold Sqlite.insert. outcome_steps.
  destruct fid; simpl; [by intros [= <-]| |];
    (destruct mid; simpl; [by intros [= <-]| |]);
    (destruct created; simpl; [by intros [= <-]| |]);
    (destruct (Sqlite.select_first u table); [by intros [= <-]|done]).
Qed.

(** The statuses of a failed upload.  It is answered with the message of
    the error in the body and a status chosen from the error: 502 for a
    reply of Telegram that is not ok, 504 for a [fetch] that threw a
    TypeError whose message has "Failed to fetch" in it, 500 for a missing
    file, a missing file id, a missing message id, a failed insert, and
    for every other error that is neither of the two kinds above. *)
Theorem upload_failure_status (rt : runtime) (ev : env) (cfg : config)
    (req : request) (w : world) :
  refused rt ev cfg req = Ok false ->
  method req <> "GET" ->
  let out := handleUploadRequest rt ev cfg req w in
  (forall e w1,
     upload_try rt ev cfg req w = (Throw e, w1) ->
     out = (Ok (upload_failure (upload_status e) (message e)), w1)) /\
  (forall e,
     Str.includes telegram_bad_config (message e) = false ->
     is_type_error e && Str.includes "Failed to fetch" (message e) = false ->
     upload_status e = 500) /\
  (form_file req = Ok NoEntry -> out.1 = Ok (upload_failure 500 no_file)) /\
  (forall f cl field method,
     uploaded_file req = Ok f ->
     classify (extension (name f)) = Ok cl ->
     Coerce.to_string (cl_field cl) = Ok field ->
     Coerce.to_string (cl_method cl) = Ok method ->
     let reply := net ev (upload_request cfg f method field) in
     (forall json bytes,
        reply = NetReply false json bytes ->
        out.1 = Ok (upload_failure 502 telegram_bad_config)) /\
     (forall e,
        reply = NetThrow e ->
        is_type_error e = true ->
        Str.includes "Failed to fetch" (message e) = true ->
        Str.includes telegram_bad_config (message e) = false ->
        out.1 = Ok (upload_failure 504 (message e))) /\
     (forall tgData bytes result fileId messageId,
        reply = NetReply true (Ok tgData) bytes ->
        JS.get tgData "result" = Ok result ->
        JS.get_opt result "message_id" = Ok messageId ->
        file_id_of rt result = Ok fileId ->
        (JS.truthy fileId = false ->
           out.1 = Ok (upload_failure 500 no_file_id)) /\
        (JS.truthy fileId = true -> JS.truthy messageId = false ->
           out.1 = Ok (upload_failure 500 no_message_id)) /\
        (forall fid mid mime e,
           JS.truthy fileId = true -> JS.truthy messageId = true ->
           bind_value ev fileId = Ok fid ->
           bind_value ev messageId = Ok mid ->
           bind_value ev (JS.or (VStr (type f)) (getContentType (extension (name f))))
             = Ok mime ->
           Sqlite.insert
             (origin cfg +:+ "/" +:+ pretty (now_time ev) +:+ "."
                +:+ extension (name f))
             fid mid (SText (toISOString rt (now_stamp ev + 8 * 60 * 60 * 1000)))
             (SText (name f)) (SInt (size f)) mime (db w) = Throw e ->
           out.1 = Ok (upload_failure 500 (message e))))).
Proof.
  intros Hauth Hmethod out. subst out.
  unfold handleUploadRequest. effect_steps. rewrite Hauth. cbn.
  destruct (decide (method req = "GET")) as [|_]; [done|].
  split; [|split; [|split]].
  - intros e w1 ->. done.
  - intros e Hno Hnot. unfold upload_status. by rewrite Hno, Hnot.
  - intros Hform. unfold upload_try, uploaded_file. outcome_steps. effect_steps.
    rewrite Hform. done.
  - intros f cl field method Hf Hcl Hfield Hmeth.
    unfold upload_try, store, fetch. effect_steps.
    rewrite Hf, Hcl, Hfield, Hmeth. cbn.
    split; [|split].
    + intros json bytes ->. done.
    + intros e -> Hte Hfetch Hno. cbn. unfold upload_status.
      by rewrite Hno, Hte, Hfetch.
    + intros tgData bytes result fileId messageId -> Hres Hmid Hfid. cbn.
      rewrite Hres, Hmid, Hfid. cbn.
      split; [|split].
      * intros ->. done.
      * intros -> ->. done.
      * intros fid mid mime e -> -> Hb1 Hb2 Hb3 Hins. cbn.
        unfold index, Eff.db_insert. effect_steps.
        rewrite Hb1, Hb2, Hb3, Hins. cbn.
        by rewrite (insert_error_is_500 _ _ _ _ _ _ _ _ _ Hins).
Qed.

(** C9.  The status 504 is not what an unreachable network gets.  When the
    [fetch] of the store step throws - the network is unreachable - the
    upload is answered 504 only if what was thrown is a TypeError whose
    message has "Failed to fetch" in it; a [fetch] that throws anything
    else is answered 500, and nothing but the attempt has happened.  So
    it is for the TypeError "Network connection lost.". *)
Theorem unreachable_fetch_is_answered_500 :
  (forall rt ev cfg req w f cl tgField tgMethod e,
     refused rt ev cfg req = Ok false ->
     method req <> "GET" ->
     uploaded_file req = Ok f ->
     classify (extension (name f)) = Ok cl ->
     Coerce.to_string (cl_field cl) = Ok tgField ->
     Coerce.to_string (cl_method cl) = Ok tgMethod ->
     net ev (upload_request cfg f tgMethod tgField) = NetThrow e ->
     Str.includes telegram_bad_config (message e) = false ->
     is_type_error e && Str.includes "Failed to fetch" (message e) = false ->
     handleUploadRequest rt ev cfg req w
       = (Ok (upload_failure 500 (message e)),
          logged w [Fetch (upload_request cfg f tgMethod tgField)])) /\
  (forall rt w,
     net More.lost (upload_request Sample.open_cfg Sample.picture "sendPhoto" "photo")
       = NetThrow (MkError TypeError "Network connection lost.") /\
     handleUploadRequest rt More.lost Sample.open_cfg
       (Sample.upload_of Sample.picture) w
     = (Ok (upload_failure 500 "Network connection lost."),
        logged w [Fetch (upload_request Sample.open_cfg Sample.picture
                           "sendPhoto" "photo")])).
Proof.
  split.
  - intros rt ev cfg req w f cl tgField tgMethod e
      Hauth Hmethod Hf Hcl Hfield Hmeth Hnet Hno Hnot.
    unfold handleUploadRequest. effect_steps. rewrite Hauth. cbn.
    destruct (decide (method req = "GET")) as [|_]; [done|].
    unfold upload_try, store, fetch. effect_steps.
    rewrite Hf, Hcl, Hfield, Hmeth. cbn. rewrite Hnet. cbn.
    unfold upload_catch, upload_status. effect_steps. by rewrite Hno, Hnot.
  - intros rt w. split; reflexivity.
Qed.

(** ** The delete flow *)

Section Delete.

Context (rt : runtime) (ev : env) (cfg : config).

Lemma select_first_delete u table :
  Sqlite.select_first u (Sqlite.delete u table) = None.
Proof.
  unfold Sqlite.select_first, Sqlite.delete.
  induction table as [|r table IH]; [done|]. cbn.
  destruct (bool_decide (url r = u)) eqn:Hr; cbn; [done|]. by rewrite Hr.
Qed.

(** The inner [try] never lets an exception out and touches neither the
    table nor the cache. *)
Lemma telegram_delete_returns f w :
  exists deleteError,
    telegram_delete ev cfg f w
      = (Ok deleteError, logged w [Fetch (delete_request cfg f)]).
Proof.
  unfold telegram_delete, fetch, delete_request, logged. effect_steps.
  destruct (net ev _) as [e|[|] [errorData|e] bytes]; cbn; eauto.
  destruct (JS.get errorData "description") as [d|]; eauto.
  destruct (Coerce.to_string d); eauto.
Qed.

(** Past the authentication check, with a URL in the body. *)
Lemma delete_found req w data u f :
  refused rt ev cfg req = Ok false ->
  json_body req = Ok data ->
  destructure data "url" = Ok (VStr u) ->
  u <> "" ->
  Sqlite.select_first u (db w) = Some f ->
  exists deleteError,
    telegram_delete ev cfg f (logged w [DbSelect u])
      = (Ok deleteError, logged w [DbSelect u; Fetch (delete_request cfg f)]) /\
    handleDeleteRequest rt ev cfg req w
      = (Ok (delete_done (deleted_message deleteError)),
         MkWorld (Sqlite.delete u (db w)) (cache w)
           (log w ++ [DbSelect u; Fetch (delete_request cfg f); DbDelete u])%list).
Proof.
  intros Hauth Hbody Hurl Hne Hfound.
  destruct (telegram_delete_returns f (logged w [DbSelect u])) as [err Herr].
  exists err. unfold logged in *. cbn [db cache log] in *.
  rewrite <- app_assoc in Herr. split; [exact Herr|].
  unfold handleDeleteRequest, delete_try. effect_steps.
  rewrite Hauth. cbn. rewrite Hbody, Hurl.
  destruct u as [|c u]; [done|]. cbn [db cache log].
  rewrite Hfound, Herr. cbn. by rewrite <- !app_assoc.
Qed.

Lemma delete_missing req w data u :
  refused rt ev cfg req = Ok false ->
  json_body req = Ok data ->
  destructure data "url" = Ok (VStr u) ->
  u <> "" ->
  Sqlite.select_first u (db w) = None ->
  handleDeleteRequest rt ev cfg req w
    = (Ok delete_not_found, logged w [DbSelect u]).
Proof.
  intros Hauth Hbody Hurl Hne Hnone.
  unfold handleDeleteRequest, delete_try. effect_steps.
  rewrite Hauth. cbn. rewrite Hbody, Hurl.
  destruct u as [|c u]; [done|]. cbn [db cache log].
  by rewrite Hnone.
Qed.

End Delete.

(** C3.  A delete request that passes the authentication check and names a
    URL of the table removes the row whatever Telegram answers, and is
    answered 200
    with [success: true]; the message is the success text when Telegram's
    reply was ok, and the failure text with Telegram's description (which
    is where "message to delete not found" shows) or with the message of
    the exception when it was not. *)
Theorem delete_despite_backend (rt : runtime) (ev : env) (cfg : config)
    (req : request) (w : world) (data : jsval) (u : string) (f : row) :
  refused rt ev cfg req = Ok false ->
  json_body req = Ok data ->
  destructure data "url" = Ok (VStr u) ->
  u <> "" ->
  Sqlite.select_first u (db w) = Some f ->
  let out := handleDeleteRequest rt ev cfg req w in
  let reply := net ev (delete_request cfg f) in
  (exists deleteError, out.1 = Ok (delete_done (deleted_message deleteError))) /\
  db out.2 = Sqlite.delete u (db w) /\
  Sqlite.select_first u (db out.2) = None /\
  (forall json bytes,
     reply = NetReply true json bytes -> out.1 = Ok (delete_done "文件删除成功")) /\
  (forall errorData bytes description text,
     reply = NetReply false (Ok errorData) bytes ->
     JS.get errorData "description" = Ok description ->
     Coerce.to_string description = Ok text ->
     out.1 = Ok (delete_done
                   (delete_failed_prefix +:+ ("Telegram 消息删除失败: " +:+ text)))) /\
  (forall e bytes,
     reply = NetReply false (Throw e) bytes -> message e <> "" ->
     out.1 = Ok (delete_done (delete_failed_prefix +:+ message e))) /\
  (forall e,
     reply = NetThrow e -> message e <> "" ->
     out.1 = Ok (delete_done (delete_failed_prefix +:+ message e))).
Proof.
  intros Hauth Hbody Hurl Hne Hfound out reply.
  destruct (delete_found rt ev cfg req w data u f Hauth Hbody Hurl Hne Hfound)
    as (err & Herr & Hout).
  subst out reply. rewrite Hout. cbn [fst snd db].
  split; [by exists err|]. split; [done|].
  split; [apply select_first_delete|].
  unfold telegram_delete, fetch, delete_request, logged in *.
  revert Herr. effect_steps. intros Herr.
  split; [|split; [|split]].
  - intros json bytes Hreply. rewrite Hreply in Herr. cbn in Herr.
    by injection Herr as <-.
  - intros errorData bytes description text Hreply Hdesc Htext.
    rewrite Hreply in Herr. cbn in Herr. rewrite Hdesc, Htext in Herr.
    by injection Herr as <-.
  - intros e bytes Hreply Hmsg. rewrite Hreply in Herr. cbn in Herr.
    injection Herr as <-. unfold deleted_message.
    destruct (message e); done.
  - intros e Hreply Hmsg. rewrite Hreply in Herr. cbn in Herr.
    injection Herr as <-. unfold deleted_message.
    destruct (message e); done.
Qed.

(** C8.  The delete flow run twice on one URL, the authentication check
    passed both times: the second run answers 404; it reads the table once and changes neither
    the table nor the cache, and neither run ends in an exception. *)
Theorem delete_twice (rt : runtime) (ev1 ev2 : env) (cfg : config)
    (req : request) (w : world) (data : jsval) (u : string) :
  refused rt ev1 cfg req = Ok false ->
  refused rt ev2 cfg req = Ok false ->
  json_body req = Ok data ->
  destructure data "url" = Ok (VStr u) ->
  u <> "" ->
  let first := handleDeleteRequest rt ev1 cfg req w in
  let second := handleDeleteRequest rt ev2 cfg req first.2 in
  (exists r, first.1 = Ok r) /\
  Sqlite.select_first u (db first.2) = None /\
  second = (Ok delete_not_found, logged first.2 [DbSelect u]) /\
  db second.2 = db first.2 /\
  cache second.2 = cache first.2.
Proof.
  intros Hauth1 Hauth2 Hbody Hurl Hne first second.
  assert (Hfirst : (exists r, first.1 = Ok r) /\
                   Sqlite.select_first u (db first.2) = None).
  { subst first. destruct (Sqlite.select_first u (db w)) as [f|] eqn:Hfound.
    - destruct (delete_found rt ev1 cfg req w data u f Hauth1 Hbody Hurl Hne Hfound)
        as (err & _ & ->).
      cbn [fst snd db]. split; [eauto|]. apply select_first_delete.
    - rewrite (delete_missing rt ev1 cfg req w data u Hauth1 Hbody Hurl Hne Hfound).
      cbn [fst snd]. split; [eauto|]. exact Hfound. }
  destruct Hfirst as [Hr Hgone]. split; [exact Hr|]. split; [exact Hgone|].
  subst second.
  rewrite (delete_missing rt ev2 cfg req first.2 data u Hauth2 Hbody Hurl Hne Hgone).
  done.
Qed.

(** ** The search flow *)

Section Like.

Import Sqlite.












(** The statement runs when the pattern is within the limit, and also on
    an empty table; it is refused otherwise. *)
Lemma search_within limit pattern table :
  (String.length pattern <= limit)%nat \/ table = [] ->
  search limit pattern table
    = Ok (order_by_created_at_desc
            (List.filter (fun r => like_column pattern (file_name r)) table)).
Proof.
  unfold search. intros [Hlen| ->]; [|done].
  destruct table as [|r table]; [done|].
  by rewrite (proj2 (Nat.ltb_ge _ _) Hlen).
Qed.

Lemma search_beyond limit pattern table :
  (limit < String.length pattern)%nat -> table <> [] ->
  search limit pattern table = Throw pattern_too_complex.
Proof.
  unfold search. intros Hlen Hrows. destruct table as [|r table]; [done|].
  by rewrite (proj2 (Nat.ltb_lt _ _) Hlen).
Qed.

End Like.

Section Order.

Import Sqlite.

Lemma leb_total a b : leb a b = true \/ leb b a = true.
Proof.
  destruct a as [|x|x], b as [|y|y]; cbn; auto.
  - destruct (Z.leb_spec x y); [by left|]. right. apply Z.leb_le. lia.
  - destruct (String.le_total x y) as [H|H];
      [left|right]; by apply Is_true_true.
Qed.

Lemma leb_trans a b c : leb a b = true -> leb b c = true -> leb a c = true.
Proof.
  destruct a as [|x|x], b as [|y|y], c as [|z|z]; cbn; try done.
  - rewrite !Z.leb_le. lia.
  - intros H1 H2. apply Is_true_true.
    apply Is_true_true in H1, H2.
    exact (transitivity (R:=String.le) H1 H2).
Qed.

Global Instance newer_first_total : Total newer_first.
Proof. intros r1 r2. unfold newer_first. destruct (leb_total (created_at r2) (created_at r1)); auto. Qed.

Global Instance newer_first_trans : Transitive newer_first.
Proof. intros r1 r2 r3 H1 H2. unfold newer_first in *. eapply leb_trans; eauto. Qed.

(** What [ORDER BY created_at DESC] returns: the rows it was given, each
    no older than every row after it. *)
Lemma order_by_sorted rows :
  StronglySorted newer_first (order_by_created_at_desc rows) /\
  order_by_created_at_desc rows ≡ₚ rows.
Proof.
  split.
  - apply StronglySorted_merge_sort; apply _.
  - apply merge_sort_Permutation.
Qed.

End Order.





(** ** The theorems at sample requests *)

Lemma authenticate_fail_closed_witness :
  authenticate Sample.rt Sample.ev Sample.cfg
    (Sample.get_of "https://host/admin" (Some "theme=dark; auth_token=abc; x=1"))
  = Ok true /\
  authenticate Sample.rt Sample.ev Sample.cfg
    (Sample.get_of "https://host/admin" (Some "theme=dark"))
  = Ok false.
Proof.
  split.
  - apply (proj1 (proj2 (authenticate_fail_closed Sample.rt Sample.ev Sample.cfg
                           (Sample.get_of "https://host/admin"
                              (Some "theme=dark; auth_token=abc; x=1"))))).
    exists "abc". split; [reflexivity|].
    exists "abc", Sample.token_data, (VNum 2000), (VStr "admin").
    repeat split; reflexivity.
  - apply (proj1 (proj2 (proj2 (authenticate_fail_closed Sample.rt Sample.ev
                                  Sample.cfg
                                  (Sample.get_of "https://host/admin"
                                     (Some "theme=dark")))))).
    reflexivity.
Defined.

Lemma cache_hit_is_served_witness :
  Sqlite.select_first "https://host/1690000000000.png" (db Sample.cached_world) = None /\
  handleFileRequest Sample.rt Sample.ev Sample.open_cfg
    (Sample.get_of "https://host/1690000000000.png" None) Sample.cached_world
  = (Ok Sample.hit,
     logged Sample.cached_world [CacheMatch "https://host/1690000000000.png"]).
Proof.
  split; [reflexivity|].
  apply (cache_hit_is_served Sample.rt Sample.ev Sample.open_cfg
           (Sample.get_of "https://host/1690000000000.png" None)
           Sample.cached_world Sample.hit).
  vm_compute. reflexivity.
Defined.

Lemma retrieve_error_mapping_witness :
  (handleFileRequest Sample.rt Sample.ev Sample.open_cfg
     (Sample.get_of "https://host/none.png" None) Sample.world0).1
  = Ok (text_response 404 "文件不存在") /\
  (handleFileRequest Sample.rt Sample.refusing Sample.open_cfg
     (Sample.get_of (url Sample.photo) None) Sample.world0).1
  = Ok (text_response 500 "获取文件失败").
Proof.
  split.
  - apply (proj1 (retrieve_error_mapping Sample.rt Sample.ev Sample.open_cfg
                    (Sample.get_of "https://host/none.png" None) Sample.world0
                    eq_refl)).
    reflexivity.
  - refine (proj1 (proj1 (proj2 (retrieve_error_mapping Sample.rt Sample.refusing
                                   Sample.open_cfg
                                   (Sample.get_of (url Sample.photo) None)
                                   Sample.world0 eq_refl))
                     Sample.photo eq_refl) _ _ eq_refl).
Defined.

Lemma upload_atomicity_witness :
  db (handleUploadRequest Sample.rt Sample.refusing Sample.open_cfg
        (Sample.upload_of Sample.picture) Sample.world0).2
  = db Sample.world0.
Proof.
  refine (proj1 (proj2 (upload_atomicity Sample.rt Sample.refusing Sample.open_cfg
                          (Sample.upload_of Sample.picture) Sample.world0)
                   Sample.picture
                   (MkClass "image/png" (VStr "sendPhoto") (VStr "photo"))
                   "photo" "sendPhoto" eq_refl eq_refl eq_refl eq_refl)
            _ _ eq_refl).
Defined.

Lemma upload_failure_status_witness :
  (handleUploadRequest Sample.rt Sample.refusing Sample.open_cfg
     (Sample.upload_of Sample.picture) Sample.world0).1
  = Ok (upload_failure 502 telegram_bad_config) /\
  (handleUploadRequest Sample.rt Sample.ev Sample.open_cfg
     (Sample.upload_of Sample.picture) Sample.world0).1
  = Ok (upload_failure 504 "Failed to fetch").
Proof.
  split.
  - refine (proj1 (proj2 (proj2 (proj2
              (upload_failure_status Sample.rt Sample.refusing Sample.open_cfg
                 (Sample.upload_of Sample.picture) Sample.world0 eq_refl _)))
              Sample.picture
              (MkClass "image/png" (VStr "sendPhoto") (VStr "photo"))
              "photo" "sendPhoto" eq_refl eq_refl eq_refl eq_refl)
            _ _ eq_refl).
    discriminate.
  - refine (proj1 (proj2 (proj2 (proj2 (proj2
              (upload_failure_status Sample.rt Sample.ev Sample.open_cfg
                 (Sample.upload_of Sample.picture) Sample.world0 eq_refl _)))
              Sample.picture
              (MkClass "image/png" (VStr "sendPhoto") (VStr "photo"))
              "photo" "sendPhoto" eq_refl eq_refl eq_refl eq_refl))
            Sample.offline eq_refl eq_refl eq_refl eq_refl).
    discriminate.
Defined.

Lemma delete_despite_backend_witness :
  (handleDeleteRequest Sample.rt Sample.refusing Sample.open_cfg
     (Sample.delete_of (url Sample.photo)) Sample.world0).1
  = Ok (delete_done
          (delete_failed_prefix +:+
           ("Telegram 消息删除失败: " +:+ "Bad Request: message to delete not found"))) /\
  Sqlite.select_first (url Sample.photo)
    (db (handleDeleteRequest Sample.rt Sample.refusing Sample.open_cfg
           (Sample.delete_of (url Sample.photo)) Sample.world0).2)
  = None.
Proof.
  pose proof (delete_despite_backend Sample.rt Sample.refusing Sample.open_cfg
                (Sample.delete_of (url Sample.photo)) Sample.world0
                (VObj [("url", VStr (url Sample.photo))]) (url Sample.photo)
                Sample.photo eq_refl eq_refl eq_refl) as H.
  destruct H as (_ & _ & Hgone & _ & Hfailed & _ & _).
  - discriminate.
  - reflexivity.
  - split; [|exact Hgone].
    exact (Hfailed _ _ _ _ eq_refl eq_refl eq_refl).
Defined.

Lemma delete_twice_witness :
  let first :=
    handleDeleteRequest Sample.rt Sample.refusing Sample.open_cfg
      (Sample.delete_of (url Sample.photo)) Sample.world0 in
  handleDeleteRequest Sample.rt Sample.ev Sample.open_cfg
    (Sample.delete_of (url Sample.photo)) first.2
  = (Ok delete_not_found, logged first.2 [DbSelect (url Sample.photo)]).
Proof.
  pose proof (delete_twice Sample.rt Sample.refusing Sample.ev Sample.open_cfg
                (Sample.delete_of (url Sample.photo)) Sample.world0
                (VObj [("url", VStr (url Sample.photo))]) (url Sample.photo)
                eq_refl eq_refl eq_refl eq_refl) as H.
  destruct H as (_ & _ & Hsecond & _).
  - discriminate.
  - exact Hsecond.
Defined.

(** * Further properties *)

(** ** escapeHtml *)

Section Escape.

Import Html.

Lemma append_cons c a b : String c a +:+ b = String c (a +:+ b).
Proof. reflexivity. Qed.

Lemma append_empty b : EmptyString +:+ b = b.
Proof. reflexivity. Qed.

Lemma replace_specials_no_markup s :
  Forall (fun c => c ∉ ["<"; ">"; "034"; "'"]%char)
    (list_ascii_of_string (replace_specials s)).
Proof.
  induction s as [|c s IH]; [constructor|].
  cbn [replace_specials]. unfold entity.
  repeat case_decide; subst;
    rewrite ?append_cons, ?append_empty; cbn [list_ascii_of_string];
    repeat (constructor;
            [ intros Hin;
              repeat (apply elem_of_cons in Hin as [Hin|Hin]; [congruence|]);
              by apply elem_of_nil in Hin |]);
    exact IH.
Qed.

(** Where the text before an ampersand starts with another character. *)
Lemma peel a x pre post :
  a <> "&"%char ->
  String a x = pre +:+ String "&" post ->
  exists pre', pre = String a pre' /\ x = pre' +:+ String "&" post.
Proof.
  intros Ha. destruct pre as [|b pre]; rewrite ?append_cons, ?append_empty.
  - intros [= -> _]. done.
  - intros [= -> ->]. eauto.
Qed.

Lemma replace_specials_ampersand s pre post :
  replace_specials s = pre +:+ String "&" post ->
  exists e, e ∈ ["amp;"; "lt;"; "gt;"; "quot;"; "#39;"] /\ Str.prefix e post = true.
Proof.
  revert pre. induction s as [|c s IH]; intros pre.
  - destruct pre; discriminate.
  - cbn [replace_specials]. unfold entity.
    repeat case_decide; subst; rewrite ?append_cons, ?append_empty; intros Heq;
      (destruct pre as [|b pre]; rewrite ?append_cons, ?append_empty in Heq;
       [ try (injection Heq as <-;
              first [ exists "amp;"; split; [|reflexivity]
                    | exists "lt;"; split; [|reflexivity]
                    | exists "gt;"; split; [|reflexivity]
                    | exists "quot;"; split; [|reflexivity]
                    | exists "#39;"; split; [|reflexivity] ];
              repeat first [ apply list_elem_of_here | apply list_elem_of_further ])
       | injection Heq as <- Heq;
         repeat (apply peel in Heq as (? & -> & Heq); [|done]);
         eauto ]).
    injection Heq as -> _. done.
Qed.

Lemma replace_specials_app a b :
  replace_specials (a +:+ b) = replace_specials a +:+ replace_specials b.
Proof.
  induction a as [|c a IH]; [done|].
  rewrite append_cons. cbn [replace_specials]. rewrite IH.
  destruct (entity c) as [e|]; [|done].
  induction e as [|d e IHe]; [done|]. rewrite !append_cons. by rewrite IHe.
Qed.

Lemma replace_specials_plain s :
  Forall (fun c => entity c = None) (list_ascii_of_string s) ->
  replace_specials s = s.
Proof.
  induction s as [|c s IH]; [done|]. cbn [list_ascii_of_string replace_specials].
  intros H. apply Forall_cons in H as [-> H]. by rewrite IH.
Qed.

Lemma replace_specials_inj s1 s2 :
  replace_specials s1 = replace_specials s2 -> s1 = s2.
Proof.
  revert s2. induction s1 as [|c1 s1 IH]; intros [|c2 s2].
  - done.
  - cbn [replace_specials]. unfold entity.
    repeat case_decide; rewrite ?append_cons; discriminate.
  - cbn [replace_specials]. unfold entity.
    repeat case_decide; rewrite ?append_cons; discriminate.
  - cbn [replace_specials]. unfold entity.
    repeat case_decide; subst; rewrite ?append_cons, ?append_empty;
      intros Heq; try discriminate; try congruence;
      injection Heq as Heq; f_equal; try congruence; by apply IH.
Qed.

End Escape.

(** X1.  What [escapeHtml] returns holds none of the characters that open or
    close a tag or an attribute value, and every ampersand in it starts one
    of the five entities of the table. *)
Theorem escapeHtml_leaves_no_markup (str : jsval) (out : string) :
  Html.escapeHtml str = Ok out ->
  Forall (fun c => c ∉ ["<"; ">"; "034"; "'"]%char) (list_ascii_of_string out) /\
  (forall pre post,
     out = pre +:+ String "&" post ->
     exists e, e ∈ ["amp;"; "lt;"; "gt;"; "quot;"; "#39;"] /\
               Str.prefix e post = true).
Proof.
  unfold Html.escapeHtml. destruct (JS.or str (VStr "")); try done.
  intros [= <-]. split.
  - apply replace_specials_no_markup.
  - intros pre post. apply replace_specials_ampersand.
Qed.

Lemma escapeHtml_leaves_no_markup_witness :
  Forall (fun c => c ∉ ["<"; ">"; "034"; "'"]%char)
    (list_ascii_of_string "R&amp;D &lt;b&gt;.txt").
Proof.
  exact (proj1 (escapeHtml_leaves_no_markup (VStr "R&D <b>.txt")
                  "R&amp;D &lt;b&gt;.txt" eq_refl)).
Defined.

(** X2.  [escapeHtml] loses nothing: two texts that are escaped to the same
    text are the same text. *)
Theorem escapeHtml_injective (s1 s2 : string) :
  Html.escapeHtml (VStr s1) = Html.escapeHtml (VStr s2) -> s1 = s2.
Proof.
  unfold Html.escapeHtml, JS.or.
  assert (Hstr : forall s, (if JS.truthy (VStr s) then VStr s else VStr "") = VStr s).
  { by intros [|]. }
  rewrite !Hstr. intros [= H]. by apply replace_specials_inj.
Qed.

Lemma escapeHtml_injective_witness :
  Html.escapeHtml (VStr "a<b") = Ok "a&lt;b" /\ "a<b" = "a<b".
Proof.
  split; [reflexivity|].
  exact (escapeHtml_injective "a<b" "a<b" eq_refl).
Defined.

(** X3.  The edges of [escapeHtml]: a falsy argument ([null], [undefined],
    the empty text, 0, [false]) gives the empty text; a truthy argument
    that is not a text throws a TypeError; a text without any of the five
    characters comes back unchanged; and the escape of a concatenation is
    the concatenation of the escapes. *)
Theorem escapeHtml_edges :
  (forall str, JS.truthy str = false -> Html.escapeHtml str = Ok "") /\
  (forall str,
     JS.truthy str = true -> (forall s, str <> VStr s) ->
     exists e, Html.escapeHtml str = Throw e /\ is_type_error e = true) /\
  (forall s,
     Forall (fun c => c ∉ ["&"; "<"; ">"; "034"; "'"]%char) (list_ascii_of_string s) ->
     Html.escapeHtml (VStr s) = Ok s) /\
  (forall a b,
     exists a' b',
       Html.escapeHtml (VStr a) = Ok a' /\ Html.escapeHtml (VStr b) = Ok b' /\
       Html.escapeHtml (VStr (a +:+ b)) = Ok (a' +:+ b')).
Proof.
  assert (Hstr : forall s, Html.escapeHtml (VStr s) = Ok (Html.replace_specials s)).
  { by intros [|]. }
  split; [|split; [|split]].
  - intros str Hfalsy. unfold Html.escapeHtml, JS.or. by rewrite Hfalsy.
  - intros str Htruthy Hnot. unfold Html.escapeHtml, JS.or. rewrite Htruthy.
    destruct str; try (eexists; split; reflexivity). by destruct (Hnot s).
  - intros s Hplain. rewrite Hstr. f_equal. apply replace_specials_plain.
    eapply Forall_impl; [exact Hplain|]. intros c Hc. cbn in Hc.
    unfold Html.entity. repeat case_decide; subst; try done;
      exfalso; apply Hc;
      repeat first [ apply list_elem_of_here | apply list_elem_of_further ].
  - intros a b. exists (Html.replace_specials a), (Html.replace_specials b).
    rewrite !Hstr. by rewrite replace_specials_app.
Qed.

Lemma escapeHtml_edges_witness :
  Html.escapeHtml VNull = Ok "" /\
  (exists e, Html.escapeHtml (VNum 7) = Throw e /\ is_type_error e = true) /\
  Html.escapeHtml (VStr "report.pdf") = Ok "report.pdf".
Proof.
  split; [|split].
  - exact (proj1 escapeHtml_edges VNull eq_refl).
  - apply (proj1 (proj2 escapeHtml_edges) (VNum 7) eq_refl). intros s. discriminate.
  - apply (proj1 (proj2 (proj2 escapeHtml_edges)) "report.pdf").
    cbn [list_ascii_of_string].
    repeat (constructor;
            [ intros Hin;
              repeat (apply elem_of_cons in Hin as [Hin|Hin]; [discriminate|]);
              by apply elem_of_nil in Hin |]).
    constructor.
Defined.

(** ** formatSize *)

Section FormatSize.

Import Size.

Lemma scale_settles fuel bytes :
  (3 <= fuel)%nat -> scale fuel bytes 1 0 = scale 3 bytes 1 0.
Proof.
  intros Hfuel. do 3 (destruct fuel as [|fuel]; [lia|]).
  cbn [scale]. change (List.length units - 1)%nat with 3%nat.
  destruct (1024 * 1 <=? bytes); [|done]. cbn [andb Nat.ltb Nat.leb].
  destruct (1024 * (1024 * 1) <=? bytes); [|done]. cbn [andb].
  destruct (1024 * (1024 * (1024 * 1)) <=? bytes); [|done]. cbn [andb].
  destruct fuel; cbn [scale]; [done|].
  change (List.length units - 1)%nat with 3%nat. cbn [Nat.ltb Nat.leb].
  by rewrite andb_false_r.
Qed.

Lemma scale_value bytes :
  scale 3 bytes 1 0 =
    if bytes <? 1024 then (1, 0%nat)
    else if bytes <? 1024 * 1024 then (1024, 1%nat)
    else if bytes <? 1024 * 1024 * 1024 then (1024 * 1024, 2%nat)
    else (1024 * 1024 * 1024, 3%nat).
Proof.
  cbn [scale]. change (List.length units - 1)%nat with 3%nat.
  cbn [andb Nat.ltb Nat.leb].
  repeat match goal with
         | |- context [?a <=? ?b] => destruct (Z.leb_spec a b)
         | |- context [?a <? ?b] => destruct (Z.ltb_spec a b)
         end; cbn [andb]; try lia; reflexivity.
Qed.

End FormatSize.

(** X4.  [formatSize] picks the unit by powers of 1024 and never goes beyond
    GB: below 1024 bytes (also below zero) the unit is B, below 1024^2 it is
    KB, below 1024^3 it is MB, and GB from there on; the number printed is
    the byte count over that power, to two decimals.  The loop is done
    after three turns. *)
Theorem formatSize_unit (bytes : Z) :
  (bytes < 1024 ->
     Size.formatSize bytes = Size.toFixed2 bytes 1 +:+ " B") /\
  (1024 <= bytes < 1024 ^ 2 ->
     Size.formatSize bytes = Size.toFixed2 bytes 1024 +:+ " KB") /\
  (1024 ^ 2 <= bytes < 1024 ^ 3 ->
     Size.formatSize bytes = Size.toFixed2 bytes (1024 ^ 2) +:+ " MB") /\
  (1024 ^ 3 <= bytes ->
     Size.formatSize bytes = Size.toFixed2 bytes (1024 ^ 3) +:+ " GB") /\
  (forall fuel, (3 <= fuel)%nat ->
     Size.scale fuel bytes 1 0 = Size.scale 3 bytes 1 0).
Proof.
  assert (H : Size.scale (List.length Size.units) bytes 1 0 = Size.scale 3 bytes 1 0).
  { apply scale_settles. cbn. lia. }
  unfold Size.formatSize. rewrite H, scale_value.
  repeat split.
  - intros Hb. destruct (Z.ltb_spec bytes 1024); [done|lia].
  - intros Hb. destruct (Z.ltb_spec bytes 1024); [lia|].
    destruct (Z.ltb_spec bytes (1024 * 1024)); [done|lia].
  - intros Hb. destruct (Z.ltb_spec bytes 1024); [lia|].
    destruct (Z.ltb_spec bytes (1024 * 1024)); [lia|].
    destruct (Z.ltb_spec bytes (1024 * 1024 * 1024)); [done|lia].
  - intros Hb. destruct (Z.ltb_spec bytes 1024); [lia|].
    destruct (Z.ltb_spec bytes (1024 * 1024)); [lia|].
    destruct (Z.ltb_spec bytes (1024 * 1024 * 1024)); [lia|done].
  - intros fuel Hfuel. rewrite <- scale_value. by apply scale_settles.
Qed.

Lemma formatSize_unit_witness :
  Size.formatSize 1023 = "1023.00 B" /\ Size.formatSize 1048575 = "1024.00 KB" /\
  Size.formatSize 5368709120000 = "5000.00 GB".
Proof.
  split; [|split].
  - apply (proj1 (formatSize_unit 1023)). lia.
  - apply (proj1 (proj2 (formatSize_unit 1048575))). lia.
  - apply (proj1 (proj2 (proj2 (proj2 (formatSize_unit 5368709120000))))). lia.
Defined.

(** X5.  The number that [formatSize] prints for a size that is not negative
    is within half a hundredth of the size in its unit, a tie going up; in
    KB, MB and GB it is at least 1.00, and in B, KB and MB at most 1024.00
    (which a size just below the next unit reaches). *)
Theorem formatSize_rounding (bytes : Z) :
  0 <= bytes ->
  let '(den, unitIndex) := Size.scale (List.length Size.units) bytes 1 0 in
  let n := Size.hundredths bytes den in
  Size.formatSize bytes
    = (pretty (n / 100) +:+ "." +:+ Size.two_digits (n mod 100)) +:+ " "
        +:+ default "undefined" (Size.units !! unitIndex) /\
  - den < 2 * (n * den - 100 * bytes) <= den /\
  ((1 <= unitIndex)%nat -> 100 <= n) /\
  ((unitIndex < 3)%nat -> n <= 102400).
Proof.
  intros Hb. unfold Size.formatSize.
  rewrite (scale_settles (List.length Size.units) bytes) by (cbn; lia).
  rewrite scale_value.
  assert (Hround : forall den, 0 < den ->
            - den < 2 * (Size.hundredths bytes den * den - 100 * bytes) <= den).
  { intros den Hden. unfold Size.hundredths. rewrite Z.abs_eq by lia.
    pose proof (Z.div_mod (200 * bytes + den) (2 * den) ltac:(lia)) as Hdm.
    pose proof (Z.mod_pos_bound (200 * bytes + den) (2 * den) ltac:(lia)) as Hmod.
    nia. }
  assert (Hlow : forall den, 0 < den -> den <= bytes ->
            100 <= Size.hundredths bytes den).
  { intros den Hden Hle. unfold Size.hundredths. rewrite Z.abs_eq by lia.
    apply Z.div_le_lower_bound; lia. }
  assert (Hhigh : forall den, 0 < den -> bytes < 1024 * den ->
            Size.hundredths bytes den <= 102400).
  { intros den Hden Hlt. unfold Size.hundredths. rewrite Z.abs_eq by lia.
    apply Z.lt_succ_r. apply Z.div_lt_upper_bound; lia. }
  assert (Hfix : forall den,
            Size.toFixed2 bytes den
            = pretty (Size.hundredths bytes den / 100) +:+ "."
                +:+ Size.two_digits (Size.hundredths bytes den mod 100)).
  { intros den. unfold Size.toFixed2.
    destruct (Z.ltb_spec bytes 0); [lia|]. reflexivity. }
  destruct (Z.ltb_spec bytes 1024);
    [|destruct (Z.ltb_spec bytes (1024 * 1024));
      [|destruct (Z.ltb_spec bytes (1024 * 1024 * 1024))]];
    cbv zeta; rewrite Hfix;
    (split; [reflexivity|]); (split; [apply Hround; lia|]);
    (split; [intros ?; try lia; apply Hlow; lia
            |intros ?; try lia; apply Hhigh; lia]).
Qed.

Lemma formatSize_rounding_witness :
  Size.formatSize 1152 = "1.13 KB" /\ Size.hundredths 1152 1024 = 113.
Proof.
  pose proof (formatSize_rounding 1152 ltac:(lia)) as H.
  split; [exact (proj1 H) | reflexivity].
Defined.

(** ** getPreviewHtml *)

Section Preview.

Ltac pick_case :=
  first [ solve [left; repeat split; eauto]
        | right; pick_case
        | solve [repeat split; eauto] ].

Ltac not_listed :=
  apply bool_decide_eq_false_2; intros Hin;
  repeat (apply elem_of_cons in Hin as [Hin|Hin]; [congruence|]);
  by apply elem_of_nil in Hin.

(** The three lists of [getPreviewHtml] against the table of
    [getContentType] and the map of [handleUploadRequest]. *)
Lemma preview_lists_and_classifier ext :
  let isImage :=
    bool_decide (ext ∈ ["jpg"; "jpeg"; "png"; "gif"; "webp"; "svg"; "icon"]) in
  let isVideo := bool_decide (ext ∈ ["mp4"; "webm"]) in
  let isAudio := bool_decide (ext ∈ ["mp3"; "wav"; "ogg"]) in
  (isImage = true /\
   exists m, classify ext = Ok (MkClass m (VStr "sendPhoto") (VStr "photo"))) \/
  (isImage = false /\ isVideo = true /\
   exists m, classify ext = Ok (MkClass m (VStr "sendVideo") (VStr "video"))) \/
  (isImage = false /\ isVideo = false /\ isAudio = true /\
   exists m, classify ext = Ok (MkClass m (VStr "sendAudio") (VStr "audio"))) \/
  (isImage = false /\ isVideo = false /\ isAudio = false /\
   ((exists m, classify ext = Ok (MkClass m (VStr "sendDocument") (VStr "document")))
    \/ exists e, classify ext = Throw e)).
Proof.
  intros isImage isVideo isAudio. subst isImage isVideo isAudio.
  unfold classify, getContentType, types, types_table, JS.get. simpl JS.own.
  repeat (case_decide; [subst ext; vm_compute; pick_case|]).
  do 3 right.
  split; [not_listed|]. split; [not_listed|]. split; [not_listed|].
  simpl default. unfold JS.inherited.
  destruct (bool_decide (ext ∈ JS.object_prototype)).
  - right. eexists. reflexivity.
  - left. eexists. reflexivity.
Qed.

Lemma previews_differ u :
  Html.img u <> Html.video u /\ Html.img u <> Html.audio u /\
  Html.img u <> Html.icon /\ Html.video u <> Html.audio u /\
  Html.video u <> Html.icon /\ Html.audio u <> Html.icon.
Proof.
  repeat split; intros H; vm_compute in H; discriminate.
Qed.

End Preview.

(** X6.  The preview of the admin page follows the classifier of the upload:
    a URL is shown as an image, a video or an audio player exactly when a
    file with its extension goes to Telegram as a photo, a video or an
    audio, and as the document icon when it goes as a document or is not
    classified at all. *)
Theorem preview_follows_classifier (u : string) :
  let sent_as kind :=
    exists cl, classify (extension u) = Ok cl /\ cl_method cl = VStr kind in
  (Html.getPreviewHtml u = Html.img u <-> sent_as "sendPhoto") /\
  (Html.getPreviewHtml u = Html.video u <-> sent_as "sendVideo") /\
  (Html.getPreviewHtml u = Html.audio u <-> sent_as "sendAudio") /\
  (Html.getPreviewHtml u = Html.icon <->
   sent_as "sendDocument" \/ exists e, classify (extension u) = Throw e).
Proof.
  intros sent_as. subst sent_as. unfold Html.getPreviewHtml.
  change (Str.toLowerCase (default "" (Str.pop (Str.split "."%char u))))
    with (extension u).
  destruct (previews_differ u) as (D1 & D2 & D3 & D4 & D5 & D6).
  destruct (preview_lists_and_classifier (extension u))
    as [(-> & m & ->)|[(-> & -> & m & ->)|[(-> & -> & -> & m & ->)
       |(-> & -> & -> & [(m & ->)|(e & ->)])]]]; cbn [cl_method];
    repeat split;
    try (intros _; eauto; fail);
    try (intros H; exfalso; congruence);
    try (intros (cl & [= <-] & [=]));
    try (intros [(cl & [= <-] & [=])|(e' & [=])]);
    try (intros [(cl & [=] & _)|?]);
    try (intros (cl & [=] & _));
    eauto.
Qed.

(** ** The cookie and the login *)

Section CookieFacts.

Import Cookie.

Lemma prefix_split p s :
  Str.prefix p s = true -> exists rest, s = p +:+ rest /\ Str.drop (String.length p) s = rest.
Proof.
  revert s. induction p as [|a p IH]; intros s; cbn.
  - intros _. by exists s.
  - destruct s as [|b s]; [done|]. destruct (decide (a = b)) as [->|]; [|done].
    intros H. destruct (IH s H) as (rest & -> & Hdrop). exists rest.
    by rewrite append_cons.
Qed.

Lemma prefix_append p rest : Str.prefix p (p +:+ rest) = true.
Proof.
  induction p as [|a p IH]; [done|]. rewrite append_cons. cbn.
  by rewrite decide_True.
Qed.

Lemma drop_append p rest : Str.drop (String.length p) (p +:+ rest) = rest.
Proof. induction p as [|a p IH]; [done|]. rewrite append_cons. exact IH. Qed.

Lemma until_semicolon_split s :
  exists post,
    s = until_semicolon s +:+ post /\
    (";"%char ∉ list_ascii_of_string (until_semicolon s)) /\
    (post = "" \/ exists r, post = String ";" r).
Proof.
  induction s as [|c s (post & Hs & Hno & Hpost)]; cbn.
  - exists "". split; [done|]. split; [apply not_elem_of_nil|by left].
  - destruct (decide (c = ";"%char)) as [->|Hc].
    + exists (String ";" s). split; [done|]. split; [apply not_elem_of_nil|eauto].
    + exists post. rewrite append_cons, <- Hs. split; [done|]. split; [|done].
      cbn. intros Hin. apply elem_of_cons in Hin as [Hin|Hin]; [congruence|done].
Qed.

Lemma until_semicolon_id t rest :
  ";"%char ∉ list_ascii_of_string t ->
  rest = "" \/ (exists r, rest = String ";" r) ->
  until_semicolon (t +:+ rest) = t.
Proof.
  intros Hno Hrest. induction t as [|c t IH].
  - rewrite append_empty. destruct Hrest as [->|(r & ->)]; [done|].
    cbn. by rewrite decide_True.
  - rewrite append_cons. cbn. cbn in Hno. rewrite decide_False.
    + rewrite IH; [done|]. intros Hin. apply Hno. by right.
    + intros ->. apply Hno. by left.
Qed.

Lemma capture_here_sound s t :
  capture_here s = Some t ->
  exists post,
    s = "auth_token=" +:+ t +:+ post /\ t <> "" /\
    (";"%char ∉ list_ascii_of_string t) /\
    (post = "" \/ exists r, post = String ";" r).
Proof.
  unfold capture_here. destruct (Str.prefix "auth_token=" s) eqn:Hp; [|done].
  apply prefix_split in Hp as (rest & -> & Hdrop).
  change (String.length "auth_token=") with 11%nat in Hdrop. rewrite Hdrop.
  destruct (until_semicolon_split rest) as (post & Hrest & Hno & Hpost).
  destruct (until_semicolon rest) as [|c cap] eqn:Hcap; [done|].
  intros [= <-]. exists post. by rewrite <- Hrest.
Qed.

Lemma auth_token_sound s t :
  auth_token s = Some t ->
  exists pre post,
    s = pre +:+ "auth_token=" +:+ t +:+ post /\ t <> "" /\
    (";"%char ∉ list_ascii_of_string t) /\
    (post = "" \/ exists r, post = String ";" r).
Proof.
  induction s as [|c s IH].
  - cbn. done.
  - cbn [auth_token]. destruct (capture_here (String c s)) as [cap|] eqn:Hcap.
    + intros [= ->]. apply capture_here_sound in Hcap as (post & Hs & Ht).
      exists "", post. by rewrite append_empty.
    + intros H. destruct (IH H) as (pre & post & -> & Ht).
      exists (String c pre), post. by rewrite append_cons.
Qed.

Lemma auth_token_complete pre c rest :
  c <> ";"%char ->
  exists t, auth_token (pre +:+ "auth_token=" +:+ String c rest) = Some t.
Proof.
  intros Hc. induction pre as [|a pre (t & IH)].
  - rewrite append_empty.
    assert (Hcap : capture_here ("auth_token=" +:+ String c rest)
                   = Some (String c (until_semicolon rest))).
    { unfold capture_here. rewrite prefix_append.
      change 11%nat with (String.length "auth_token="). rewrite drop_append.
      cbn. by rewrite decide_False. }
    exists (String c (until_semicolon rest)).
    change ("auth_token=" +:+ String c rest)
      with (String "a" ("uth_token=" +:+ String c rest)) in *.
    cbn [auth_token]. by rewrite Hcap.
  - rewrite append_cons. cbn [auth_token].
    destruct (capture_here _); eauto.
Qed.

(** The header that a browser sends back: the token first. *)
Lemma auth_token_of_cookie token rest :
  token <> "" ->
  ";"%char ∉ list_ascii_of_string token ->
  rest = "" \/ (exists r, rest = String ";" r) ->
  auth_token ("auth_token=" +:+ token +:+ rest) = Some token.
Proof.
  intros Hne Hno Hrest.
  assert (Hcap : capture_here ("auth_token=" +:+ token +:+ rest) = Some token).
  { unfold capture_here. rewrite prefix_append.
    change 11%nat with (String.length "auth_token="). rewrite drop_append.
    rewrite (until_semicolon_id token rest Hno Hrest). by destruct token. }
  destruct token as [|c token]; [done|].
  change ("auth_token=" +:+ String c token +:+ rest)
    with (String "a" ("uth_token=" +:+ String c token +:+ rest)) in *.
  cbn [auth_token]. by rewrite Hcap.
Qed.

End CookieFacts.

(** X7.  The token that [authenticate] takes from the Cookie header is
    never empty, holds no semicolon and stands right after the text
    [auth_token=] somewhere in the header, up to the next semicolon or the
    end; and a header in which [auth_token=] is followed by any character
    but a semicolon always yields a token. *)
Theorem auth_token_extraction (s : string) :
  (forall t,
     Cookie.auth_token s = Some t ->
     exists pre post,
       s = pre +:+ "auth_token=" +:+ t +:+ post /\ t <> "" /\
       (";"%char ∉ list_ascii_of_string t) /\
       (post = "" \/ exists r, post = String ";" r)) /\
  (forall pre c rest,
     s = pre +:+ "auth_token=" +:+ String c rest -> c <> ";"%char ->
     exists t, Cookie.auth_token s = Some t).
Proof.
  split.
  - intros t. apply auth_token_sound.
  - intros pre c rest -> Hc. by apply auth_token_complete.
Qed.

Lemma auth_token_extraction_witness :
  exists t, Cookie.auth_token "theme=dark; myauth_token=abc; x=1" = Some t.
Proof.
  apply (proj2 (auth_token_extraction "theme=dark; myauth_token=abc; x=1")
           "theme=dark; my" "a"%char "bc; x=1"); [reflexivity|discriminate].
Defined.

(** X8.  The login handler changes nothing in the world, and it sets the
    cookie only in its answer 200 to a POST whose [username] and
    [password] are strictly equal to the configured ones (a field that is
    absent being equal to a variable that is unset); a POST with any other
    pair is answered 401 without a cookie. *)
Theorem login_cookie_needs_credentials (lrt : login_runtime) (cfg : config)
    (days now_login : Z) (req : request) (w : world) :
  let out := handleLoginRequest lrt cfg days now_login req w in
  out.2 = w /\
  (forall resp v,
     out.1 = Ok resp -> ("Set-Cookie", v) ∈ headers resp ->
     method req = "POST" /\ status resp = 200 /\
     exists data user pass,
       json_body req = Ok data /\
       destructure data "username" = Ok user /\
       destructure data "password" = Ok pass /\
       Coerce.strict_eq user (Coerce.of_env (username cfg)) = true /\
       Coerce.strict_eq pass (Coerce.of_env (password cfg)) = true) /\
  (forall data user pass,
     method req = "POST" ->
     json_body req = Ok data ->
     destructure data "username" = Ok user ->
     destructure data "password" = Ok pass ->
     Coerce.strict_eq user (Coerce.of_env (username cfg))
       && Coerce.strict_eq pass (Coerce.of_env (password cfg)) = false ->
     out.1 = Ok (MkResponse 401 [] (BText "Unauthorized"))).
Proof.
  intros out. subst out. unfold handleLoginRequest. effect_steps.
  split; [|split].
  - destruct (decide (method req = "POST")); [|done].
    destruct (json_body req) as [data|]; cbn; [|done].
    destruct (destructure data "username") as [user|]; cbn; [|done].
    destruct (destructure data "password") as [pass|]; cbn; [|done].
    destruct (_ && _); cbn; [|done].
    by destruct (btoa lrt _).
  - intros resp v Hout Hin.
    destruct (decide (method req = "POST")) as [Hpost|Hget].
    + destruct (json_body req) as [data|] eqn:Hbody; cbn in Hout; [|done].
      destruct (destructure data "username") as [user|] eqn:Huser; cbn in Hout; [|done].
      destruct (destructure data "password") as [pass|] eqn:Hpass; cbn in Hout; [|done].
      destruct (Coerce.strict_eq user _) eqn:Hu; cbn in Hout;
        [destruct (Coerce.strict_eq pass _) eqn:Hp; cbn in Hout|].
      * destruct (btoa lrt _) as [token|]; cbn in Hout; [|done].
        injection Hout as <-. cbn. repeat split; try done.
        exists data, user, pass. done.
      * injection Hout as <-. cbn in Hin. by apply elem_of_nil in Hin.
      * injection Hout as <-. cbn in Hin. by apply elem_of_nil in Hin.
    + injection Hout as <-. cbn in Hin.
      apply list_elem_of_singleton in Hin. discriminate.
  - intros data user pass Hpost Hbody Huser Hpass Hno.
    rewrite decide_True by done. rewrite Hbody. cbn. rewrite Huser. cbn.
    rewrite Hpass. cbn. by rewrite Hno.
Qed.

Lemma login_cookie_needs_credentials_witness :
  (handleLoginRequest More.lrt Sample.cfg 7 More.issued_at
     (More.login_with "admin" "guess") Sample.world0).1
  = Ok (MkResponse 401 [] (BText "Unauthorized")).
Proof.
  refine (proj2 (proj2 (login_cookie_needs_credentials More.lrt Sample.cfg 7
                          More.issued_at (More.login_with "admin" "guess")
                          Sample.world0))
            _ (VStr "admin") (VStr "guess") eq_refl eq_refl eq_refl eq_refl eq_refl).
Defined.

(** X9.  Login and [authenticate] fit together.  When the credentials of a
    POST are the configured ones, the answer carries the cookie of the
    token that [btoa] made of the token object; and where [atob] and
    [JSON.parse] read that token back (it is not empty and holds no
    semicolon), a later request that sends it passes [authenticate] as long
    as the clock has not passed the expiration - [days] days after the
    login - and fails it from then on. *)
Theorem login_token_authenticates (rt : runtime) (lrt : login_runtime)
    (cfg : config) (days now_login : Z) (req : request) (w : world)
    (data user pass : jsval) (token : string) :
  let expiration := expires_at now_login days in
  let payload := JSON_stringify lrt (token_object cfg expiration) in
  method req = "POST" ->
  json_body req = Ok data ->
  destructure data "username" = Ok user ->
  destructure data "password" = Ok pass ->
  Coerce.strict_eq user (Coerce.of_env (username cfg)) = true ->
  Coerce.strict_eq pass (Coerce.of_env (password cfg)) = true ->
  btoa lrt payload = Ok token ->
  handleLoginRequest lrt cfg days now_login req w
    = (Ok (MkResponse 200
             [ ("Set-Cookie", auth_cookie lrt token expiration);
               ("Content-Type", "text/plain") ]
             (BText "OK")), w) /\
  (forall tokenData ev later rest,
     token <> "" ->
     (";"%char ∉ list_ascii_of_string token) ->
     atob rt token = Ok payload ->
     JSON_parse rt payload = Ok tokenData ->
     JS.get tokenData "expiration" = JS.get (token_object cfg expiration) "expiration" ->
     JS.get tokenData "username" = JS.get (token_object cfg expiration) "username" ->
     cookie later = Some ("auth_token=" +:+ token +:+ rest) ->
     rest = "" \/ (exists r, rest = String ";" r) ->
     authenticate rt ev cfg later
       = Ok (negb (default 0 expiration <? now_auth ev))).
Proof.
  intros expiration payload Hpost Hbody Huser Hpass Hu Hp Htoken. split.
  - unfold handleLoginRequest. effect_steps.
    rewrite decide_True by done. rewrite Hbody. cbn. rewrite Huser. cbn.
    rewrite Hpass. cbn. rewrite Hu, Hp. cbn. fold expiration payload.
    by rewrite Htoken.
  - intros tokenData ev later rest Hne Hno Hatob Hparse Hexp Hname Hcookie Hrest.
    unfold authenticate. rewrite Hcookie. simpl default.
    rewrite (auth_token_of_cookie token rest Hne Hno Hrest).
    unfold token_check. outcome_steps.
    rewrite Hatob, Hparse, Hexp.
    assert (Hget : JS.get (token_object cfg expiration) "expiration"
                   = Ok (match expiration with Some t => VNum t | None => VNull end)).
    { reflexivity. }
    rewrite Hget.
    assert (Hgt : Coerce.gt rt (now_auth ev)
                    (match expiration with Some t => VNum t | None => VNull end)
                  = Ok (default 0 expiration <? now_auth ev)).
    { by destruct expiration. }
    rewrite Hgt. destruct (default 0 expiration <? now_auth ev); [done|].
    rewrite Hname.
    assert (Hown : JS.get (token_object cfg expiration) "username"
                   = Ok (Coerce.of_env (username cfg))).
    { reflexivity. }
    rewrite Hown. cbn. f_equal.
    destruct (username cfg) as [name|]; cbn; [|done].
    by rewrite bool_decide_eq_true_2.
Qed.

Lemma login_token_authenticates_witness :
  authenticate More.rt (More.at_time (More.expiry - 1)) Sample.cfg
    (Sample.get_of "https://host/admin" (Some "auth_token=dG9rZW4; theme=dark"))
  = Ok true /\
  authenticate More.rt (More.at_time (More.expiry + 1)) Sample.cfg
    (Sample.get_of "https://host/admin" (Some "auth_token=dG9rZW4; theme=dark"))
  = Ok false.
Proof.
  pose proof (login_token_authenticates More.rt More.lrt Sample.cfg 7
                More.issued_at (More.login_with "admin" "secret") Sample.world0
                (VObj [("username", VStr "admin"); ("password", VStr "secret")])
                (VStr "admin") (VStr "secret") "dG9rZW4"
                eq_refl eq_refl eq_refl eq_refl eq_refl eq_refl eq_refl) as [_ H].
  assert (Hno : ";"%char ∉ list_ascii_of_string "dG9rZW4").
  { cbn. intros Hin.
    repeat (apply elem_of_cons in Hin as [Hin|Hin]; [discriminate|]).
    by apply elem_of_nil in Hin. }
  split.
  - refine (H (token_object Sample.cfg (Some More.expiry))
              (More.at_time (More.expiry - 1))
              (Sample.get_of "https://host/admin"
                 (Some "auth_token=dG9rZW4; theme=dark"))
              "; theme=dark" _ Hno eq_refl eq_refl eq_refl eq_refl eq_refl _).
    + discriminate.
    + right. by eexists.
  - refine (H (token_object Sample.cfg (Some More.expiry))
              (More.at_time (More.expiry + 1))
              (Sample.get_of "https://host/admin"
                 (Some "auth_token=dG9rZW4; theme=dark"))
              "; theme=dark" _ Hno eq_refl eq_refl eq_refl eq_refl eq_refl _).
    + discriminate.
    + right. by eexists.
Defined.

(** ** The handlers together *)

Section Frame.

Context (rt : runtime) (ev : env) (cfg : config).

Lemma file_flow_effect req w :
  let out := handleFileRequest rt ev cfg req w in
  db out.2 = db w /\
  (cache out.2 = cache w \/
   exists r, out.1 = Ok r /\ status r = 200 /\
             cache w !! req_url req = None /\
             cache out.2 = <[req_url req := r]> (cache w)).
Proof.
  unfold handleFileRequest, file_try, fetch. effect_steps.
  destruct (cache w !! req_url req) as [hit|] eqn:Hc; cbn; [by split; [|left]|].
  destruct (Sqlite.select_first (req_url req) (db w)) as [f|]; cbn;
    [|by split; [|left]].
  destruct (net ev _) as [e|[|] [tgData|e] bytes]; cbn; try (by split; [|left]).
  destruct (JS.get tgData "result") as [result|]; cbn; [|by split; [|left]].
  destruct (JS.get_opt result "file_path") as [filePath|]; cbn; [|by split; [|left]].
  destruct (JS.truthy filePath); cbn; [|by split; [|left]].
  destruct (Coerce.to_string filePath) as [path|]; cbn; [|by split; [|left]].
  destruct (net ev _) as [e|[|] json' bytes']; cbn; try (by split; [|left]).
  destruct (Coerce.to_string _) as [contentType|]; cbn; [|by split; [|left]].
  destruct (valid_header rt contentType); cbn; [|by split; [|left]].
  split; [done|]. right. eexists. done.
Qed.

Lemma delete_flow_effect req w :
  let out := handleDeleteRequest rt ev cfg req w in
  cache out.2 = cache w /\
  (db out.2 = db w \/ exists u, db out.2 = Sqlite.delete u (db w)).
Proof.
  unfold handleDeleteRequest, delete_try. effect_steps.
  destruct (refused rt ev cfg req) as [[|]|]; cbn;
    [by split; [|left]| |by split; [|left]].
  destruct (json_body req) as [data|]; cbn; [|by split; [|left]].
  destruct (destructure data "url") as [[| | | |[|c u]| | |]|]; cbn;
    try (by split; [|left]).
  destruct (Sqlite.select_first _ (db w)) as [f|]; cbn; [|by split; [|left]].
  pose proof (telegram_delete_returns ev cfg f
                (MkWorld (db w) (cache w) (log w ++ [DbSelect (String c u)])%list))
    as [err Herr].
  rewrite Herr. cbn. split; [done|]. right; eauto.
Qed.

End Frame.

Section Table.

Lemma select_first_none u table :
  Sqlite.select_first u table = None <-> u ∉ url <$> table.
Proof.
  unfold Sqlite.select_first. induction table as [|r table IH]; cbn.
  - split; [intros _; apply not_elem_of_nil|done].
  - rewrite not_elem_of_cons. destruct (decide (url r = u)) as [Heq|Hne].
    + rewrite bool_decide_eq_true_2 by done. split; [done|]. intros [? _]. congruence.
    + rewrite bool_decide_eq_false_2 by done. rewrite IH. split; [|tauto].
      intros ?. split; [congruence|done].
Qed.

Lemma select_first_some u table r :
  Sqlite.select_first u table = Some r -> r ∈ table /\ url r = u.
Proof.
  unfold Sqlite.select_first. induction table as [|r' table IH]; cbn; [done|].
  destruct (decide (url r' = u)) as [Heq|Hne].
  - rewrite bool_decide_eq_true_2 by done. intros [= <-]. split; [left|done].
  - rewrite bool_decide_eq_false_2 by done. intros H.
    destruct (IH H). split; [by right|done].
Qed.

Lemma select_first_app u table r :
  Sqlite.select_first u (table ++ [r])%list =
    match Sqlite.select_first u table with
    | Some found => Some found
    | None => if bool_decide (url r = u) then Some r else None
    end.
Proof.
  unfold Sqlite.select_first. induction table as [|r' table IH]; cbn; [done|].
  by destruct (bool_decide (url r' = u)).
Qed.

Lemma select_first_delete_ne u u' table :
  u <> u' ->
  Sqlite.select_first u' (Sqlite.delete u table) = Sqlite.select_first u' table.
Proof.
  intros Hne. unfold Sqlite.select_first, Sqlite.delete.
  induction table as [|r table IH]; cbn; [done|].
  destruct (decide (url r = u)) as [Heq|Hr].
  - rewrite (bool_decide_eq_true_2 (url r = u)) by done. cbn.
    rewrite bool_decide_eq_false_2 by congruence. exact IH.
  - rewrite (bool_decide_eq_false_2 (url r = u)) by done. cbn.
    by destruct (bool_decide (url r = u')).
Qed.

Lemma delete_urls u table :
  url <$> Sqlite.delete u table = List.filter (fun x => negb (bool_decide (x = u))) (url <$> table).
Proof.
  unfold Sqlite.delete. induction table as [|r table IH]; cbn; [done|].
  destruct (bool_decide (url r = u)); cbn; by rewrite IH.
Qed.

Lemma delete_keeps_unique u table :
  urls_unique table -> urls_unique (Sqlite.delete u table).
Proof.
  unfold urls_unique. rewrite delete_urls.
  generalize (url <$> table). intros l. induction l as [|x l IH]; cbn; [done|].
  rewrite NoDup_cons. intros [Hx Hl].
  destruct (bool_decide (x = u)); cbn; [by apply IH|].
  apply NoDup_cons. split; [|by apply IH].
  rewrite list_elem_of_In, filter_In, <- list_elem_of_In. tauto.
Qed.

Lemma append_keeps_unique table r :
  urls_unique table -> Sqlite.select_first (url r) table = None ->
  urls_unique (table ++ [r])%list.
Proof.
  unfold urls_unique. intros Hu Hfresh. apply select_first_none in Hfresh.
  rewrite fmap_app. apply NoDup_app. split; [done|]. split.
  - intros x Hx Hin. cbn in Hin. apply list_elem_of_singleton in Hin. congruence.
  - cbn. apply NoDup_singleton.
Qed.

End Table.

Section UploadEffect.

Context (rt : runtime) (ev : env) (cfg : config).

(** What the index step does to the world. *)
Lemma index_row f ext fileId messageId w :
  match index rt ev cfg f ext fileId messageId w with
  | (Ok u, w1) =>
      exists fid mid mime id,
        bind_value ev fileId = Ok fid /\
        bind_value ev messageId = Ok mid /\
        bind_value ev (JS.or (VStr (type f)) (getContentType ext)) = Ok mime /\
        Sqlite.text_not_null "fileId" fid = Ok id /\
        mid <> SNull /\
        u = origin cfg +:+ "/" +:+ pretty (now_time ev) +:+ "." +:+ ext /\
        Sqlite.select_first u (db w) = None /\
        db w1 = (db w ++ [MkRow u id mid
                            (SText (toISOString rt (now_stamp ev + 8 * 60 * 60 * 1000)))
                            (Some (name f)) (SInt (size f))
                            (Sqlite.text_nullable mime)])%list /\
        cache w1 = cache w
  | (Throw _, w1) => db w1 = db w /\ cache w1 = cache w
  end.
Proof.
  unfold index, Eff.db_insert. effect_steps.
  destruct (bind_value ev fileId) as [fid|] eqn:Hfid; [|done].
  destruct (bind_value ev messageId) as [mid|] eqn:Hmid; [|done].
  destruct (bind_value ev (JS.or _ _)) as [mime|] eqn:Hmime; [|done].
  destruct (Sqlite.insert _ _ _ _ _ _ _ _) as [db'|e] eqn:Hins; cbn; [|done].
  unfold Sqlite.insert in Hins. outcome_steps.
  destruct (Sqlite.text_not_null _ fid) as [id|] eqn:Hid; [|done].
  destruct mid as [|z|t]; cbn in Hins; [done| |];
    (destruct (Sqlite.select_first _ _) eqn:Hfresh; [done|];
     injection Hins as <-; eexists _, _, mime, id; done).
Qed.

Lemma upload_flow_effect req w :
  let out := handleUploadRequest rt ev cfg req w in
  cache out.2 = cache w /\
  (db out.2 = db w \/
   exists r, db out.2 = (db w ++ [r])%list /\
             Sqlite.select_first (url r) (db w) = None).
Proof.
  unfold handleUploadRequest. effect_steps.
  destruct (refused rt ev cfg req) as [[|]|]; cbn; [by split; [|left]| |by split; [|left]].
  destruct (decide (method req = "GET")); [by split; [|left]|].
  unfold upload_try. effect_steps.
  destruct (uploaded_file req) as [f|]; [|by split; [|left]].
  destruct (classify (extension (name f))) as [cl|]; [|by split; [|left]].
  pose proof (store_keeps_table rt ev cfg f cl w) as [Hdb Hcache].
  destruct (store rt ev cfg f cl w) as [[[fileId messageId]|e] w1];
    cbn in *; [|by split; [|left]].
  pose proof (index_row f (extension (name f)) fileId messageId w1) as Hidx.
  destruct (index rt ev cfg f _ fileId messageId w1) as [[u|e] w2]; cbn.
  - destruct Hidx as (fid & mid & mime & id & _ & _ & _ & _ & _ & _ & Hfresh & Hrow & Hc).
    split; [congruence|]. right. eexists. rewrite Hrow, Hdb. split; [done|].
    cbn. by rewrite <- Hdb.
  - destruct Hidx as [? ?]. split; [congruence|]. left. congruence.
Qed.

(** What stands behind the answer [upload_done]. *)
Lemma upload_done_inv req w u w' :
  handleUploadRequest rt ev cfg req w = (Ok (upload_done u), w') ->
  exists f cl fileId messageId fid mid mime id,
    uploaded_file req = Ok f /\
    classify (extension (name f)) = Ok cl /\
    stored rt ev cfg f cl fileId messageId /\
    bind_value ev fileId = Ok fid /\
    bind_value ev messageId = Ok mid /\
    bind_value ev (JS.or (VStr (type f)) (getContentType (extension (name f)))) = Ok mime /\
    Sqlite.text_not_null "fileId" fid = Ok id /\
    u = upload_url ev cfg f /\
    Sqlite.select_first u (db w) = None /\
    db w' = (db w ++ [MkRow u id mid
                        (SText (toISOString rt (now_stamp ev + 8 * 60 * 60 * 1000)))
                        (Some (name f)) (SInt (size f))
                        (Sqlite.text_nullable mime)])%list /\
    cache w' = cache w.
Proof.
  unfold handleUploadRequest. effect_steps.
  destruct (refused rt ev cfg req) as [[|]|]; cbn; [done| |done].
  destruct (decide (method req = "GET")); [done|].
  unfold upload_try. effect_steps.
  destruct (uploaded_file req) as [f|] eqn:Hf; [|done].
  destruct (classify (extension (name f))) as [cl|] eqn:Hcl; [|done].
  pose proof (store_keeps_table rt ev cfg f cl w) as [Hdb Hcache].
  destruct (store rt ev cfg f cl w) as [[[fileId messageId]|e] w1] eqn:Hstore;
    cbn in *; [|done].
  apply store_ok_inv in Hstore.
  pose proof (index_row f (extension (name f)) fileId messageId w1) as Hidx.
  destruct (index rt ev cfg f _ fileId messageId w1) as [[u'|e] w2]; cbn; [|done].
  destruct Hidx as (fid & mid & mime & id & H1 & H2 & H3 & H4 & _ & -> & Hfresh & Hrow & Hc).
  intros [= <- <-]. exists f, cl, fileId, messageId, fid, mid, mime, id.
  rewrite Hrow, Hc, <- Hdb. repeat split; try done.
Qed.

End UploadEffect.

(** ** What the handlers leave alone *)

Section Flows.

Context (rt : runtime) (ev : env) (cfg : config).

Lemma search_flow_effect req w :
  let out := handleSearchRequest rt ev cfg req w in
  db out.2 = db w /\ cache out.2 = cache w.
Proof.
  unfold handleSearchRequest, search_try. effect_steps.
  destruct (refused rt ev cfg req) as [[|]|]; cbn; [done| |done].
  destruct (json_body req) as [data|]; [|done].
  destruct (destructure data "query") as [query|]; [|done].
  destruct (Coerce.to_string query) as [q|]; [|done].
  by destruct (Sqlite.search _ _ _).
Qed.

Lemma refused_of_authenticate req :
  enableAuth cfg = true -> authenticate rt ev cfg req = Ok false ->
  refused rt ev cfg req = Ok true.
Proof. intros Hon Hno. unfold refused. by rewrite Hon, Hno. Qed.

(** A delete request leaves the table as it is, or it passed the
    authentication check, named the URL of a row, removed that row and was
    answered 200. *)
Lemma delete_cases req w :
  let out := handleDeleteRequest rt ev cfg req w in
  db out.2 = db w \/
  exists data u f deleteError,
    refused rt ev cfg req = Ok false /\
    json_body req = Ok data /\
    destructure data "url" = Ok (VStr u) /\
    u <> "" /\
    Sqlite.select_first u (db w) = Some f /\
    db out.2 = Sqlite.delete u (db w) /\
    out.1 = Ok (delete_done (deleted_message deleteError)).
Proof.
  destruct (refused rt ev cfg req) as [[|]|] eqn:Hauth;
    [left|idtac|left];
    try (unfold handleDeleteRequest; effect_steps; by rewrite Hauth).
  destruct (json_body req) as [data|] eqn:Hbody; cycle 1.
  { left. unfold handleDeleteRequest, delete_try. effect_steps.
    by rewrite Hauth, Hbody. }
  destruct (destructure data "url") as [target|] eqn:Hurl; cycle 1.
  { left. unfold handleDeleteRequest, delete_try. effect_steps.
    rewrite Hauth. cbn. by rewrite Hbody, Hurl. }
  assert (Hother : (forall c s, target <> VStr (String c s)) ->
                   db (handleDeleteRequest rt ev cfg req w).2 = db w).
  { intros Hno. unfold handleDeleteRequest, delete_try. effect_steps.
    rewrite Hauth. cbn. rewrite Hbody, Hurl.
    destruct target as [| | | |[|c s]| | |]; try done. by destruct (Hno c s). }
  destruct target as [| | | |u| | |]; try (left; by apply Hother).
  destruct u as [|c s]; [left; by apply Hother|].
  destruct (Sqlite.select_first (String c s) (db w)) as [f|] eqn:Hfound.
  - right.
    destruct (delete_found rt ev cfg req w data (String c s) f
                Hauth Hbody Hurl ltac:(done) Hfound) as (err & _ & Hout).
    exists data, (String c s), f, err. cbn zeta. rewrite Hout. done.
  - left. cbn zeta.
    by rewrite (delete_missing rt ev cfg req w data (String c s)
                  Hauth Hbody Hurl ltac:(done) Hfound).
Qed.

End Flows.

Lemma delete_sublist u table : sublist (Sqlite.delete u table) table.
Proof.
  unfold Sqlite.delete. induction table as [|r table IH]; cbn; [constructor|].
  destruct (bool_decide (url r = u)); cbn; by constructor.
Qed.

Lemma has_dot_append a b : Str.has_dot (a +:+ String "." b) = true.
Proof.
  induction a as [|c a IH]; [done|].
  rewrite append_cons. cbn. by destruct (decide (c = "."%char)).
Qed.

(** X10.  With authentication on, a request that [authenticate] turns down
    is answered by a redirect to the start page by the upload, the search
    and the delete handler alike, and nothing at all has happened by then:
    the table, the cache and the log of effects (statements, fetches) are
    the ones before the request. *)
Theorem refused_requests_touch_nothing (rt : runtime) (ev : env) (cfg : config)
    (req : request) (w : world) :
  enableAuth cfg = true ->
  authenticate rt ev cfg req = Ok false ->
  let answer := (Ok (redirect (req_origin req +:+ "/")), w) in
  handleUploadRequest rt ev cfg req w = answer /\
  handleSearchRequest rt ev cfg req w = answer /\
  handleDeleteRequest rt ev cfg req w = answer.
Proof.
  intros Hon Hno answer.
  pose proof (refused_of_authenticate rt ev cfg req Hon Hno) as Hrefused.
  unfold handleUploadRequest, handleSearchRequest, handleDeleteRequest.
  effect_steps. by rewrite Hrefused.
Qed.

Lemma refused_requests_touch_nothing_witness :
  handleDeleteRequest Sample.rt Sample.ev Sample.cfg
    (Sample.delete_of (url Sample.photo)) Sample.world0
  = (Ok (redirect "https://host/"), Sample.world0).
Proof.
  apply (refused_requests_touch_nothing Sample.rt Sample.ev Sample.cfg
           (Sample.delete_of (url Sample.photo)) Sample.world0);
    reflexivity.
Defined.

(** X11.  The address of an uploaded file, [/<time>.<ext>], has a dot in
    its path, and a path with a dot is none of the six routes: the router
    hands the request to the file handler, and what that answers and does
    depends on the URL, the table, the cache, the bot token and Telegram
    only - not on the cookie, the method or the body of the request, and
    not on whether authentication is on or who the configured user is. *)
Theorem file_urls_are_public (rt : runtime) (lrt : login_runtime)
    (ev ev' : env) (cfg cfg' : config) (days now_login : Z)
    (handleAdminRequest : request -> M response)
    (pathname : string) (req req' : request) (w : world) :
  (forall t ext, Str.has_dot ("/" +:+ t +:+ "." +:+ ext) = true) /\
  (Str.has_dot pathname = true ->
   route rt lrt ev cfg days now_login handleAdminRequest pathname req w
     = handleFileRequest rt ev cfg req w) /\
  (req_url req = req_url req' ->
   net ev = net ev' ->
   tgBotToken cfg = tgBotToken cfg' ->
   handleFileRequest rt ev cfg req w = handleFileRequest rt ev' cfg' req' w).
Proof.
  split; [|split].
  - intros t ext. apply (has_dot_append (String "/" t) ext).
  - intros Hdot. unfold route.
    repeat (case_decide; [subst pathname; by vm_compute in Hdot|]). done.
  - intros Hurl Hnet Htoken.
    unfold handleFileRequest, file_try, fetch, bot_url.
    by rewrite Hurl, Hnet, Htoken.
Qed.

(** X12.  What each handler leaves alone, for every request and every
    outcome.  An upload never touches the cache and adds at most one row at
    the end of the table; a search changes neither the table nor the cache;
    a retrieval never changes the table, keeps every cache entry, and the
    only entry it may add is its own 200 answer under the URL of the
    request, where there was none; a delete never touches the cache - so a
    cached copy outlives its row - and only ever drops rows. *)
Theorem handlers_frame (rt : runtime) (ev : env) (cfg : config)
    (req : request) (w : world) :
  let up := handleUploadRequest rt ev cfg req w in
  let se := handleSearchRequest rt ev cfg req w in
  let fi := handleFileRequest rt ev cfg req w in
  let de := handleDeleteRequest rt ev cfg req w in
  (cache up.2 = cache w /\
   exists rows, db up.2 = (db w ++ rows)%list /\ (List.length rows <= 1)%nat) /\
  (db se.2 = db w /\ cache se.2 = cache w) /\
  (db fi.2 = db w /\
   cache w ⊆ cache fi.2 /\
   forall k r, cache fi.2 !! k = Some r ->
     cache w !! k = Some r \/
     (cache w !! k = None /\ k = req_url req /\ status r = 200 /\ fi.1 = Ok r)) /\
  (cache de.2 = cache w /\ sublist (db de.2) (db w)).
Proof.
  intros up se fi de. subst up se fi de. split; [|split; [|split]].
  - destruct (upload_flow_effect rt ev cfg req w) as [Hc [Hdb|(r & Hdb & _)]].
    + split; [done|]. exists []. rewrite Hdb, app_nil_r. split; [done|cbn; lia].
    + split; [done|]. exists [r]. split; [done|cbn; lia].
  - apply search_flow_effect.
  - destruct (file_flow_effect rt ev cfg req w) as [Hdb Hc].
    split; [done|].
    destruct Hc as [Hc|(r & Hr & Hst & Hmiss & Hc)]; rewrite Hc.
    + split; [done|]. intros k r' Hk. by left.
    + split; [by apply insert_subseteq|]. intros k r' Hk.
      destruct (decide (k = req_url req)) as [->|Hne].
      * rewrite lookup_insert_eq in Hk. injection Hk as <-. by right.
      * rewrite lookup_insert_ne in Hk by done. by left.
  - destruct (delete_flow_effect rt ev cfg req w) as [Hc Hdb].
    split; [done|]. destruct Hdb as [->|[u ->]]; [done|apply delete_sublist].
Qed.

(** X13.  No handler lets two rows of the table share a URL: if the URLs of
    the table are pairwise different before a request, they are after it,
    whatever the request and its outcome. *)
Theorem urls_unique_preserved (rt : runtime) (ev : env) (cfg : config)
    (req : request) (w : world) :
  urls_unique (db w) ->
  urls_unique (db (handleUploadRequest rt ev cfg req w).2) /\
  urls_unique (db (handleSearchRequest rt ev cfg req w).2) /\
  urls_unique (db (handleFileRequest rt ev cfg req w).2) /\
  urls_unique (db (handleDeleteRequest rt ev cfg req w).2).
Proof.
  intros Hu. split; [|split; [|split]].
  - destruct (upload_flow_effect rt ev cfg req w) as [_ [->|(r & -> & Hfresh)]];
      [done|by apply append_keeps_unique].
  - by rewrite (proj1 (search_flow_effect rt ev cfg req w)).
  - by rewrite (proj1 (file_flow_effect rt ev cfg req w)).
  - destruct (delete_flow_effect rt ev cfg req w) as [_ [->|[u ->]]];
      [done|by apply delete_keeps_unique].
Qed.

Lemma urls_unique_preserved_witness :
  urls_unique (db (handleUploadRequest Sample.rt More.serving Sample.open_cfg
                     (Sample.upload_of Sample.picture) Sample.world0).2) /\
  List.length (db (handleUploadRequest Sample.rt More.serving Sample.open_cfg
                     (Sample.upload_of Sample.picture) Sample.world0).2) = 4%nat.
Proof.
  split; [|reflexivity].
  apply (urls_unique_preserved Sample.rt More.serving Sample.open_cfg
           (Sample.upload_of Sample.picture) Sample.world0).
  unfold urls_unique. apply (bool_decide_unpack _). vm_compute. reflexivity.
Defined.

(** ** Upload, retrieval and delete together *)

Section RoundTrips.

Context (rt : runtime) (ev : env) (cfg : config).

(** An upload is answered [upload_done], or the table is as before. *)
Lemma upload_cases req w :
  let out := handleUploadRequest rt ev cfg req w in
  (exists u, out.1 = Ok (upload_done u)) \/
  (db out.2 = db w /\ forall u, out.1 <> Ok (upload_done u)).
Proof.
  unfold handleUploadRequest, upload_done, upload_catch, json_response, redirect.
  effect_steps.
  destruct (refused rt ev cfg req) as [[|]|]; cbn;
    [right; split; [done|congruence]| |right; split; [done|congruence]].
  destruct (decide (method req = "GET")); [right; split; [done|cbn; congruence]|].
  unfold upload_try. effect_steps.
  destruct (uploaded_file req) as [f|]; [|right; split; [done|cbn; congruence]].
  destruct (classify (extension (name f))) as [cl|];
    [|right; split; [done|cbn; congruence]].
  pose proof (store_keeps_table rt ev cfg f cl w) as [Hdb _].
  destruct (store rt ev cfg f cl w) as [[[fileId messageId]|e] w1];
    cbn in *; [|right; split; [done|congruence]].
  pose proof (index_row rt ev cfg f (extension (name f)) fileId messageId w1) as Hidx.
  destruct (index rt ev cfg f _ fileId messageId w1) as [[u|e] w2]; cbn.
  - left. by exists u.
  - right. destruct Hidx as [Hsame _]. split; [congruence|]. unfold json_response.
    congruence.
Qed.

(** The retrieval that goes through. *)
Lemma file_served req w f tgData bytes0 result filePath path json bytes contentType :
  cache w !! req_url req = None ->
  Sqlite.select_first (req_url req) (db w) = Some f ->
  net ev (get_file_request cfg f) = NetReply true (Ok tgData) bytes0 ->
  JS.get tgData "result" = Ok result ->
  JS.get_opt result "file_path" = Ok filePath ->
  JS.truthy filePath = true ->
  Coerce.to_string filePath = Ok path ->
  net ev (download_request cfg path) = NetReply true json bytes ->
  Coerce.to_string (JS.or (of_column (mime_type f))
                      (getContentType (extension (req_url req)))) = Ok contentType ->
  valid_header rt contentType = true ->
  handleFileRequest rt ev cfg req w
    = (Ok (served contentType f bytes),
       MkWorld (db w) (<[req_url req := served contentType f bytes]> (cache w))
         (log w ++ [CacheMatch (req_url req); DbSelect (req_url req);
                    Fetch (get_file_request cfg f);
                    Fetch (download_request cfg path);
                    CachePut (req_url req)])%list).
Proof.
  intros Hmiss Hrow Hget Hresult Hpath Htruthy Htext Hdown Htype Hvalid.
  unfold handleFileRequest, file_try, fetch, get_file_request, download_request,
    extension, served in *.
  effect_steps. do 8 use_eq. rewrite Htype. cbn [db cache log fst snd negb].
  rewrite Hvalid. cbn [db cache log fst snd negb].
  by rewrite <- !app_assoc.
Qed.

(** On a cache miss the retrieval answers, and it caches its answer exactly
    when the answer is its 200. *)
Lemma file_miss_answer req w :
  cache w !! req_url req = None ->
  let out := handleFileRequest rt ev cfg req w in
  exists r, out.1 = Ok r /\
    ((status r = 200 /\ cache out.2 = <[req_url req := r]> (cache w)) \/
     (status r <> 200 /\ cache out.2 = cache w)).
Proof.
  intros Hc. unfold handleFileRequest, file_try, fetch. effect_steps.
  rewrite Hc. cbn.
  destruct (Sqlite.select_first (req_url req) (db w)) as [f|]; cbn;
    [|by eexists; split; [|right]].
  destruct (net ev _) as [e|[|] [tgData|e] bytes]; cbn;
    try (by eexists; split; [|right]).
  destruct (JS.get tgData "result") as [result|]; cbn;
    [|by eexists; split; [|right]].
  destruct (JS.get_opt result "file_path") as [filePath|]; cbn;
    [|by eexists; split; [|right]].
  destruct (JS.truthy filePath); cbn; [|by eexists; split; [|right]].
  destruct (Coerce.to_string filePath) as [path|]; cbn;
    [|by eexists; split; [|right]].
  destruct (net ev _) as [e|[|] json' bytes']; cbn;
    try (by eexists; split; [|right]).
  destruct (Coerce.to_string _) as [contentType|]; cbn;
    [|by eexists; split; [|right]].
  destruct (valid_header rt contentType); cbn; [|by eexists; split; [|right]].
  eexists. split; [done|]. by left.
Qed.

End RoundTrips.

Lemma classify_mime ext cl :
  classify ext = Ok cl ->
  getContentType ext = VStr (cl_mime cl) /\ cl_mime cl <> "".
Proof.
  unfold classify.
  destruct (getContentType ext) as [| | | |m| | |] eqn:Hct; try done.
  outcome_steps. unfold get_default. outcome_steps.
  destruct (JS.get typeMap _) as [entry|]; [|done].
  destruct (JS.get _ "method") as [method|]; [|done].
  destruct (JS.get _ "field") as [field|]; [|done].
  assert (Hm : m <> "").
  { unfold getContentType in Hct.
    destruct (JS.get types ext) as [v|]; [|by injection Hct as <-].
    unfold JS.or in Hct. destruct (JS.truthy v) eqn:Ht.
    - subst v. unfold JS.truthy in Ht. by destruct m.
    - by injection Hct as <-. }
  destruct (bool_decide _); intros [= <-]; done.
Qed.

Lemma upload_url_not_empty ev cfg f : upload_url ev cfg f <> "".
Proof.
  unfold upload_url. destruct (origin cfg) as [|c o].
  - rewrite append_empty. by rewrite append_cons.
  - by rewrite append_cons.
Qed.

Lemma delete_app_fresh u table r :
  Sqlite.select_first u table = None -> url r = u ->
  Sqlite.delete u (table ++ [r])%list = table.
Proof.
  unfold Sqlite.select_first, Sqlite.delete. intros Hfresh Hr.
  induction table as [|r' table IH]; cbn in *.
  - by rewrite bool_decide_eq_true_2.
  - destruct (bool_decide (url r' = u)); [done|]. cbn. by rewrite IH.
Qed.

(** X14.  The client is told that the upload went through exactly when the
    table has changed.  And then the table is the old one with one row at
    its end: under a URL that no row had, made of the origin, the reading
    of the clock and the extension of the file name; with the name and the
    size of the file and the shifted time stamp; it is the row a lookup of
    that URL finds, and the lookup of every other URL finds what it found
    before. *)
Theorem upload_answer_and_row (rt : runtime) (ev : env) (cfg : config)
    (req : request) (w : world) :
  let out := handleUploadRequest rt ev cfg req w in
  ((exists u, out.1 = Ok (upload_done u)) <-> db out.2 <> db w) /\
  (forall u, out.1 = Ok (upload_done u) ->
     exists f r,
       uploaded_file req = Ok f /\
       u = upload_url ev cfg f /\
       Sqlite.select_first u (db w) = None /\
       db out.2 = (db w ++ [r])%list /\
       url r = u /\
       file_name r = Some (name f) /\
       file_size r = SInt (size f) /\
       created_at r = SText (toISOString rt (now_stamp ev + 8 * 60 * 60 * 1000)) /\
       Sqlite.select_first u (db out.2) = Some r /\
       (forall u', u' <> u ->
          Sqlite.select_first u' (db out.2) = Sqlite.select_first u' (db w))).
Proof.
  intros out.
  assert (Hrow : forall u, out.1 = Ok (upload_done u) ->
            exists f r,
              uploaded_file req = Ok f /\ u = upload_url ev cfg f /\
              Sqlite.select_first u (db w) = None /\
              db out.2 = (db w ++ [r])%list /\ url r = u /\
              file_name r = Some (name f) /\ file_size r = SInt (size f) /\
              created_at r
                = SText (toISOString rt (now_stamp ev + 8 * 60 * 60 * 1000))).
  { intros u Hu. subst out.
    destruct (handleUploadRequest rt ev cfg req w) as [o w'] eqn:Hrun.
    cbn in Hu. subst o.
    apply upload_done_inv in Hrun
      as (f & cl & fileId & messageId & fid & mid & mime & id
          & Hf & _ & _ & _ & _ & _ & _ & Hu & Hfresh & Hdb & _).
    eexists f, _. cbn [snd]. rewrite Hdb. done. }
  split.
  - split.
    + intros [u Hu]. destruct (Hrow u Hu) as (f & r & _ & _ & _ & Hdb & _).
      rewrite Hdb. intros Heq. apply (f_equal List.length) in Heq.
      rewrite length_app in Heq. cbn in Heq. lia.
    + intros Hchanged.
      destruct (upload_cases rt ev cfg req w) as [Hdone|[Hsame _]]; [done|].
      by destruct Hchanged.
  - intros u Hu.
    destruct (Hrow u Hu) as (f & r & Hf & Hurl & Hfresh & Hdb & Hr & Hn & Hs & Ht).
    exists f, r. rewrite Hdb. repeat (split; [done|]). split.
    + rewrite select_first_app, Hfresh. by rewrite bool_decide_eq_true_2.
    + intros u' Hne. rewrite select_first_app.
      destruct (Sqlite.select_first u' (db w)); [done|].
      rewrite bool_decide_eq_false_2; [done|congruence].
Qed.

(** X15.  Upload, then retrieval.  After an upload that went through, the
    row of its URL has the file name, and as MIME type the type the form
    declared for the file or, when that was empty, the type of the
    extension; its file id and message id are the ones Telegram answered
    (a text as it is, a number as it is).  A later request for the URL
    that does not hit the cache asks [getFile] for that row, and when
    Telegram hands the file out it is answered 200 with the bytes and with
    that MIME type as Content-Type, and this answer is in the cache under
    the URL. *)
Theorem upload_then_retrieve (rt : runtime) (ev1 ev2 : env) (cfg : config)
    (req1 req2 : request) (w w1 : world) (u : string) (f : file)
    (cl : classification) :
  handleUploadRequest rt ev1 cfg req1 w = (Ok (upload_done u), w1) ->
  uploaded_file req1 = Ok f ->
  classify (extension (name f)) = Ok cl ->
  req_url req2 = u ->
  cache w !! u = None ->
  let contentType := if decide (type f = "") then cl_mime cl else type f in
  let out := handleFileRequest rt ev2 cfg req2 w1 in
  exists r tgFileId tgMessageId,
    Sqlite.select_first u (db w1) = Some r /\
    file_name r = Some (name f) /\
    mime_type r = Some contentType /\
    stored rt ev1 cfg f cl tgFileId tgMessageId /\
    (forall s, tgFileId = VStr s -> fileId r = s) /\
    (forall n, tgMessageId = VNum n -> message_id r = SInt n) /\
    forall tgData bytes0 result filePath path json bytes,
      net ev2 (get_file_request cfg r) = NetReply true (Ok tgData) bytes0 ->
      JS.get tgData "result" = Ok result ->
      JS.get_opt result "file_path" = Ok filePath ->
      JS.truthy filePath = true ->
      Coerce.to_string filePath = Ok path ->
      net ev2 (download_request cfg path) = NetReply true json bytes ->
      valid_header rt contentType = true ->
      out.1 = Ok (served contentType r bytes) /\
      cache out.2 !! u = Some (served contentType r bytes).
Proof.
  intros Hup Hf Hcl Hurl Hmiss contentType out.
  apply upload_done_inv in Hup
    as (f' & cl' & fid0 & mid0 & fid & mid & mime & id
        & Hf' & Hcl' & Hstored & Hb1 & Hb2 & Hb3 & Hid & Hu & Hfresh & Hdb & Hcache).
  rewrite Hf in Hf'. injection Hf' as <-.
  rewrite Hcl in Hcl'. injection Hcl' as <-.
  destruct (classify_mime _ _ Hcl) as [Hct Hne].
  assert (Htype : contentType <> "").
  { subst contentType. by destruct (decide (type f = "")). }
  assert (Hmime : mime = SText contentType).
  { rewrite Hct in Hb3. unfold JS.or, JS.truthy in Hb3. subst contentType.
    destruct (type f) as [|c t]; cbn in Hb3; by injection Hb3 as <-. }
  subst mime. cbn [Sqlite.text_nullable] in Hdb.
  set (r := MkRow _ _ _ _ _ _ _) in Hdb.
  assert (Hrow : Sqlite.select_first u (db w1) = Some r).
  { rewrite Hdb, select_first_app, Hfresh. by rewrite bool_decide_eq_true_2. }
  exists r, fid0, mid0.
  split; [done|]. split; [done|]. split; [done|]. split; [done|]. split.
  { intros s ->. cbn in Hb1. injection Hb1 as <-. cbn in Hid. by injection Hid as <-. }
  split.
  { intros n ->. cbn in Hb2. by injection Hb2 as <-. }
  intros tgData bytes0 result filePath path json bytes
    Hget Hresult Hpath Htruthy Htext Hdown Hvalid.
  subst out.
  rewrite (file_served rt ev2 cfg req2 w1 r tgData bytes0 result filePath path
             json bytes contentType).
  - cbn [fst snd cache]. split; [done|]. rewrite Hurl. apply lookup_insert_eq.
  - by rewrite Hurl, Hcache.
  - by rewrite Hurl.
  - exact Hget.
  - exact Hresult.
  - exact Hpath.
  - exact Htruthy.
  - exact Htext.
  - exact Hdown.
  - unfold r. cbn [mime_type of_column]. unfold JS.or, JS.truthy.
    by destruct contentType.
  - exact Hvalid.
Qed.

Lemma upload_then_retrieve_witness :
  exists r,
    (handleFileRequest Sample.rt More.serving Sample.open_cfg
       (Sample.get_of More.picture_url None)
       (handleUploadRequest Sample.rt More.serving Sample.open_cfg
          (Sample.upload_of Sample.picture) Sample.world0).2).1
    = Ok (served "image/png" r "PNG bytes").
Proof.
  destruct (upload_then_retrieve Sample.rt More.serving More.serving
              Sample.open_cfg (Sample.upload_of Sample.picture)
              (Sample.get_of More.picture_url None) Sample.world0
              (handleUploadRequest Sample.rt More.serving Sample.open_cfg
                 (Sample.upload_of Sample.picture) Sample.world0).2
              More.picture_url Sample.picture
              (MkClass "image/png" (VStr "sendPhoto") (VStr "photo")))
    as (r & tgFileId & tgMessageId & Hrow & _ & _ & _ & _ & _ & Hrun).
  - vm_compute. reflexivity.
  - reflexivity.
  - reflexivity.
  - reflexivity.
  - reflexivity.
  - exists r. vm_compute in Hrow. injection Hrow as <-.
    refine (proj1 (Hrun More.got_file "{}"
                     (VObj [ ("file_id", VStr "AgAClarge");
                             ("file_path", VStr "photos/file_1.png") ])
                     (VStr "photos/file_1.png") "photos/file_1.png"
                     (Throw Sample.no_body) "PNG bytes" _ _ _ _ _ _ _));
      reflexivity.
Defined.

(** X16.  What a retrieval that misses the cache does to the cache.  It
    always answers; an answer other than its 200 - no row, a refusal of
    Telegram, an exception - is never cached; its 200 is cached under the
    URL of the request, and from then on every request for that URL is
    answered by this very response with no more effect than the cache
    lookup, whatever has become of the table, of Telegram and of the
    configuration. *)
Theorem retrieval_fills_cache (rt : runtime) (ev : env) (cfg : config)
    (req : request) (w : world) (r : response) :
  cache w !! req_url req = None ->
  let out := handleFileRequest rt ev cfg req w in
  (exists r0, out.1 = Ok r0) /\
  (out.1 = Ok r ->
   (status r <> 200 -> cache out.2 = cache w) /\
   (status r = 200 ->
    cache out.2 = <[req_url req := r]> (cache w) /\
    forall rt' ev' cfg' req' w',
      req_url req' = req_url req ->
      cache w' = cache out.2 ->
      handleFileRequest rt' ev' cfg' req' w'
        = (Ok r, logged w' [CacheMatch (req_url req)]))).
Proof.
  intros Hmiss out.
  destruct (file_miss_answer rt ev cfg req w Hmiss) as (r0 & Hr0 & Hcases).
  fold out in Hr0, Hcases. split; [by exists r0|].
  intros Hr. rewrite Hr0 in Hr. injection Hr as ->.
  destruct Hcases as [[Hs Hc]|[Hs Hc]].
  - split; [done|]. intros _. split; [done|].
    intros rt' ev' cfg' req' w' Hurl Hcache.
    assert (Hhit : cache w' !! req_url req' = Some r).
    { rewrite Hurl, Hcache, Hc. apply lookup_insert_eq. }
    unfold handleFileRequest, file_try. effect_steps.
    rewrite Hhit, Hurl. done.
  - split; [done|]. intros Hs'. by destruct Hs.
Qed.

Lemma retrieval_fills_cache_witness :
  let out :=
    handleFileRequest Sample.rt More.serving Sample.open_cfg
      (Sample.get_of (url Sample.photo) None) Sample.world0 in
  handleFileRequest Sample.rt Sample.ev Sample.cfg
    (Sample.get_of (url Sample.photo) (Some "theme=dark"))
    (MkWorld [] (cache out.2) [])
  = (Ok (served "image/png" Sample.photo "PNG bytes"),
     MkWorld [] (cache out.2) [CacheMatch (url Sample.photo)]).
Proof.
  refine (proj2 (proj2 (proj2 (retrieval_fills_cache Sample.rt More.serving
                                 Sample.open_cfg
                                 (Sample.get_of (url Sample.photo) None)
                                 Sample.world0
                                 (served "image/png" Sample.photo "PNG bytes")
                                 _) _) _)
            Sample.rt Sample.ev Sample.cfg
            (Sample.get_of (url Sample.photo) (Some "theme=dark"))
            _ _ _);
    reflexivity.
Defined.

(** X17.  Upload, then delete.  A delete request that passes the
    authentication check and names the URL an upload has just been
    answered with takes the table back to what it was before the upload,
    is answered 200, leaves the cache alone, and has asked Telegram to
    delete the message of the row the upload wrote - whatever Telegram
    answers to that. *)
Theorem upload_then_delete (rt : runtime) (ev1 ev2 : env) (cfg : config)
    (req1 req2 : request) (w w1 : world) (u : string) (data : jsval) :
  handleUploadRequest rt ev1 cfg req1 w = (Ok (upload_done u), w1) ->
  refused rt ev2 cfg req2 = Ok false ->
  json_body req2 = Ok data ->
  destructure data "url" = Ok (VStr u) ->
  let out := handleDeleteRequest rt ev2 cfg req2 w1 in
  db out.2 = db w /\
  cache out.2 = cache w /\
  (exists text, out.1 = Ok (delete_done text)) /\
  exists r,
    Sqlite.select_first u (db w1) = Some r /\
    log out.2 = (log w1 ++ [DbSelect u; Fetch (delete_request cfg r); DbDelete u])%list.
Proof.
  intros Hup Hauth Hbody Hurl out.
  apply upload_done_inv in Hup
    as (f & cl & fid0 & mid0 & fid & mid & mime & id
        & _ & _ & _ & _ & _ & _ & _ & Hu & Hfresh & Hdb & Hcache).
  assert (Hne : u <> "") by (rewrite Hu; apply upload_url_not_empty).
  set (r := MkRow _ _ _ _ _ _ _) in Hdb.
  assert (Hrow : Sqlite.select_first u (db w1) = Some r).
  { rewrite Hdb, select_first_app, Hfresh. by rewrite bool_decide_eq_true_2. }
  destruct (delete_found rt ev2 cfg req2 w1 data u r Hauth Hbody Hurl Hne Hrow)
    as (err & _ & Hout).
  subst out. rewrite Hout. cbn [fst snd db cache log].
  split; [by rewrite Hdb; apply delete_app_fresh|].
  split; [done|]. split; [by eexists|]. by exists r.
Qed.

Lemma upload_then_delete_witness :
  db (handleDeleteRequest Sample.rt Sample.refusing Sample.open_cfg
        (Sample.delete_of More.picture_url)
        (handleUploadRequest Sample.rt More.serving Sample.open_cfg
           (Sample.upload_of Sample.picture) Sample.world0).2).2
  = db Sample.world0.
Proof.
  refine (proj1 (upload_then_delete Sample.rt More.serving Sample.refusing
                   Sample.open_cfg (Sample.upload_of Sample.picture)
                   (Sample.delete_of More.picture_url) Sample.world0
                   (handleUploadRequest Sample.rt More.serving Sample.open_cfg
                      (Sample.upload_of Sample.picture) Sample.world0).2
                   More.picture_url (VObj [("url", VStr More.picture_url)])
                   _ _ _ _)).
  - vm_compute. reflexivity.
  - reflexivity.
  - reflexivity.
  - reflexivity.
Defined.

(** X18.  A row stays, as it is and as the first row of its URL, through
    every upload, search and retrieval request.  And the only request
    after which it is gone is a delete request that passed the
    authentication check, named the URL of the row in its body, and was
    answered 200 with [success: true]. *)
Theorem rows_persist (rt : runtime) (ev : env) (cfg : config)
    (req : request) (w : world) (u : string) (r0 : row) :
  Sqlite.select_first u (db w) = Some r0 ->
  let after (out : outcome response * world) := Sqlite.select_first u (db out.2) in
  let de := handleDeleteRequest rt ev cfg req w in
  after (handleUploadRequest rt ev cfg req w) = Some r0 /\
  after (handleSearchRequest rt ev cfg req w) = Some r0 /\
  after (handleFileRequest rt ev cfg req w) = Some r0 /\
  (after de = Some r0 \/
   (after de = None /\
    refused rt ev cfg req = Ok false /\
    (exists data, json_body req = Ok data /\
                  destructure data "url" = Ok (VStr u)) /\
    exists text, de.1 = Ok (delete_done text))).
Proof.
  intros Hrow after de. subst after de. cbn beta.
  split; [|split; [|split]].
  - destruct (upload_flow_effect rt ev cfg req w) as [_ [->|(r & -> & _)]];
      [done|]. by rewrite select_first_app, Hrow.
  - by rewrite (proj1 (search_flow_effect rt ev cfg req w)).
  - by rewrite (proj1 (file_flow_effect rt ev cfg req w)).
  - destruct (delete_cases rt ev cfg req w)
      as [->|(data & u0 & f & err & Hauth & Hbody & Hurl & Hne & Hfound & -> & Hans)];
      [by left|].
    destruct (decide (u0 = u)) as [->|Hother].
    + right. split; [apply select_first_delete|]. split; [done|].
      split; [by exists data|]. by eexists.
    + left. by rewrite select_first_delete_ne.
Qed.

Lemma rows_persist_witness :
  Sqlite.select_first (url Sample.photo)
    (db (handleUploadRequest Sample.rt More.serving Sample.open_cfg
           (Sample.upload_of Sample.picture) Sample.world0).2)
  = Some Sample.photo /\
  Sqlite.select_first (url Sample.photo)
    (db (handleDeleteRequest Sample.rt Sample.refusing Sample.open_cfg
           (Sample.delete_of (url Sample.report)) Sample.world0).2)
  = Some Sample.photo.
Proof.
  pose proof (rows_persist Sample.rt More.serving Sample.open_cfg
                (Sample.upload_of Sample.picture) Sample.world0
                (url Sample.photo) Sample.photo eq_refl) as Hup.
  pose proof (rows_persist Sample.rt Sample.refusing Sample.open_cfg
                (Sample.delete_of (url Sample.report)) Sample.world0
                (url Sample.photo) Sample.photo eq_refl) as Hde.
  split; [exact (proj1 Hup)|].
  destruct (proj2 (proj2 (proj2 Hde))) as [Hstays|(_ & _ & (data & Hbody & Hurl) & _)];
    [exact Hstays|].
  injection Hbody as <-. vm_compute in Hurl. discriminate.
Defined.

(** X19.  A delete request that passes the authentication check but has no
    usable URL is turned down before anything is read or fetched: the world
    is the one before the request.  A body that is not JSON, and a body
    that is [null], is answered 500 with the message of the exception
    (replaced by a fixed text when it contains "message to delete not
    found"); a body whose [url] is missing, empty or not a string is
    answered 400. *)
Theorem delete_bad_input (rt : runtime) (ev : env) (cfg : config)
    (req : request) (w : world) :
  refused rt ev cfg req = Ok false ->
  let out := handleDeleteRequest rt ev cfg req w in
  let failed e :=
    json_response 500
      [("error", VStr (if Str.includes "message to delete not found" (message e)
                       then "文件已从频道移除" else message e))] in
  let invalid := json_response 400 [("error", VStr "无效的URL")] in
  (forall e, json_body req = Throw e -> out = (Ok (failed e), w)) /\
  (json_body req = Ok VNull ->
   exists e, is_type_error e = true /\ out = (Ok (failed e), w)) /\
  (forall data target,
     json_body req = Ok data ->
     destructure data "url" = Ok target ->
     (forall c s, target <> VStr (String c s)) ->
     out = (Ok invalid, w)) /\
  (forall props,
     json_body req = Ok (VObj props) ->
     JS.own props "url" = None ->
     out = (Ok invalid, w)).
Proof.
  intros Hauth out failed invalid. subst out failed invalid.
  assert (Hinvalid : forall data target,
            json_body req = Ok data ->
            destructure data "url" = Ok target ->
            (forall c s, target <> VStr (String c s)) ->
            handleDeleteRequest rt ev cfg req w
              = (Ok (json_response 400 [("error", VStr "无效的URL")]), w)).
  { intros data target Hbody Hurl Hno.
    unfold handleDeleteRequest, delete_try. effect_steps.
    rewrite Hauth. cbn. rewrite Hbody, Hurl.
    destruct target as [| | | |[|c s]| | |]; try done. by destruct (Hno c s). }
  split; [|split; [|split]].
  - intros e Hbody. unfold handleDeleteRequest, delete_try. effect_steps.
    rewrite Hauth. cbn. by rewrite Hbody.
  - intros Hbody. eexists. split; cycle 1.
    + unfold handleDeleteRequest, delete_try. effect_steps.
      rewrite Hauth. cbn. rewrite Hbody. cbn. reflexivity.
    + reflexivity.
  - exact Hinvalid.
  - intros props Hbody Hown. apply (Hinvalid (VObj props) VUndef Hbody); [|done].
    unfold destructure, JS.get. by rewrite Hown.
Qed.

Lemma delete_bad_input_witness :
  handleDeleteRequest Sample.rt Sample.ev Sample.open_cfg
    (Sample.json_request "/delete" (VObj [("link", VStr "https://host/x.png")]))
    Sample.world0
  = (Ok (json_response 400 [("error", VStr "无效的URL")]), Sample.world0).
Proof.
  apply (proj2 (proj2 (proj2
           (delete_bad_input Sample.rt Sample.ev Sample.open_cfg
              (Sample.json_request "/delete"
                 (VObj [("link", VStr "https://host/x.png")]))
              Sample.world0 eq_refl)))
           [("link", VStr "https://host/x.png")]);
    reflexivity.
Defined.

(** X20.  A search request that passes the authentication check and whose
    [query] is a text - wildcards and all - or is missing, [null] or a
    boolean, which the pattern spells out ([undefined] for a body without
    [query]).  When the pattern is within the limit that the database sets
    on LIKE patterns, or the table is empty, the answer is 200 with rows
    of the table that have a file name, none more often than the table
    has it, no row before a row created later.  When the pattern is beyond
    the limit and the table has a row, the answer is 500 with the message
    of the database.  Either way the one SELECT is the only effect. *)
Theorem search_any_query (rt : runtime) (ev : env) (cfg : config)
    (req : request) (w : world) (data query : jsval) (q : string) :
  refused rt ev cfg req = Ok false ->
  json_body req = Ok data ->
  destructure data "query" = Ok query ->
  text_of query = Some q ->
  let pattern := "%" +:+ q +:+ "%" in
  let out := handleSearchRequest rt ev cfg req w in
  out.2 = logged w [DbSearch pattern] /\
  ((String.length pattern <= like_limit ev)%nat \/ db w = [] ->
   exists rows,
     out.1 = Ok (MkResponse 200 json_headers (BFiles rows)) /\
     StronglySorted Sqlite.newer_first rows /\
     rows ⊆+ db w /\
     Forall (fun r => file_name r <> None) rows) /\
  ((like_limit ev < String.length pattern)%nat -> db w <> [] ->
   out.1 = Ok search_refused) /\
  (forall props, data = VObj props -> JS.own props "query" = None ->
     q = "undefined").
Proof.
  intros Hauth Hbody Hquery Htext pattern out. subst pattern out.
  assert (Hprint : Coerce.to_string query = Ok q).
  { destruct query as [| |b| | | | |]; try done; cbn in Htext;
      by injection Htext as <-. }
  assert (Hrun : handleSearchRequest rt ev cfg req w
            = match Sqlite.search (like_limit ev) ("%" +:+ q +:+ "%") (db w) with
              | Ok rows => (Ok (MkResponse 200 json_headers (BFiles rows)),
                            logged w [DbSearch ("%" +:+ q +:+ "%")])
              | Throw e => (Ok (json_response 500 [("error", VStr (message e))]),
                            logged w [DbSearch ("%" +:+ q +:+ "%")])
              end).
  { unfold handleSearchRequest, search_try. effect_steps.
    rewrite Hauth. cbn. rewrite Hbody, Hquery, Hprint.
    by destruct (Sqlite.search _ _ _). }
  rewrite Hrun. split; [|split; [|split]].
  - by destruct (Sqlite.search _ _ _).
  - intros Hruns. rewrite (search_within _ _ _ Hruns). eexists.
    split; [done|]. split; [apply order_by_sorted|]. split.
    + rewrite (proj2 (order_by_sorted _)). apply sublist_submseteq.
      generalize (db w). intros l. induction l as [|r l IH]; cbn; [constructor|].
      destruct (Sqlite.like_column _ (file_name r)); by constructor.
    + rewrite (proj2 (order_by_sorted _)).
      apply Forall_forall. intros r Hr.
      rewrite list_elem_of_In, filter_In in Hr. destruct Hr as [_ Hlike].
      unfold Sqlite.like_column in Hlike. by destruct (file_name r).
  - intros Hlong Hrows. by rewrite (search_beyond _ _ _ Hlong Hrows).
  - intros props -> Hown. unfold destructure, JS.get in Hquery.
    rewrite Hown in Hquery. injection Hquery as <-.
    cbn in Htext. by injection Htext as <-.
Qed.

Lemma search_any_query_witness :
  exists rows,
    handleSearchRequest Sample.rt Sample.ev Sample.open_cfg
      (Sample.json_request "/search" (VObj [])) Sample.world0
    = (Ok (MkResponse 200 json_headers (BFiles rows)),
       logged Sample.world0 [DbSearch "%undefined%"]).
Proof.
  pose proof (search_any_query Sample.rt Sample.ev Sample.open_cfg
                (Sample.json_request "/search" (VObj [])) Sample.world0
                (VObj []) VUndef "undefined"
                eq_refl eq_refl eq_refl eq_refl) as [Hworld [Hruns _]].
  destruct Hruns as (rows & Hrun & _).
  - left. vm_compute. lia.
  - exists rows.
    rewrite (surjective_pairing (handleSearchRequest _ _ _ _ _)).
    by rewrite Hrun, Hworld.
Defined.

(** ** The file id of a reply *)

Section FileId.

Lemma pretty_N_go_head x s :
  (forall t, s <> String "l" t) -> forall t, pretty_N_go x s <> String "l" t.
Proof.
  revert s. induction (N.lt_wf_0 x) as [x _ IH]. intros s Hs.
  assert (x = 0 \/ 0 < x)%N as [->|Hpos] by lia.
  - by rewrite pretty_N_go_0.
  - rewrite pretty_N_go_step by done. apply IH.
    + by apply N.div_lt.
    + intros t. unfold pretty_N_char. by repeat case_match.
Qed.

(** No number prints as [length]. *)
Lemma pretty_not_length (z : Z) : pretty z <> "length".
Proof.
  unfold pretty, pretty_Z. destruct z as [|p|p]; [done| |].
  - unfold pretty, pretty_positive, pretty, pretty_N. case_decide; [done|].
    by apply pretty_N_go_head.
  - by rewrite append_cons.
Qed.

(** An array read at the printed index. *)
Lemma index_go_lookup items i k :
  JS.index_go i items (pretty (i + Z.of_nat k)) = items !! k.
Proof.
  revert i k. induction items as [|x items IH]; intros i k; [done|].
  cbn [JS.index_go]. destruct k as [|k].
  - rewrite Z.add_0_r. by case_decide.
  - case_decide as Heq.
    + apply (inj pretty) in Heq. lia.
    + replace (i + Z.of_nat (S k)) with (i + 1 + Z.of_nat k) by lia. apply IH.
Qed.

Lemma get_last_item items x :
  last items = Some x ->
  JS.get (VArr items) (pretty (Z.of_nat (List.length items) - 1)) = Ok x.
Proof.
  intros Hlast. unfold JS.get.
  rewrite decide_False by apply pretty_not_length.
  assert (Hlen : (0 < List.length items)%nat) by (destruct items; [done|cbn; lia]).
  replace (Z.of_nat (List.length items) - 1)
    with (0 + Z.of_nat (Nat.pred (List.length items))) by lia.
  rewrite index_go_lookup. rewrite last_lookup in Hlast. by rewrite Hlast.
Qed.

End FileId.

(** X21.  The file id taken from Telegram's reply.  A result whose document
    has a truthy file id gives that one; a result without a document
    gives the truthy file id of its video; one without either gives that
    of its audio; and a result that has none of the three but an array of
    photo sizes gives the file id of the last size of the array, and
    nothing ([undefined]) when the array is empty. *)
Theorem file_id_of_reply (rt : runtime) (props : list (string * jsval)) :
  let result := VObj props in
  (forall a, nested_file_id result "document" = Ok a -> JS.truthy a = true ->
     file_id_of rt result = Ok a) /\
  (JS.own props "document" = None ->
   (forall b, nested_file_id result "video" = Ok b -> JS.truthy b = true ->
      file_id_of rt result = Ok b) /\
   (JS.own props "video" = None ->
    (forall c, nested_file_id result "audio" = Ok c -> JS.truthy c = true ->
       file_id_of rt result = Ok c) /\
    (JS.own props "audio" = None ->
     forall sizes, JS.own props "photo" = Some (VArr sizes) ->
       (sizes = [] -> file_id_of rt result = Ok VUndef) /\
       (forall last_size, last sizes = Some last_size ->
          file_id_of rt result = JS.get_opt last_size "file_id")))).
Proof.
  intros result. subst result.
  assert (Habsent : forall kind,
            kind ∉ JS.object_prototype -> JS.own props kind = None ->
            nested_file_id (VObj props) kind = Ok VUndef).
  { intros kind Hkind Hown. unfold nested_file_id. outcome_steps.
    change (JS.get_opt (VObj props) kind) with (JS.get (VObj props) kind).
    unfold JS.get. rewrite Hown. cbn [default from_option id]. unfold JS.inherited.
    by rewrite bool_decide_eq_false_2. }
  assert (Hnames : Forall (fun kind => kind ∉ JS.object_prototype)
                     ["document"; "video"; "audio"; "-1"]).
  { repeat constructor; apply (bool_decide_unpack _); vm_compute; reflexivity. }
  apply Forall_cons in Hnames as [Hdoc Hnames].
  apply Forall_cons in Hnames as [Hvideo Hnames].
  apply Forall_cons in Hnames as [Haudio Hnames].
  apply Forall_cons in Hnames as [Hminus _].
  split.
  { intros a Ha Hta. unfold file_id_of. outcome_steps. by rewrite Ha, Hta. }
  intros Hd. split.
  { intros b Hb Htb. unfold file_id_of. outcome_steps.
    rewrite (Habsent _ Hdoc Hd). change (JS.truthy VUndef) with false. cbn iota.
    by rewrite Hb, Htb. }
  intros Hv. split.
  { intros c Hc Htc. unfold file_id_of. outcome_steps.
    rewrite (Habsent _ Hdoc Hd). change (JS.truthy VUndef) with false. cbn iota.
    rewrite (Habsent _ Hvideo Hv). change (JS.truthy VUndef) with false. cbn iota.
    by rewrite Hc, Htc. }
  intros Ha sizes Hphoto.
  assert (Hphoto_id : file_id_of rt (VObj props)
            = (key ← Coerce.pred_key rt (VNum (Z.of_nat (List.length sizes)));
               last_size ← JS.get (VArr sizes) key;
               JS.get_opt last_size "file_id")).
  { unfold file_id_of, photo_file_id. outcome_steps.
    rewrite (Habsent _ Hdoc Hd). change (JS.truthy VUndef) with false. cbn iota.
    rewrite (Habsent _ Hvideo Hv). change (JS.truthy VUndef) with false. cbn iota.
    rewrite (Habsent _ Haudio Ha). change (JS.truthy VUndef) with false. cbn iota.
    change (JS.get_opt (VObj props) "photo") with (JS.get (VObj props) "photo").
    unfold JS.get at 1. rewrite Hphoto. cbn [default from_option id].
    change (JS.truthy (VArr sizes)) with true. cbn iota.
    change (JS.get (VArr sizes) "length")
      with (@Ok jsval (VNum (Z.of_nat (List.length sizes)))).
    done. }
  rewrite Hphoto_id. outcome_steps.
  change (Coerce.pred_key rt (VNum ?n)) with (@Ok string (pretty (n - 1))).
  cbn iota. split.
  - intros ->. cbn [List.length]. unfold JS.get.
    rewrite decide_False by apply pretty_not_length.
    cbn [JS.index_go default from_option id]. unfold JS.inherited.
    by rewrite bool_decide_eq_false_2.
  - intros last_size Hlast. by rewrite (get_last_item sizes last_size Hlast).
Qed.

Lemma file_id_of_reply_witness :
  file_id_of Sample.rt
    (VObj [ ("message_id", VNum 77);
            ("photo", VArr [ VObj [("file_id", VStr "AgACsmall")];
                             VObj [("file_id", VStr "AgAClarge")] ]) ])
  = Ok (VStr "AgAClarge").
Proof.
  exact (proj2 (proj2 (proj2 (proj2
           (file_id_of_reply Sample.rt
              [ ("message_id", VNum 77);
                ("photo", VArr [ VObj [("file_id", VStr "AgACsmall")];
                                 VObj [("file_id", VStr "AgAClarge")] ]) ])
           eq_refl) eq_refl) eq_refl
           [ VObj [("file_id", VStr "AgACsmall")];
             VObj [("file_id", VStr "AgAClarge")] ] eq_refl)
           (VObj [("file_id", VStr "AgAClarge")]) eq_refl).
Defined.

(** ** Requests that do not authenticate *)

Lemma login_keeps_world lrt cfg days now_login req w :
  (handleLoginRequest lrt cfg days now_login req w).2 = w.
Proof.
  unfold handleLoginRequest. effect_steps.
  destruct (decide (method req = "POST")); [|done].
  destruct (json_body req) as [data|]; cbn; [|done].
  destruct (destructure data "username") as [user|]; cbn; [|done].
  destruct (destructure data "password") as [pass|]; cbn; [|done].
  destruct (_ && _); cbn; [|done].
  by destruct (btoa lrt _).
Qed.

(** X22.  With authentication on, a request that [authenticate] turns down
    never changes the table, whatever its path (the admin route, whose
    handler is not part of this development, aside).  On [/] and [/login]
    it gets the login handler, which changes nothing at all; on [/upload],
    [/delete] and [/search] it gets the redirect to the start page and
    nothing has happened; on any other path it gets the file handler. *)
Theorem unauthenticated_requests_keep_table (rt : runtime) (lrt : login_runtime)
    (ev : env) (cfg : config) (days now_login : Z)
    (handleAdminRequest : request -> M response)
    (pathname : string) (req : request) (w : world) :
  enableAuth cfg = true ->
  authenticate rt ev cfg req = Ok false ->
  pathname <> "/admin" ->
  let out := route rt lrt ev cfg days now_login handleAdminRequest pathname req w in
  db out.2 = db w /\
  (pathname ∈ ["/"; "/login"] ->
   out = handleLoginRequest lrt cfg days now_login req w /\ out.2 = w) /\
  (pathname ∈ ["/upload"; "/delete"; "/search"] ->
   out = (Ok (redirect (req_origin req +:+ "/")), w)) /\
  (pathname ∉ ["/"; "/login"; "/upload"; "/admin"; "/delete"; "/search"] ->
   out = handleFileRequest rt ev cfg req w).
Proof.
  intros Hon Hno Hadmin out.
  pose proof (refused_of_authenticate rt ev cfg req Hon Hno) as Hrefused.
  assert (Hredirect :
            handleUploadRequest rt ev cfg req w
              = (Ok (redirect (req_origin req +:+ "/")), w) /\
            handleSearchRequest rt ev cfg req w
              = (Ok (redirect (req_origin req +:+ "/")), w) /\
            handleDeleteRequest rt ev cfg req w
              = (Ok (redirect (req_origin req +:+ "/")), w)).
  { unfold handleUploadRequest, handleSearchRequest, handleDeleteRequest.
    effect_steps. by rewrite Hrefused. }
  destruct Hredirect as (Hup & Hse & Hde).
  assert (Hroot : handleAuthRequest rt lrt ev cfg days now_login req w
                  = handleLoginRequest lrt cfg days now_login req w).
  { unfold handleAuthRequest. rewrite Hon. effect_steps. by rewrite Hno. }
  pose proof (login_keeps_world lrt cfg days now_login req w) as Hlogin.
  subst out. unfold route.
  destruct (decide (pathname = "/")) as [->|H1].
  { rewrite Hroot, Hlogin. repeat split; try done.
    - intros Hin. repeat (apply elem_of_cons in Hin as [Hin|Hin]; [done|]).
      by apply elem_of_nil in Hin.
    - intros Hout. destruct Hout. by left. }
  destruct (decide (pathname = "/login")) as [->|H2].
  { rewrite Hlogin. repeat split; try done.
    - intros Hin. repeat (apply elem_of_cons in Hin as [Hin|Hin]; [done|]).
      by apply elem_of_nil in Hin.
    - intros Hout. destruct Hout. right. by left. }
  assert (Hlog : pathname ∉ ["/"; "/login"]).
  { intros Hin. repeat (apply elem_of_cons in Hin as [Hin|Hin]; [done|]).
    by apply elem_of_nil in Hin. }
  destruct (decide (pathname = "/upload")) as [->|H3].
  { rewrite Hup. repeat split; try done.
    intros Hout. destruct Hout. do 2 right. by left. }
  rewrite (decide_False (P := pathname = "/admin")) by done.
  destruct (decide (pathname = "/delete")) as [->|H5].
  { rewrite Hde. repeat split; try done.
    intros Hout. destruct Hout. do 4 right. by left. }
  destruct (decide (pathname = "/search")) as [->|H6].
  { rewrite Hse. repeat split; try done.
    intros Hout. destruct Hout. do 5 right. by left. }
  split; [apply (file_flow_effect rt ev cfg req w)|].
  split; [done|]. split; [|done].
  intros Hin. repeat (apply elem_of_cons in Hin as [Hin|Hin]; [done|]).
  by apply elem_of_nil in Hin.
Qed.

Lemma unauthenticated_requests_keep_table_witness :
  route Sample.rt More.lrt More.serving Sample.cfg 7 More.issued_at
    (fun _ => Eff.throw Sample.no_body) "/upload"
    (Sample.upload_of Sample.picture) Sample.world0
  = (Ok (redirect "https://host/"), Sample.world0).
Proof.
  refine (proj1 (proj2 (proj2
            (unauthenticated_requests_keep_table Sample.rt More.lrt More.serving
               Sample.cfg 7 More.issued_at (fun _ => Eff.throw Sample.no_body)
               "/upload" (Sample.upload_of Sample.picture) Sample.world0
               eq_refl eq_refl _))) _).
  - discriminate.
  - by left.
Defined.

(** ** The extension, from the file name to the URL *)

Section ExtensionOfUrl.

Lemma append_assoc_text a b c : (a +:+ b) +:+ c = a +:+ (b +:+ c).
Proof.
  induction a as [|x a IH]; [by rewrite !append_empty|].
  by rewrite !append_cons, IH.
Qed.

Lemma lower_ascii_dot c :
  bool_decide (Str.lower_ascii c = "."%char) = bool_decide (c = "."%char).
Proof. by destruct c as [[] [] [] [] [] [] [] []]. Qed.

Lemma has_dot_toLowerCase s : Str.has_dot (Str.toLowerCase s) = Str.has_dot s.
Proof.
  induction s as [|c s IH]; cbn; [done|].
  pose proof (lower_ascii_dot c) as Hc.
  destruct (decide (Str.lower_ascii c = "."%char)) as [Hl|Hl];
    destruct (decide (c = "."%char)) as [Hd|Hd]; try done.
  - rewrite bool_decide_eq_true_2, bool_decide_eq_false_2 in Hc; done.
  - rewrite bool_decide_eq_false_2, bool_decide_eq_true_2 in Hc; done.
Qed.

Lemma no_tail_no_dot s : Str.after_last_dot s = None -> Str.has_dot s = false.
Proof.
  induction s as [|c s IH]; cbn; [done|].
  destruct (Str.after_last_dot s); [done|].
  destruct (decide (c = "."%char)); [done|]. auto.
Qed.

Lemma tail_has_no_dot s t : Str.after_last_dot s = Some t -> Str.has_dot t = false.
Proof.
  induction s as [|c s IH]; cbn; [done|].
  destruct (Str.after_last_dot s) as [t'|] eqn:Hs.
  - intros [= <-]. by apply IH.
  - destruct (decide (c = "."%char)); [|done].
    intros [= <-]. by apply no_tail_no_dot.
Qed.

Lemma extension_no_dot name : Str.has_dot (extension name) = false.
Proof.
  unfold extension. rewrite pop_split. cbn [default from_option id].
  rewrite has_dot_toLowerCase.
  destruct (Str.after_last_dot name) as [t|] eqn:Ht; cbn.
  - by apply (tail_has_no_dot name).
  - by apply no_tail_no_dot.
Qed.

End ExtensionOfUrl.

(** X23.  The extension survives the way from the file name into the URL.
    The extension an upload takes from the file name has no dot and no
    upper-case ASCII letter, so taking the extension again changes nothing;
    and the extension that the retrieval and the preview take from the URL
    of the upload is this same extension, whatever the origin and the
    clock: both look up the same MIME type as the upload did. *)
Theorem url_keeps_extension (ev : env) (cfg : config) (f : file) :
  let ext := extension (name f) in
  Str.has_dot ext = false /\
  Str.toLowerCase ext = ext /\
  extension ext = ext /\
  extension (upload_url ev cfg f) = ext /\
  getContentType (extension (upload_url ev cfg f)) = getContentType ext.
Proof.
  intros ext.
  assert (Hdot : Str.has_dot ext = false) by apply extension_no_dot.
  assert (Hlow : Str.toLowerCase ext = ext).
  { unfold ext, extension. apply toLowerCase_idem. }
  assert (Hurl : extension (upload_url ev cfg f) = ext).
  { unfold upload_url. fold ext.
    replace (origin cfg +:+ "/" +:+ pretty (now_time ev) +:+ "." +:+ ext)
      with ((origin cfg +:+ "/" +:+ pretty (now_time ev)) +:+ String "." ext).
    - unfold extension at 1. rewrite pop_split.
      by rewrite (tail_of_last_dot _ ext Hdot).
    - rewrite !append_assoc_text. by rewrite (append_cons "." EmptyString ext), append_empty. }
  split; [done|]. split; [done|]. split; [|split; [done|by rewrite Hurl]].
  unfold extension at 1. rewrite pop_split.
  by rewrite (no_dot_no_tail ext Hdot).
Qed.
